(** * cfbs: module resolution and manifest mutation

    A shallow embedding of [cfbs/core.py]: the module index, the manifest
    document and the add engine ([add_with_dependencies], [_add_using_url],
    [_add_modules], [add_command]), followed by the properties of the
    specification checked against it. *)

From Stdlib Require Import String Ascii List Bool Arith Lia DecimalString.
Import ListNotations.
Open Scope string_scope.

(** ** Python string and path operations used by core.py *)

Module Py.

(** [s.startswith(p)] *)
Definition startswith (s p : string) : bool := String.prefix p s.

(** [s.endswith(p)] *)
Definition endswith (s p : string) : bool :=
  let n := String.length s in
  let k := String.length p in
  Nat.leb k n && String.eqb (substring (n - k) k s) p.

(** [s.startswith((p1, p2, ...))] and [s.endswith((p1, p2, ...))] *)
Definition startswith_any (s : string) (ps : list string) : bool :=
  existsb (startswith s) ps.

Definition endswith_any (s : string) (ps : list string) : bool :=
  existsb (endswith s) ps.

(** [sub in s] on strings *)
Definition contains (sub s : string) : bool :=
  match String.index 0 sub s with Some _ => true | None => false end.

(** [x in l] on a list of strings *)
Definition mem (x : string) (l : list string) : bool :=
  existsb (String.eqb x) l.

(** [sep.join(l)] *)
Definition join (sep : string) (l : list string) : string := String.concat sep l.

(** [s.lower()], on the ASCII letters *)
Definition lower_ascii (c : ascii) : ascii :=
  let n := nat_of_ascii c in
  if Nat.leb 65 n && Nat.leb n 90 then ascii_of_nat (n + 32) else c.

Fixpoint lower (s : string) : string :=
  match s with
  | EmptyString => EmptyString
  | String c r => String (lower_ascii c) (lower r)
  end.

(** [s[n:]] *)
Definition drop (n : nat) (s : string) : string :=
  substring n (String.length s - n) s.

(** ["%d" % n] *)
Definition str_of_nat (n : nat) : string := NilEmpty.string_of_uint (Nat.to_uint n).

(** [os.path.basename(p)]: what follows the last slash *)
Fixpoint basename_from (acc p : string) : string :=
  match p with
  | EmptyString => acc
  | String c r =>
      if Ascii.eqb c "/"%char then basename_from EmptyString r
      else basename_from (acc ++ String c EmptyString) r
  end.

Definition basename (p : string) : string := basename_from EmptyString p.

(** [os.path.join(a, b)] *)
Definition path_join (a b : string) : string :=
  if startswith b "/" then b
  else if (a =? EmptyString) || endswith a "/" then a ++ b
  else a ++ "/" ++ b.

End Py.

(** ** Ordered dictionaries with string keys *)

Definition dict (V : Type) : Type := list (string * V).

Fixpoint dget {V} (k : string) (d : dict V) : option V :=
  match d with
  | [] => None
  | (k', v) :: r => if k' =? k then Some v else dget k r
  end.

(** [k in d] *)
Definition dmem {V} (k : string) (d : dict V) : bool :=
  match dget k d with Some _ => true | None => false end.

(** [d[k] = v]: an existing key keeps its position *)
Fixpoint dset {V} (k : string) (v : V) (d : dict V) : dict V :=
  match d with
  | [] => [(k, v)]
  | (k', v') :: r => if k' =? k then (k, v) :: r else (k', v') :: dset k v r
  end.

(** [{k: v for k, v in pairs}] *)
Definition dict_of_pairs {V} (pairs : list (string * V)) : dict V :=
  fold_left (fun d kv => dset (fst kv) (snd kv) d) pairs [].

(** [list(d.values())] *)
Definition dvalues {V} (d : dict V) : list V := map snd d.

(** ** Data model *)

(** The marker of a module the user asked for. *)
Definition CFBS_ADD : string := "cfbs add".

(** An entry of the index, or of a manifest's [provides] section.  A key that
    is absent from the JSON object is [None].  The last four keys are those
    of a module object that an entry may carry as well: [Index.get_module_object]
    copies them into the module. *)
Record Entry : Type := mkEntry {
  e_alias : option string;
  e_description : option string;
  e_tags : option (list string);
  e_dependencies : option (list string);
  e_steps : option (list string);
  e_subdirectory : option string;
  e_name : option string;
  e_url : option string;
  e_commit : option string;
  e_added_by : option string
}.

(** A module object, as built by the add engine and stored in [build]. *)
Record Module : Type := mkModule {
  name : option string;
  description : option string;
  url : option string;
  commit : option string;
  subdirectory : option string;
  tags : option (list string);
  dependencies : option (list string);
  steps : option (list string);
  added_by : option string;
  alias : option string
}.

(** [module["added_by"] = v] *)
Definition set_added_by (v : string) (m : Module) : Module :=
  mkModule (name m) (description m) (url m) (commit m) (subdirectory m)
           (tags m) (dependencies m) (steps m) (Some v) (alias m).

(** [{"name": n, **m}]: a name that [m] already has wins *)
Definition with_default_name (n : string) (m : Module) : Module :=
  mkModule (match name m with Some n' => Some n' | None => Some n end)
           (description m) (url m) (commit m) (subdirectory m)
           (tags m) (dependencies m) (steps m) (added_by m) (alias m).

(** The dictionary without any key, which is falsy. *)
Definition module_is_empty (m : Module) : bool :=
  match name m, description m, url m, commit m, subdirectory m,
        tags m, dependencies m, steps m, added_by m, alias m with
  | None, None, None, None, None, None, None, None, None, None => true
  | _, _, _, _, _, _, _, _, _, _ => false
  end.

(** The name that the module object of the index entry [e] under the key
    [n] carries: the [name] key of the entry when it has one, the key [n]
    otherwise. *)
Definition entry_name (n : string) (e : Entry) : string :=
  match e_name e with
  | Some own => own
  | None => n
  end.

(** A manifest document ([CFBSJson]) without its build list: the [provides]
    section of its data, its index in expanded form, and where it came from. *)
Record CFBSJson : Type := mkCFBSJson {
  cfg_provides : option (dict Entry);
  cfg_index : dict Entry;
  cfg_url : option string;
  cfg_url_commit : option string
}.

(** The [added_by] argument: a string, a list of strings or a dictionary. *)
Inductive AddedBy : Type :=
| ByStr (s : string)
| ByList (l : list string)
| ByDict (d : dict string).

(** ** Errors, output and the state of a run *)

Inductive error : Type :=
| UserError (msg : string)
| AssertionError
| KeyError (key : string)
| TypeError
| NameError (var : string)
| EOFError.

Inductive res (A : Type) : Type :=
| Ok (a : A)
| Err (e : error).
Arguments Ok {A} a.
Arguments Err {A} e.

Inductive event : Type :=
| Print (line : string)
| Warning (line : string)
| Prompt (line : string).

(** The build list of the manifest being edited, what has been written to the
    terminal and what is left to read from standard input. *)
Record State : Type := mkState {
  build : list Module;
  output : list event;
  stdin : list string
}.

(** A run returns, fails with the state reached, or needs deeper recursion
    than its fuel allows. *)
Inductive Outcome (A : Type) : Type :=
| Done (a : A) (st : State)
| Fail (e : error) (st : State)
| OutOfFuel.
Arguments Done {A} a st.
Arguments Fail {A} e st.
Arguments OutOfFuel {A}.

Definition M (A : Type) : Type := State -> Outcome A.

Definition ret {A} (a : A) : M A := fun st => Done a st.

Definition bind {A B} (m : M A) (k : A -> M B) : M B :=
  fun st =>
    match m st with
    | Done a st' => k a st'
    | Fail e st' => Fail e st'
    | OutOfFuel => OutOfFuel
    end.

Notation "x <- m ;; k" := (bind m (fun x => k))
  (at level 61, m at next level, right associativity).
Notation "m ;;; k" := (bind m (fun _ => k))
  (at level 61, right associativity).

Definition raise {A} (e : error) : M A := fun st => Fail e st.

Definition out_of_fuel {A} : M A := fun _ => OutOfFuel.

Definition lift {A} (r : res A) : M A :=
  match r with Ok a => ret a | Err e => raise e end.

(** [assert b] *)
Definition assert (b : bool) : M unit :=
  if b then ret tt else raise AssertionError.

(** Modelled from the spec: [cfbs.utils.user_error] is not part of the
    source at hand; failures are immediate, fatal, process-terminating
    diagnostics, so it ends the run with its message. *)
Definition user_error {A} (msg : string) : M A := raise (UserError msg).

Definition emit (e : event) : M unit :=
  fun st => Done tt (mkState (build st) (output st ++ [e]) (stdin st)).

Definition print (line : string) : M unit := emit (Print line).

Definition log_warning (line : string) : M unit := emit (Warning line).

(** [input(prompt)] *)
Definition input (prompt : string) : M string :=
  fun st =>
    match stdin st with
    | [] => Fail EOFError (mkState (build st) (output st ++ [Prompt prompt]) [])
    | l :: r => Done l (mkState (build st) (output st ++ [Prompt prompt]) r)
    end.

Definition get_build : M (list Module) := fun st => Done (build st) st.

Definition set_build (b : list Module) : M unit :=
  fun st => Done tt (mkState b (output st) (stdin st)).

(** [self["build"].append(m)] *)
Definition build_append (m : Module) : M unit :=
  fun st => Done tt (mkState (build st ++ [m]) (output st) (stdin st)).

(** [for x in l: f x] *)
Fixpoint for_each {A} (f : A -> M unit) (l : list A) : M unit :=
  match l with
  | [] => ret tt
  | x :: r => f x ;;; for_each f r
  end.

(** ** The collaborators of the core

    The file system, the helpers of [cfbs.utils], [cfbs.pretty] and
    [cfbs.internal_file_management], and the constant [SUPPORTED_ARCHIVES]
    are outside [core.py]; the core is parameterised by them. *)

Record Env : Type := mkEnv {
  os_path_exists : string -> bool;
  os_path_isfile : string -> bool;
  os_path_isdir : string -> bool;
  read_file : string -> string;
  (** [find(path, extension=".cf")] *)
  find : string -> list string;
  local_module_name : string -> res string;
  SUPPORTED_ARCHIVES : list string;
  (** both return the path of the fetched manifest and the commit *)
  fetch_archive : string -> option string -> res (string * string);
  clone_url_repo : string -> res (string * string);
  (** [read_json(path)]: the [provides] and [index] keys of the document *)
  read_json : string -> option (dict Entry) * option (dict Entry);
  (** the index behind [_DEFAULT_INDEX], once fetched *)
  default_index : dict Entry;
  pretty_entry : Entry -> string;
  pretty_data : CFBSJson -> string
}.

Section Core.

Variable env : Env.

(** ** Local modules *)

Definition _local_module_data_cf_file (module : string) : Module :=
  let target := Py.basename module in
  mkModule None
    (Some "Local policy file added using cfbs command line")
    None None None
    (Some ["local"])
    (Some ["autorun"])
    (Some ["copy " ++ module ++ " services/autorun/" ++ target])
    (Some "cfbs add")
    None.

Definition _local_module_data_json_file (module : string) : Module :=
  mkModule None
    (Some "Local augments file added using cfbs command line")
    None None None
    (Some ["local"])
    None
    (Some ["json " ++ module ++ " def.json"])
    (Some "cfbs add")
    None.

Definition _local_module_data_subdir (module : string) : res Module :=
  if negb (Py.startswith module "./") then Err AssertionError
  else
    let dst := Py.path_join (Py.path_join "services" "cfbs") (Py.drop 2 module) in
    Ok (mkModule None
          (Some "Local subdirectory added using cfbs command line")
          None None None
          (Some ["local"])
          None
          (Some ["directory " ++ module ++ " " ++ dst])
          (Some "cfbs add")
          None).

(** The result is [None] when the function falls off its end. *)
Definition _generate_local_module_object (module : string) : res (option Module) :=
  if negb (Py.startswith module "./") then Err AssertionError
  else if negb (Py.endswith_any module [".cf"; ".json"; "/"]) then Err AssertionError
  else if negb (os_path_isfile env module || os_path_isdir env module) then Err AssertionError
  else if os_path_isdir env module then
    match _local_module_data_subdir module with
    | Ok m => Ok (Some m)
    | Err e => Err e
    end
  else if Py.endswith module ".cf" then Ok (Some (_local_module_data_cf_file module))
  else if Py.endswith module ".json" then Ok (Some (_local_module_data_json_file module))
  else Ok None.

(** ** Index *)

(** [key in index] *)
Definition Index_contains (index : dict Entry) (key : string) : bool := dmem key index.

(** [index[key]] *)
Definition Index_getitem (index : dict Entry) (key : string) : res Entry :=
  match dget key index with
  | Some e => Ok e
  | None => Err (KeyError key)
  end.

Definition Index_get (index : dict Entry) (key : string) (default : option Entry)
  : option Entry :=
  if negb (Index_contains index key) then default else dget key index.

Definition Index_exists (index : dict Entry) (module : string) : bool :=
  os_path_exists env module || Index_contains index module.

(** [OrderedDict({"name": name})] updated with the entry: every key of the
    entry is copied, and a [name] key of the entry replaces [name] *)
Definition module_of_entry (n : string) (e : Entry) : Module :=
  mkModule (Some (entry_name n e)) (e_description e) (e_url e) (e_commit e)
           (e_subdirectory e) (e_tags e) (e_dependencies e) (e_steps e)
           (e_added_by e) (e_alias e).

Definition Index_get_module_object (index : dict Entry) (n : string)
  : res (option Module) :=
  if Py.startswith n "./" then _generate_local_module_object n
  else
    match Index_getitem index n with
    | Ok e => Ok (Some (module_of_entry n e))
    | Err e => Err e
    end.

(** ** Provided modules *)

Definition _construct_provided_module
  (n : string) (data : Entry) (u uc : option string) : res Module :=
  match e_description data with
  | None =>
      Err (UserError ("missing required key 'description' in module definition: "
                      ++ pretty_entry env data))
  | Some descr =>
      let subdir :=
        match e_subdirectory data with
        | Some s => if s =? EmptyString then None else Some s
        | None => None
        end in
      let deps :=
        match e_dependencies data with
        | Some (d :: r) => Some (d :: r)
        | _ => None
        end in
      match e_steps data with
      | None =>
          Err (UserError ("missing required key 'steps' in module definition: "
                          ++ pretty_entry env data))
      | Some st =>
          Ok (mkModule (Some n) (Some descr) u uc subdir None deps (Some st)
                       (Some "cfbs add") None)
      end
  end.

(** ** CFBSJson *)

(** The constructor, for a manifest read from [path]. *)
Definition CFBSJson_init (path : string) (u uc : option string) : CFBSJson :=
  let data := read_json env path in
  mkCFBSJson (fst data)
             (match snd data with Some i => i | None => default_index env end)
             u uc.

Fixpoint provided_modules (u uc : option string) (items : list (string * Entry))
  (modules : dict Module) : res (dict Module) :=
  match items with
  | [] => Ok modules
  | (k, v) :: r =>
      match _construct_provided_module k v u uc with
      | Ok m => provided_modules u uc r (dset k m modules)
      | Err e => Err e
      end
  end.

Definition get_provides (self : CFBSJson) : res (dict Module) :=
  match cfg_provides self with
  | None =>
      Err (UserError ("missing required key 'provides' in module definition: "
                      ++ pretty_data env self))
  | Some p => provided_modules (cfg_url self) (cfg_url_commit self) p []
  end.

Definition get_module_for_build (self : CFBSJson) (n : string) (dependent : option string)
  : res (option Module) :=
  match match cfg_provides self with Some p => dget n p | None => None end with
  | Some module =>
      match _construct_provided_module n module (cfg_url self) (cfg_url_commit self) with
      | Ok m => Ok (Some m)
      | Err e => Err e
      end
  | None =>
      if Index_contains (cfg_index self) n
      then Index_get_module_object (cfg_index self) n
      else Ok None
  end.

(** [n in (m["name"] for m in build)]: the generator stops at the first hit *)
Fixpoint name_in_build (n : string) (b : list Module) : res bool :=
  match b with
  | [] => Ok false
  | m :: r =>
      match name m with
      | None => Err (KeyError "name")
      | Some n' => if n' =? n then Ok true else name_in_build n r
      end
  end.

Definition _module_is_in_build (module : Module) : M bool :=
  match name module with
  | None => raise (KeyError "name")
  | Some n => b <- get_build ;; lift (name_in_build n b)
  end.

(** ** Add-time validation *)

(** The double quote character. *)
Definition dquote : string := String (ascii_of_nat 34) EmptyString.

(** The last line of both warnings: the tag to write in the policy. *)
Definition AUTORUN_HINT : string :=
  "  meta: " ++ dquote ++ "tags" ++ dquote ++ " slist => { "
  ++ dquote ++ "autorun" ++ dquote ++ " };".

Definition _has_autorun_tag (filename : string) : res bool :=
  if negb (os_path_isfile env filename) then Err AssertionError
  else
    let content := read_file env filename in
    Ok (Py.contains "meta:" content
        && Py.contains "tags" content
        && Py.contains "slist" content
        && Py.contains "autorun" content).

(** [any(x for x in files if _has_autorun_tag(x))], evaluated lazily *)
Fixpoint any_with_autorun (files : list string) : res bool :=
  match files with
  | [] => Ok false
  | x :: r =>
      match _has_autorun_tag x with
      | Err e => Err e
      | Ok true => if x =? EmptyString then any_with_autorun r else Ok true
      | Ok false => any_with_autorun r
      end
  end.

(** [any(files)]: some file name is not empty *)
Definition any_str (files : list string) : bool :=
  existsb (fun x => negb (x =? EmptyString)) files.

Definition validate_added_module (module : Module) : M unit :=
  match name module with
  | None => raise (KeyError "name")
  | Some n =>
      if Py.startswith n "./" && Py.endswith n ".cf" then
        assert (os_path_isfile env n) ;;;
        tagged <- lift (_has_autorun_tag n) ;;
        if negb tagged then
          log_warning ("No autorun tag found in policy file: '" ++ n ++ "'") ;;;
          log_warning "Tag the bundle(s) you want evaluated:" ;;;
          log_warning AUTORUN_HINT
        else ret tt
      else if Py.startswith n "./" && Py.endswith n "/" then
        assert (os_path_isdir env n) ;;;
        let policy_files := find env n in
        if any_str policy_files then
          with_autorun <- lift (any_with_autorun policy_files) ;;
          if negb with_autorun then
            log_warning ("No bundles tagged with autorun found in: '" ++ n ++ "'") ;;;
            log_warning "Tag the bundle(s) you want evaluated in .cf policy files:" ;;;
            log_warning AUTORUN_HINT
          else ret tt
        else ret tt
      else ret tt
  end.

(** ** The recursive add *)

(** Truth value of [dependent]: neither [None] nor the empty string. *)
Definition truthy (s : option string) : bool :=
  match s with
  | Some x => negb (x =? EmptyString)
  | None => false
  end.

(** [module] when it is truthy: [None] and the dictionary without keys are
    falsy. *)
Definition truthy_module (module : option Module) : option Module :=
  match module with
  | Some m => if module_is_empty m then None else Some m
  | None => None
  end.

(** Fuel is spent by the recursive calls only: a call that needs no deeper
    recursion than [fuel] returns or fails, never [OutOfFuel].  When a
    module object is passed, [module_str] is not bound: the message for a
    falsy module cannot be built, and the [UnboundLocalError], a [NameError],
    is raised in its place. *)
Fixpoint add_with_dependencies (fuel : nat) (self : CFBSJson)
  (module : string + Module) (remote_config : option CFBSJson)
  (dependent : option string) {struct fuel} : M unit :=
  resolved <-
    match module with
    | inl module_str =>
        lift (get_module_for_build
                (match remote_config with Some r => r | None => self end)
                module_str dependent)
    | inr m => ret (Some m)
    end ;;
  match truthy_module resolved with
  | None =>
      match module with
      | inl module_str => user_error ("Module '" ++ module_str ++ "' not found")
      | inr _ => raise (NameError "module_str")
      end
  | Some m =>
      match name m with
      | None => raise AssertionError
      | Some n =>
          assert (match steps m with Some _ => true | None => false end) ;;;
          present <- _module_is_in_build m ;;
          if present then print ("Skipping already added module '" ++ n ++ "'")
          else
            match dependencies m with
            | Some deps =>
                for_each
                  (fun dep =>
                     match fuel with
                     | O => out_of_fuel
                     | S f => add_with_dependencies f self (inl dep) remote_config (Some n)
                     end)
                  deps
            | None => ret tt
            end ;;;
            build_append m ;;;
            (if truthy dependent
             then print ("Added module: " ++ n ++ " (Dependency of "
                         ++ match dependent with Some d => d | None => EmptyString end ++ ")")
             else print ("Added module: " ++ n)) ;;;
            validate_added_module m
      end
  end.

(** ** Bulk add from a remote source *)

Definition URL_SCHEMES : list string := ["https://"; "git://"; "ssh://"].

(** [[provides[k] for k in to_add]] *)
Fixpoint select_provided (provides : dict Module) (to_add : list string)
  : res (list Module) :=
  match to_add with
  | [] => Ok []
  | k :: r =>
      match dget k provides with
      | None => Err (KeyError k)
      | Some m =>
          match select_provided provides r with
          | Ok ms => Ok (m :: ms)
          | Err e => Err e
          end
      end
  end.

(** The first statement of [_add_using_url]: the archive or the repository
    is fetched. *)
Definition fetch_config (u : string) (checksum : option string) : M (string * string) :=
  if Py.endswith_any u (SUPPORTED_ARCHIVES env)
  then lift (fetch_archive env u checksum)
  else assert (Py.startswith_any u URL_SCHEMES) ;;; lift (clone_url_repo env u).

Definition _add_using_url (fuel : nat) (self : CFBSJson) (u : string)
  (to_add : list string) (added_by : AddedBy) (checksum : option string)
  (non_interactive : bool) : M nat :=
  fetched <- fetch_config u checksum ;;
  let remote_config := CFBSJson_init (fst fetched) (Some u) (Some (snd fetched)) in
  provides <- lift (get_provides remote_config) ;;
  let add_all (modules : list Module) : M nat :=
    for_each
      (fun module => add_with_dependencies fuel self (inr module) (Some remote_config) None)
      modules ;;;
    ret 0 in
  if Nat.eqb (List.length to_add) 0 then
    let modules := dvalues provides in
    print ("Found " ++ Py.str_of_nat (List.length modules) ++ " modules in '" ++ u ++ "':") ;;;
    for_each
      (fun m =>
         match name m with
         | Some n => print ("  - " ++ n)
         | None => raise (KeyError "name")
         end)
      modules ;;;
    match modules with
    | [] => user_error "no modules available, nothing to do"
    | _ :: _ =>
        if negb non_interactive then
          answer <- input ("Do you want to add all "
                           ++ Py.str_of_nat (List.length modules) ++ " of them? [y/N] ") ;;
          if negb (Py.mem (Py.lower answer) ["y"; "yes"]) then ret 0
          else add_all modules
        else add_all modules
    end
  else
    let missing := filter (fun k => negb (dmem k provides)) to_add in
    match missing with
    | _ :: _ => user_error ("Missing modules: " ++ Py.join ", " missing)
    | [] =>
        modules <- lift (select_provided provides to_add) ;;
        add_all modules
    end.

(** ** Direct add of catalog and local references *)

(** The test of [add_command] on the first reference. *)
Definition is_remote_url (s : string) : bool :=
  Py.endswith_any s (SUPPORTED_ARCHIVES env) || Py.startswith_any s URL_SCHEMES.

(** One turn of the loop that translates aliases and local paths. *)
Definition translate_module (index : dict Entry) (module : string) : M string :=
  if negb (Index_exists index module) then
    user_error ("Module '" ++ module ++ "' does not exist")
  else if negb (Index_contains index module) && os_path_exists env module then
    lift (local_module_name env module)
  else
    data <- lift (Index_getitem index module) ;;
    match e_alias data with
    | Some target => print (module ++ " is an alias for " ++ target) ;;; ret target
    | None => ret module
    end.

Fixpoint translate (index : dict Entry) (to_add : list string) : M (list string) :=
  match to_add with
  | [] => ret []
  | module :: r =>
      t <- translate_module index module ;;
      ts <- translate index r ;;
      ret (t :: ts)
  end.

(** String to list, list to dictionary, and the check that every reference
    has an attribution. *)
Definition added_by_dict (to_add : list string) (added_by : AddedBy) : res (dict string) :=
  let check (d : dict string) :=
    if existsb (fun k => negb (dmem k d)) to_add then Err AssertionError else Ok d in
  match
    match added_by with
    | ByStr s => ByList (repeat s (List.length to_add))
    | other => other
    end
  with
  | ByDict d => check d
  | ByList l =>
      if Nat.eqb (List.length l) (List.length to_add)
      then check (dict_of_pairs (combine to_add l))
      else Err AssertionError
  | ByStr _ => Err TypeError
  end.

(** [[m for m in to_add if not m.startswith("./") and m not in index]] *)
Definition missing_modules (index : dict Entry) (to_add : list string) : list string :=
  filter (fun m => negb (Py.startswith m "./") && negb (Index_contains index m)) to_add.

(** The loop that marks modules added earlier as dependencies as requested by
    the user.  It updates the entries in place, so an error leaves the entries
    before it updated. *)
Fixpoint promote (to_add : list string) (added_by : dict string) (b : list Module)
  : list Module * option error :=
  match b with
  | [] => ([], None)
  | module :: r =>
      match name module with
      | None => (module :: r, Some (KeyError "name"))
      | Some n =>
          if Py.mem n to_add then
            match dget n added_by with
            | None => (module :: r, Some (KeyError n))
            | Some new_added_by =>
                let module' :=
                  if new_added_by =? "cfbs add" then set_added_by "cfbs add" module
                  else module in
                let (r', e) := promote to_add added_by r in
                (module' :: r', e)
            end
          else
            let (r', e) := promote to_add added_by r in
            (module :: r', e)
      end
  end.

Definition promote_build (to_add : list string) (added_by : dict string) : M unit :=
  fun st =>
    let (b, e) := promote to_add added_by (build st) in
    let st' := mkState b (output st) (stdin st) in
    match e with
    | None => Done tt st'
    | Some err => Fail err st'
    end.

(** [[m["name"] for m in build]] *)
Fixpoint build_names (b : list Module) : res (list string) :=
  match b with
  | [] => Ok []
  | m :: r =>
      match name m with
      | None => Err (KeyError "name")
      | Some n =>
          match build_names r with
          | Ok ns => Ok (n :: ns)
          | Err e => Err e
          end
      end
  end.

(** The loop that filters the modules which are already added.  Its variable
    [user_requested] is read again after the loop, by the loop that appends:
    it is returned with the list. *)
Fixpoint filter_added (added_by : dict string) (added to_add filtered : list string)
  (user_requested : option bool) : M (list string * option bool) :=
  match to_add with
  | [] => ret (filtered, user_requested)
  | module :: r =>
      match dget module added_by with
      | None => raise (KeyError module)
      | Some by_whom =>
          let requested := by_whom =? "cfbs add" in
          if Py.mem module (added ++ filtered) then
            (if requested then print ("Skipping already added module: " ++ module)
             else ret tt) ;;;
            filter_added added_by added r filtered (Some requested)
          else filter_added added_by added r (filtered ++ [module]) (Some requested)
      end
  end.

(** The inner loop over the dependencies of one module. *)
Fixpoint collect_deps (seen : list string) (module : string) (deps : list string)
  (dependencies dependencies_added_by : list string) : list string * list string :=
  match deps with
  | [] => (dependencies, dependencies_added_by)
  | dep :: r =>
      if Py.mem dep (seen ++ dependencies)
      then collect_deps seen module r dependencies dependencies_added_by
      else collect_deps seen module r (dependencies ++ [dep])
                        (dependencies_added_by ++ [module])
  end.

(** The loop that finds all unmet dependencies; [found] and [found_by] are
    its lists [dependencies] and [dependencies_added_by]. *)
Fixpoint unmet_dependencies (index : dict Entry) (added filtered modules : list string)
  (found found_by : list string) : res (list string * list string) :=
  match modules with
  | [] => Ok (found, found_by)
  | module :: r =>
      if negb (Index_exists index module) then Err AssertionError
      else
        match Index_get_module_object index module with
        | Err e => Err e
        | Ok None => Err TypeError
        | Ok (Some data) =>
            match alias data with
            | Some _ => Err AssertionError
            | None =>
                let more :=
                  match dependencies data with
                  | Some deps => collect_deps (added ++ filtered) module deps found found_by
                  | None => (found, found_by)
                  end in
                unmet_dependencies index added filtered r (fst more) (snd more)
            end
        end
  end.

(** One turn of the loop that appends the modules. *)
Definition append_module (index : dict Entry) (added_by : dict string)
  (user_requested : option bool) (module : string) : M unit :=
  assert (Index_exists index module) ;;;
  data <- lift (Index_get_module_object index module) ;;
  match data with
  | None => raise TypeError
  | Some data =>
      match dget module added_by with
      | None => raise (KeyError module)
      | Some by_whom =>
          let new_module := set_added_by by_whom (with_default_name module data) in
          build_append new_module ;;;
          match user_requested with
          | None => raise (NameError "user_requested")
          | Some true => print ("Added module: " ++ module)
          | Some false =>
              print ("Added module: " ++ module ++ " (Dependency of " ++ by_whom ++ ")")
          end ;;;
          validate_added_module new_module
      end
  end.

(** [add_command], over the function it calls for a direct add. *)
Definition add_command_with (add_modules : list string -> AddedBy -> M nat)
  (fuel : nat) (self : CFBSJson) (to_add : list string) (added_by : AddedBy)
  (checksum : option string) (non_interactive : bool) : M nat :=
  match to_add with
  | [] => user_error "Must specify at least one module to add"
  | first :: rest =>
      if is_remote_url first
      then _add_using_url fuel self first rest added_by checksum non_interactive
      else add_modules to_add added_by
  end.

(** The body reads neither [index_path], [checksum] nor [non_interactive]:
    they are left out.  Fuel is spent by the recursive call only. *)
Fixpoint _add_modules (fuel : nat) (self : CFBSJson) (to_add : list string)
  (added_by : AddedBy) {struct fuel} : M nat :=
  let index := cfg_index self in
  translated <- translate index to_add ;;
  let to_add := translated in
  added_by <- lift (added_by_dict to_add added_by) ;;
  match missing_modules index to_add with
  | (_ :: _) as missing =>
      user_error ("Module(s) could not be found: " ++ Py.join ", " missing)
  | [] =>
      promote_build to_add added_by ;;;
      b <- get_build ;;
      added <- lift (build_names b) ;;
      kept <- filter_added added_by added to_add [] None ;;
      let filtered := fst kept in
      let user_requested := snd kept in
      found <- lift (unmet_dependencies index added filtered filtered [] []) ;;
      let dependencies := fst found in
      let dependencies_added_by := snd found in
      match dependencies with
      | [] => ret tt
      | _ :: _ =>
          match fuel with
          | O => out_of_fuel
          | S f =>
              add_command_with (_add_modules f self) f self
                               dependencies (ByList dependencies_added_by) None false ;;;
              ret tt
          end
      end ;;;
      for_each (append_module index added_by user_requested) filtered ;;;
      ret 0
  end.

Definition add_command (fuel : nat) (self : CFBSJson) (to_add : list string)
  (added_by : AddedBy) (checksum : option string) (non_interactive : bool) : M nat :=
  add_command_with (_add_modules fuel self) fuel self to_add added_by checksum
                   non_interactive.

End Core.

(** ** Properties of a build list *)

(** The names of the entries, in order; an entry without a name is skipped. *)
Fixpoint entry_names (b : list Module) : list string :=
  match b with
  | [] => []
  | m :: r =>
      match name m with
      | Some n => n :: entry_names r
      | None => entry_names r
      end
  end.

(** No two entries have the same name. *)
Fixpoint unique_names (b : list Module) : bool :=
  match b with
  | [] => true
  | m :: r =>
      match name m with
      | Some n => negb (Py.mem n (entry_names r)) && unique_names r
      | None => unique_names r
      end
  end.

(** Every dependency of an entry is the name of an entry before it; [before]
    holds the names of the entries already passed. *)
Fixpoint dependencies_ordered_from (before : list string) (b : list Module) : bool :=
  match b with
  | [] => true
  | m :: r =>
      forallb (fun d => Py.mem d before)
              (match dependencies m with Some deps => deps | None => [] end)
      && dependencies_ordered_from
           (match name m with Some n => before ++ [n] | None => before end) r
  end.

Definition dependencies_ordered (b : list Module) : bool :=
  dependencies_ordered_from [] b.

(** The name and the attribution of every entry. *)
Definition attributions (b : list Module) : list (option string * option string) :=
  map (fun m => (name m, added_by m)) b.

(** An entry whose attribution is the marker of a user request. *)
Definition user_requested_entry (m : Module) : bool :=
  match added_by m with
  | Some v => v =? "cfbs add"
  | None => false
  end.

(** A build list [b'] continues [b]: the entries of [b] are still there, at
    the same places and under the same names, each one either as it was or
    with its attribution set to the marker of a user request; new entries
    only follow them. *)
Inductive continues : list Module -> list Module -> Prop :=
| continues_nil : forall extra, continues [] extra
| continues_same : forall m b b', continues b b' -> continues (m :: b) (m :: b')
| continues_promoted : forall m b b',
    continues b b' -> continues (m :: b) (set_added_by "cfbs add" m :: b').

(** The run has ended: it returned or failed. *)
Definition terminates {A} (o : Outcome A) : Prop :=
  match o with
  | OutOfFuel => False
  | _ => True
  end.

(** The state a run ended in. *)
Definition final_state {A} (o : Outcome A) : option State :=
  match o with
  | Done _ st => Some st
  | Fail _ st => Some st
  | OutOfFuel => None
  end.

(** A computation under which the build list only continues, whether it
    returns or fails. *)
Definition extends_build {A} (m : M A) : Prop :=
  forall st st', final_state (m st) = Some st' -> continues (build st) (build st').

(** A computation that ends in every state. *)
Definition total {A} (m : M A) : Prop := forall st, terminates (m st).

(** [Index.exists] as the specification words it: a local path with one of
    the three endings that exists, or a key of the catalog. *)
Definition Index_exists_spec (env : Env) (index : dict Entry) (n : string) : bool :=
  (Py.endswith_any n [".cf"; ".json"; "/"] && os_path_exists env n)
  || Index_contains index n.

(** A reference that the first loop of the direct add accepts: a key of the
    catalog, or a path that exists and that [local_module_name] accepts. *)
Definition translatable (env : Env) (index : dict Entry) (r : string) : Prop :=
  Index_contains index r = true
  \/ (os_path_exists env r = true /\ exists t, local_module_name env r = Ok t).

(** The dependencies of a module object; none when the key is absent. *)
Definition deps_of (m : Module) : list string :=
  match dependencies m with
  | Some deps => deps
  | None => []
  end.

(** The build list with the attribution of every entry named in [to_add] set
    to the marker of a user request. *)
Definition marked_as_requested (to_add : list string) (b : list Module) : list Module :=
  map (fun m => match name m with
                | Some n => if Py.mem n to_add then set_added_by "cfbs add" m else m
                | None => m
                end) b.

(** Every entry of the index is named after its key: it has no [name] key
    of its own, or one that repeats the key. *)
Definition named_after_keys (index : dict Entry) : bool :=
  forallb (fun kv => match e_name (snd kv) with
                     | Some own => own =? fst kv
                     | None => true
                     end) index.

(** The build list [b'] is [b] followed by new entries, and every dependency
    of a new entry is the name of an entry before it. *)
Definition appended_in_order (b b' : list Module) : Prop :=
  exists extra,
    b' = (b ++ extra)%list
    /\ dependencies_ordered_from (entry_names b) extra = true.

(** A computation that only appends to the build list, in the order of the
    dependencies, whether it returns or fails. *)
Definition appends_in_order {A} (m : M A) : Prop :=
  forall st st', final_state (m st) = Some st' -> appended_in_order (build st) (build st').

(** A computation that reads no line of the input, whether it returns or
    fails. *)
Definition reads_nothing {A} (m : M A) : Prop :=
  forall st st', final_state (m st) = Some st' -> stdin st' = stdin st.

(** A rank for the recursive add: the dependencies of the module that a name
    resolves to, in the manifest that resolves it, have a smaller rank than
    the name. *)
Definition ranked_for_recursive_add (env : Env) (cfg : CFBSJson) (rank : string -> nat)
  : Prop :=
  forall n dependent m d,
    get_module_for_build env cfg n dependent = Ok (Some m) ->
    In d (deps_of m) ->
    rank d < rank n.

(** A rank for the direct add: the dependencies of the module that a
    reference is translated to have a smaller rank than the reference. *)
Definition ranked_for_direct_add (env : Env) (index : dict Entry) (rank : string -> nat)
  : Prop :=
  forall r t st st1 m d,
    translate_module env index r st = Done t st1 ->
    Index_get_module_object env index t = Ok (Some m) ->
    In d (deps_of m) ->
    rank d < rank r.

(** A rank for the remote sources: in the manifest fetched from a URL the
    rank decreases along the dependencies, and the dependencies of the
    modules that the manifest provides have a smaller rank than the URL. *)
Definition ranked_for_remote_sources (env : Env) (rank : string -> nat) : Prop :=
  forall u checksum st fetched st1,
    fetch_config env u checksum st = Done fetched st1 ->
    let remote := CFBSJson_init env (fst fetched) (Some u) (Some (snd fetched)) in
    ranked_for_recursive_add env remote rank
    /\ forall provides m d,
         get_provides env remote = Ok provides ->
         In m (dvalues provides) ->
         In d (deps_of m) ->
         rank d < rank u.

(** ** Worlds and manifests used as examples *)

Module Fixtures.

(** An index entry with the given alias and dependencies. *)
Definition entry (al : option string) (deps : option (list string)) : Entry :=
  mkEntry al (Some "An example module") None deps (Some ["copy ./policy.cf services/"]) None
          None None None None.

(** What a remote repository provides: [m1] depends on [m2], [m3] on the
    module [c] of the remote index. *)
Definition remote_provides : dict Entry :=
  [("m1", entry None (Some ["m2"])); ("m2", entry None None);
   ("m3", entry None (Some ["c"]))].

Definition remote_index : dict Entry := [("c", entry None None)].

(** A world in which the paths in [paths] exist as files, and the repository
    behind every URL provides [remote_provides]. *)
Definition world (paths : list string) : Env :=
  mkEnv (fun p => Py.mem p paths)
        (fun p => Py.mem p paths)
        (fun _ => false)
        (fun _ => "bundle agent main { }")
        (fun _ => [])
        (fun p => if Py.startswith p "./" then Ok p else Ok ("./" ++ p))
        [".zip"; ".tar.gz"; ".tgz"]
        (fun _ _ => Ok ("/tmp/archive/cfbs.json", "c0ffee"))
        (fun _ => Ok ("/tmp/clone/cfbs.json", "c0ffee"))
        (fun _ => (Some remote_provides, Some remote_index))
        []
        (fun _ => "{...}")
        (fun _ => "{...}").

Definition empty_world : Env := world [].

(** The local manifest, with the given index. *)
Definition manifest (index : dict Entry) : CFBSJson := mkCFBSJson None index None None.

(** [a] depends on [b], [b] on [c]. *)
Definition chain_index : dict Entry :=
  [("a", entry None (Some ["b"])); ("b", entry None (Some ["c"])); ("c", entry None None)].

(** [a] depends on [b]. *)
Definition pair_index : dict Entry :=
  [("a", entry None (Some ["b"])); ("b", entry None None)].

(** [a] and [b], without dependencies. *)
Definition flat_index : dict Entry :=
  [("a", entry None None); ("b", entry None None)].

(** [a] depends on [b] and [b] on [a]. *)
Definition cyclic_index : dict Entry :=
  [("a", entry None (Some ["b"])); ("b", entry None (Some ["a"]))].

(** A module whose name is the marker of a user request: [x] depends on
    [d1], the module named [cfbs add] on [d2]. *)
Definition marker_index : dict Entry :=
  [("x", entry None (Some ["d1"])); ("cfbs add", entry None (Some ["d2"]));
   ("d1", entry None None); ("d2", entry None None)].

(** Two aliases whose targets are not in the catalog. *)
Definition alias_index : dict Entry :=
  [("old1", entry (Some "gone1") None); ("old2", entry (Some "gone2") None)].

(** What a remote repository with a dependency cycle provides. *)
Definition cyclic_provides : dict Entry :=
  [("m1", entry None (Some ["m2"])); ("m2", entry None (Some ["m1"]))].

Definition cyclic_remote : CFBSJson :=
  mkCFBSJson (Some cyclic_provides) [] (Some "https://example.com/repo") (Some "c0ffee").

(** The build list after [a] of [pair_index] was added: [b] came first, as
    its dependency. *)
Definition built_pair : list Module :=
  [set_added_by "a" (module_of_entry "b" (entry None None));
   set_added_by "cfbs add" (module_of_entry "a" (entry None (Some ["b"])))].

(** The same after [b] was asked for as well. *)
Definition built_pair_promoted : list Module :=
  [set_added_by "cfbs add" (module_of_entry "b" (entry None None));
   set_added_by "cfbs add" (module_of_entry "a" (entry None (Some ["b"])))].

(** The manifest of the remote repository of [world]. *)
Definition remote : CFBSJson :=
  mkCFBSJson (Some remote_provides) remote_index
             (Some "https://example.com/repo") (Some "c0ffee").

(** A rank for [chain_index] and for [remote]: the length of the longest
    chain of dependencies below a name, and a rank above those of all
    modules for the URL of a remote source. *)
Definition rank (n : string) : nat :=
  if is_remote_url empty_world n then 3
  else if n =? "a" then 2
  else if n =? "b" then 1
  else if n =? "m1" then 1
  else if n =? "m3" then 1
  else 0.

(** An empty build list, nothing printed, and the given lines to read. *)
Definition fresh (lines : list string) : State := mkState [] [] lines.

Definition REPO : string := "https://example.com/repo".


(** [old] is an alias of [a]; [older] is an alias of the alias [old]. *)
Definition renamed_index : dict Entry :=
  [("older", entry (Some "old") None); ("old", entry (Some "a") None);
   ("a", entry None None); ("autorun", entry None None)].

(** A world like [empty_world] whose remote repository provides nothing. *)
Definition barren_world : Env :=
  mkEnv (fun _ => false) (fun _ => false) (fun _ => false)
        (fun _ => "bundle agent main { }")
        (fun _ => [])
        (fun p => Ok p)
        [".zip"; ".tar.gz"; ".tgz"]
        (fun _ _ => Ok ("/tmp/archive/cfbs.json", "c0ffee"))
        (fun _ => Ok ("/tmp/clone/cfbs.json", "c0ffee"))
        (fun _ => (Some [], None))
        []
        (fun _ => "{...}")
        (fun _ => "{...}").

(** A world with a directory of one policy file without the autorun tag, an
    augments file and a policy file with the tag. *)
Definition tree_world : Env :=
  mkEnv (fun p => Py.mem p ["./policies/"; "./policies/a.cf"; "./vars.json"; "vars.json";
                           "./tagged.cf"])
        (fun p => Py.mem p ["./policies/a.cf"; "./vars.json"; "vars.json"; "./tagged.cf"])
        (fun p => Py.mem p ["./policies/"])
        (fun p => if p =? "./tagged.cf"
                  then "bundle agent main { meta: tags slist => { autorun }; }"
                  else "bundle agent main { }")
        (fun p => if p =? "./policies/" then ["./policies/a.cf"] else [])
        (fun p => if Py.startswith p "./" then Ok p else Ok ("./" ++ p))
        [".zip"; ".tar.gz"; ".tgz"]
        (fun _ _ => Ok ("/tmp/archive/cfbs.json", "c0ffee"))
        (fun _ => Ok ("/tmp/clone/cfbs.json", "c0ffee"))
        (fun _ => (Some remote_provides, Some remote_index))
        []
        (fun _ => "{...}")
        (fun _ => "{...}").

End Fixtures.

(** * Properties *)

(** ** The entry point *)

(** C10: [add_command] with an empty list of references fails at once with
    the diagnostic that at least one module must be given; the state is the
    one it was called in: nothing is fetched, resolved, printed or appended. *)
Theorem add_command_empty_fails :
  forall env fuel self added_by checksum non_interactive st,
    add_command env fuel self [] added_by checksum non_interactive st
    = Fail (UserError "Must specify at least one module to add") st.
Proof. intros. reflexivity. Qed.

(** ** Index.exists *)

Lemma dmem_true_iff {V} (k : string) (d : dict V) :
  dmem k d = true <-> exists v, dget k d = Some v.
Proof.
  unfold dmem. destruct (dget k d) as [v|].
  - split; [eauto | reflexivity].
  - split; [discriminate | intros [v H]; discriminate].
Qed.

(** C8, as the code has it: [Index.exists] is true exactly when the name
    exists on disk, whatever its ending, or is a key of the catalog. *)
Theorem Index_exists_iff :
  forall env index n,
    Index_exists env index n = true
    <-> os_path_exists env n = true \/ exists e, dget n index = Some e.
Proof.
  intros env index n. unfold Index_exists, Index_contains.
  rewrite orb_true_iff, dmem_true_iff. reflexivity.
Qed.

(** C8, as stated, fails: [README] exists on disk, has none of the three
    endings and is no key of the catalog, and [Index.exists] is true. *)
Lemma Index_exists_ignores_ending :
  let env := Fixtures.world ["README"] in
  os_path_exists env "README" = true
  /\ Py.endswith_any "README" [".cf"; ".json"; "/"] = false
  /\ Index_contains [] "README" = false
  /\ Index_exists_spec env [] "README" = false
  /\ Index_exists env [] "README" = true.
Proof. repeat split; reflexivity. Qed.

(** ** The recursive add fails to attribute dependencies *)

(** C5: [m1] of a remote repository depends on [m2]; adding [m1] appends
    [m2] with the marker of a user request as its attribution, not [m1].
    [m3] depends on [c] of the index; [c] is appended without attribution. *)
Theorem recursive_add_attribution :
  (exists st,
      add_command Fixtures.empty_world 1 (Fixtures.manifest [])
                  [Fixtures.REPO; "m1"] (ByStr "cfbs add") None true (Fixtures.fresh [])
      = Done 0 st
      /\ attributions (build st)
         = [(Some "m2", Some "cfbs add"); (Some "m1", Some "cfbs add")])
  /\ (exists st,
      add_command Fixtures.empty_world 1 (Fixtures.manifest [])
                  [Fixtures.REPO; "m3"] (ByStr "cfbs add") None true (Fixtures.fresh [])
      = Done 0 st
      /\ attributions (build st) = [(Some "c", None); (Some "m3", Some "cfbs add")]).
Proof. split; eexists; split; vm_compute; reflexivity. Qed.

(** ** The direct add and the order of a batch *)

(** C2: in [pair_index], [a] depends on [b].  Adding [a] and [b] in one
    request appends [a] before [b]: the dependency follows its dependent. *)
Theorem direct_add_breaks_dependency_order :
  exists st,
    add_command Fixtures.empty_world 2 (Fixtures.manifest Fixtures.pair_index)
                ["a"; "b"] (ByStr "cfbs add") None false (Fixtures.fresh [])
    = Done 0 st
    /\ entry_names (build st) = ["a"; "b"]
    /\ map dependencies (build st) = [Some ["b"]; None]
    /\ dependencies_ordered (build (Fixtures.fresh [])) = true
    /\ dependencies_ordered (build st) = false.
Proof. eexists; repeat split; vm_compute; reflexivity. Qed.

(** C3: in [chain_index], [a] depends on [b] and [b] on [c].  Adding [a]
    and [c] in one request appends [c] twice: once as a dependency of [b],
    once as requested. *)
Theorem direct_add_duplicates_entry :
  exists st,
    add_command Fixtures.empty_world 2 (Fixtures.manifest Fixtures.chain_index)
                ["a"; "c"] (ByStr "cfbs add") None false (Fixtures.fresh [])
    = Done 0 st
    /\ attributions (build st)
       = [(Some "c", Some "b"); (Some "b", Some "a");
          (Some "a", Some "cfbs add"); (Some "c", Some "cfbs add")]
    /\ unique_names (build (Fixtures.fresh [])) = true
    /\ unique_names (build st) = false.
Proof. eexists; repeat split; vm_compute; reflexivity. Qed.

(** C9: [a] is attributed to [x] and [b] to the user.  Both messages are the
    plain one: the message printed for [a] follows the attribution of [b],
    the last reference of the request.  The same from the command line, with
    a module whose name is the marker: [d1] is appended as a dependency of
    [x], and its message is the plain one. *)
Theorem direct_add_message_of_last_reference :
  (exists st,
      add_command Fixtures.empty_world 2 (Fixtures.manifest Fixtures.flat_index)
                  ["a"; "b"] (ByList ["x"; "cfbs add"]) None false (Fixtures.fresh [])
      = Done 0 st
      /\ attributions (build st) = [(Some "a", Some "x"); (Some "b", Some "cfbs add")]
      /\ output st = [Print "Added module: a"; Print "Added module: b"])
  /\ (exists st,
         add_command Fixtures.empty_world 2 (Fixtures.manifest Fixtures.marker_index)
                     ["x"; "cfbs add"] (ByStr "cfbs add") None false (Fixtures.fresh [])
         = Done 0 st
         /\ attributions (build st)
            = [(Some "d1", Some "x"); (Some "d2", Some "cfbs add");
               (Some "x", Some "cfbs add"); (Some "cfbs add", Some "cfbs add")]
         /\ output st
            = [Print "Added module: d1"; Print "Added module: d2";
               Print "Added module: x"; Print "Added module: cfbs add"]).
Proof. split; eexists; repeat split; vm_compute; reflexivity. Qed.

(** ** A declined confirmation *)

(** C7, as stated, fails: the repository provides three modules and the user
    answers [n]; the bulk add returns 0 and does not fail. *)
Lemma declined_add_is_not_an_error :
  let run :=
    add_command Fixtures.empty_world 1 (Fixtures.manifest [])
                [Fixtures.REPO] (ByStr "cfbs add") None false (Fixtures.fresh ["n"]) in
  (exists st, run = Done 0 st /\ build st = [])
  /\ ~ (exists e st, run = Fail e st).
Proof.
  split.
  - eexists; split; vm_compute; reflexivity.
  - intros [e [st H]]. vm_compute in H. discriminate H.
Qed.

(** ** Missing references *)

(** C1, as stated, fails: neither [a] nor [b] is in the catalog or on disk;
    the add fails with a message about [a] that does not name [b]. *)
Lemma missing_references_are_not_batched :
  let run :=
    add_command Fixtures.empty_world 1 (Fixtures.manifest Fixtures.remote_index)
                ["a"; "b"] (ByStr "cfbs add") None false (Fixtures.fresh []) in
  run = Fail (UserError "Module 'a' does not exist") (Fixtures.fresh [])
  /\ ~ (exists msg st,
           run = Fail (UserError msg) st
           /\ Py.contains "a" msg = true /\ Py.contains "b" msg = true).
Proof.
  split.
  - vm_compute; reflexivity.
  - intros [msg [st [H [_ Hy]]]]. vm_compute in H.
    injection H as Hmsg _. subst msg. vm_compute in Hy. discriminate Hy.
Qed.

(** ** Reasoning about runs *)

Lemma bind_out_of_fuel {A B} (m : M A) (k : A -> M B) (st : State) :
  m st = OutOfFuel -> bind m k st = OutOfFuel.
Proof. intros H. unfold bind. rewrite H. reflexivity. Qed.

Lemma bind_done {A B} (m : M A) (k : A -> M B) (st st' : State) (a : A) :
  m st = Done a st' -> bind m k st = k a st'.
Proof. intros H. unfold bind. rewrite H. reflexivity. Qed.

Lemma bind_fail {A B} (m : M A) (k : A -> M B) (st st' : State) (e : error) :
  m st = Fail e st' -> bind m k st = Fail e st'.
Proof. intros H. unfold bind. rewrite H. reflexivity. Qed.

(** ** Dependency cycles *)

(** In [cyclic_index] the direct add of [a] for [b], and of [b] for [a],
    to an empty build list needs more recursion than any fuel allows. *)
Lemma cyclic_direct_add_diverges :
  forall fuel o i,
    _add_modules Fixtures.empty_world fuel (Fixtures.manifest Fixtures.cyclic_index)
                 ["a"] (ByList ["b"]) (mkState [] o i) = OutOfFuel
    /\ _add_modules Fixtures.empty_world fuel (Fixtures.manifest Fixtures.cyclic_index)
                    ["b"] (ByList ["a"]) (mkState [] o i) = OutOfFuel.
Proof.
  induction fuel as [|f IH]; intros o i.
  - split; reflexivity.
  - destruct (IH o i) as [Ha Hb]. split; cbn.
    + do 2 apply bind_out_of_fuel. exact Hb.
    + do 2 apply bind_out_of_fuel. exact Ha.
Qed.

(** The recursive add of [m1] and of [m2], which a remote repository provides
    with a dependency on each other, does the same. *)
Lemma cyclic_recursive_add_diverges :
  forall fuel self dependent o i,
    add_with_dependencies Fixtures.empty_world fuel self (inl "m1")
                          (Some Fixtures.cyclic_remote) dependent (mkState [] o i)
    = OutOfFuel
    /\ add_with_dependencies Fixtures.empty_world fuel self (inl "m2")
                             (Some Fixtures.cyclic_remote) dependent (mkState [] o i)
       = OutOfFuel.
Proof.
  induction fuel as [|f IH]; intros self dependent o i.
  - split; reflexivity.
  - destruct (IH self (Some "m1") o i) as [_ H2].
    destruct (IH self (Some "m2") o i) as [H1 _]. split; cbn.
    + do 2 apply bind_out_of_fuel. exact H2.
    + do 2 apply bind_out_of_fuel. exact H1.
Qed.

(** C6, as stated, fails: there are dependency cycles on which an add does
    not end, whatever the fuel.  With [a] and [b] depending on each other
    and an empty build list, the direct add of [a] does not end; with [m1]
    and [m2] of a remote manifest depending on each other, the recursive add
    of [m1] does not end. *)
Lemma cyclic_dependencies_do_not_terminate :
  ~ (exists fuel,
        terminates
          (add_command Fixtures.empty_world fuel (Fixtures.manifest Fixtures.cyclic_index)
                       ["a"] (ByStr "cfbs add") None false (Fixtures.fresh [])))
  /\ ~ (exists fuel,
           terminates
             (add_with_dependencies Fixtures.empty_world fuel (Fixtures.manifest [])
                                    (inl "m1") (Some Fixtures.cyclic_remote) None
                                    (Fixtures.fresh []))).
Proof.
  split; intros [fuel H].
  - destruct fuel as [|f]; [exact H|].
    cbn in H.
    rewrite (bind_out_of_fuel _ _ _
               (bind_out_of_fuel _ _ _
                  (proj2 (cyclic_direct_add_diverges f [] [])))) in H.
    exact H.
  - unfold Fixtures.fresh in H.
    rewrite (proj1 (cyclic_recursive_add_diverges fuel _ None [] [])) in H.
    exact H.
Qed.

(** ** The first loop of the direct add *)

Lemma _add_modules_unfold env fuel self to_add added_by :
  _add_modules env fuel self to_add added_by
  = (let index := cfg_index self in
     translated <- translate env index to_add ;;
     let to_add := translated in
     added_by <- lift (added_by_dict to_add added_by) ;;
     match missing_modules index to_add with
     | (_ :: _) as missing =>
         user_error ("Module(s) could not be found: " ++ Py.join ", " missing)
     | [] =>
         promote_build to_add added_by ;;;
         b <- get_build ;;
         added <- lift (build_names b) ;;
         kept <- filter_added added_by added to_add [] None ;;
         let filtered := fst kept in
         let user_requested := snd kept in
         found <- lift (unmet_dependencies env index added filtered filtered [] []) ;;
         let dependencies := fst found in
         let dependencies_added_by := snd found in
         match dependencies with
         | [] => ret tt
         | _ :: _ =>
             match fuel with
             | O => out_of_fuel
             | S f =>
                 add_command_with env (_add_modules env f self) f self
                                  dependencies (ByList dependencies_added_by) None false ;;;
                 ret tt
             end
         end ;;;
         for_each (append_module env index added_by user_requested) filtered ;;;
         ret 0
     end).
Proof. destruct fuel; reflexivity. Qed.

(** Translating one reference leaves the build list alone. *)
Lemma translate_module_build env index r st :
  match translate_module env index r st with
  | Done _ st' => build st' = build st
  | Fail _ st' => build st' = build st
  | OutOfFuel => False
  end.
Proof.
  unfold translate_module.
  destruct (negb (Index_exists env index r)); [reflexivity|].
  destruct (negb (Index_contains index r) && os_path_exists env r).
  - destruct (local_module_name env r); reflexivity.
  - unfold bind. destruct (Index_getitem index r) as [data|e]; cbn; [|reflexivity].
    destruct (e_alias data); reflexivity.
Qed.

(** A reference that can be translated is translated, whatever is printed. *)
Lemma translate_module_translatable env index r st :
  translatable env index r ->
  exists t st', translate_module env index r st = Done t st' /\ build st' = build st.
Proof.
  intros Hr. unfold translate_module, Index_exists.
  destruct Hr as [Hin | [Hex [t Ht]]].
  - rewrite Hin, orb_true_r. cbn.
    unfold Index_contains in Hin. apply dmem_true_iff in Hin. destruct Hin as [e He].
    unfold Index_getitem. rewrite He. cbn.
    destruct (e_alias e); eexists; eexists; split; reflexivity.
  - rewrite Hex. cbn.
    destruct (Index_contains index r) eqn:Hin; cbn.
    + unfold Index_contains in Hin. apply dmem_true_iff in Hin. destruct Hin as [e He].
      unfold Index_getitem. rewrite He. cbn.
      destruct (e_alias e); eexists; eexists; split; reflexivity.
    + rewrite Ht. eexists; eexists; split; reflexivity.
Qed.

Lemma translate_first_missing env index pre m post st :
  Forall (translatable env index) pre ->
  Index_exists env index m = false ->
  exists st',
    translate env index (pre ++ m :: post) st
    = Fail (UserError ("Module '" ++ m ++ "' does not exist")) st'
    /\ build st' = build st.
Proof.
  intros Hpre Hm. revert st. induction Hpre as [|r pre Hr _ IH]; intros st.
  - cbn. exists st. split; [|reflexivity].
    apply bind_fail. unfold translate_module. rewrite Hm. reflexivity.
  - destruct (translate_module_translatable env index r st Hr) as [t [st1 [Ht Hb]]].
    destruct (IH st1) as [st' [Hfail Hb']].
    exists st'. split; [|congruence].
    cbn. rewrite (bind_done _ _ _ _ _ Ht). apply bind_fail. exact Hfail.
Qed.

(** C1, as the code has it: the first reference that is neither on disk nor
    in the catalog ends the direct add with a message that names this
    reference alone; the build list is as it was. *)
Theorem first_missing_reference_fails :
  forall env fuel self pre m post added_by st,
    Forall (translatable env (cfg_index self)) pre ->
    Index_exists env (cfg_index self) m = false ->
    exists st',
      _add_modules env fuel self (pre ++ m :: post) added_by st
      = Fail (UserError ("Module '" ++ m ++ "' does not exist")) st'
      /\ build st' = build st.
Proof.
  intros env fuel self pre m post added_by st Hpre Hm.
  destruct (translate_first_missing env (cfg_index self) pre m post st Hpre Hm)
    as [st' [Hfail Hb]].
  exists st'. split; [|exact Hb].
  rewrite _add_modules_unfold. cbn zeta. apply bind_fail. exact Hfail.
Qed.

(** The theorem of C1 at work: [a] is in the catalog, [x] is nowhere. *)
Lemma first_missing_reference_fails_witness :
  exists st',
    _add_modules Fixtures.empty_world 1 (Fixtures.manifest Fixtures.flat_index)
                 (["a"] ++ "x" :: ["y"]) (ByStr "cfbs add") (Fixtures.fresh [])
    = Fail (UserError ("Module '" ++ "x" ++ "' does not exist")) st'
    /\ build st' = build (Fixtures.fresh []).
Proof.
  apply first_missing_reference_fails.
  - constructor; [left; reflexivity | constructor].
  - reflexivity.
Defined.

Lemma translate_build env index to_add :
  forall st,
    match translate env index to_add st with
    | Done _ st' => build st' = build st
    | Fail _ st' => build st' = build st
    | OutOfFuel => False
    end.
Proof.
  induction to_add as [|r l IH]; intros st; [reflexivity|].
  cbn. unfold bind at 1.
  pose proof (translate_module_build env index r st) as H1.
  destruct (translate_module env index r st) as [t st1|e st1|]; [|exact H1|exact H1].
  unfold bind. specialize (IH st1).
  destruct (translate env index l st1) as [ts st2|e st2|]; cbn; congruence.
Qed.

(** The message that lists all missing names is the one for translated
    names, such as the targets of aliases, that are not local and not in the
    catalog; the build list is as it was. *)
Lemma missing_translated_names_are_batched :
  forall env fuel self to_add added_by st ts st1 d,
    translate env (cfg_index self) to_add st = Done ts st1 ->
    added_by_dict ts added_by = Ok d ->
    missing_modules (cfg_index self) ts <> [] ->
    _add_modules env fuel self to_add added_by st
    = Fail (UserError ("Module(s) could not be found: "
                       ++ Py.join ", " (missing_modules (cfg_index self) ts))) st1
    /\ build st1 = build st.
Proof.
  intros env fuel self to_add added_by st ts st1 d Ht Hd Hmiss.
  split.
  - rewrite _add_modules_unfold. cbn zeta.
    rewrite (bind_done _ _ _ _ _ Ht). rewrite Hd.
    unfold bind at 1. unfold lift, ret.
    destruct (missing_modules (cfg_index self) ts); [congruence | reflexivity].
  - pose proof (translate_build env (cfg_index self) to_add st) as H.
    rewrite Ht in H. exact H.
Qed.

(** Two aliases whose targets are gone: one failure names both targets. *)
Example dangling_aliases_fail_together :
  add_command Fixtures.empty_world 1 (Fixtures.manifest Fixtures.alias_index)
              ["old1"; "old2"] (ByStr "cfbs add") None false (Fixtures.fresh [])
  = Fail (UserError "Module(s) could not be found: gone1, gone2")
         (mkState [] [Print "old1 is an alias for gone1"; Print "old2 is an alias for gone2"]
                  []).
Proof. reflexivity. Qed.

(** ** The bulk add and its confirmation *)

Lemma _construct_provided_module_name env n data u uc m :
  _construct_provided_module env n data u uc = Ok m -> name m = Some n.
Proof.
  unfold _construct_provided_module.
  destruct (e_description data); [|discriminate].
  destruct (e_steps data); [|discriminate].
  intros H. injection H as <-. reflexivity.
Qed.

Lemma dset_named (k : string) (m : Module) (d : dict Module) :
  name m <> None ->
  Forall (fun kv => name (snd kv) <> None) d ->
  Forall (fun kv => name (snd kv) <> None) (dset k m d).
Proof.
  intros Hm Hd. induction Hd as [|[k' v'] d Hv Hd IH]; cbn.
  - constructor; [exact Hm | constructor].
  - destruct (k' =? k); constructor; auto.
Qed.

Lemma provided_modules_named env u uc items :
  forall acc d,
    provided_modules env u uc items acc = Ok d ->
    Forall (fun kv => name (snd kv) <> None) acc ->
    Forall (fun kv => name (snd kv) <> None) d.
Proof.
  induction items as [|[k v] items IH]; intros acc d H Hacc; cbn in H.
  - injection H as <-. exact Hacc.
  - destruct (_construct_provided_module env k v u uc) as [m|e] eqn:Hm; [|discriminate].
    apply (IH _ _ H). apply dset_named; [|exact Hacc].
    rewrite (_construct_provided_module_name _ _ _ _ _ _ Hm). discriminate.
Qed.

(** Every module of [get_provides] has a name. *)
Lemma get_provides_named env cfg provides :
  get_provides env cfg = Ok provides ->
  Forall (fun m => name m <> None) (dvalues provides).
Proof.
  unfold get_provides. destruct (cfg_provides cfg) as [p|]; [|discriminate].
  intros H. apply provided_modules_named in H; [|constructor].
  unfold dvalues. induction H; cbn; constructor; auto.
Qed.

(** The loop that lists the modules found only prints. *)
Lemma list_found_modules modules :
  Forall (fun m => name m <> None) modules ->
  forall st,
    exists o,
      for_each (fun m => match name m with
                         | Some n => print ("  - " ++ n)
                         | None => raise (KeyError "name")
                         end) modules st
      = Done tt (mkState (build st) (output st ++ o) (stdin st)).
Proof.
  induction 1 as [|m l Hm _ IH]; intros st.
  - exists []. cbn. rewrite app_nil_r. destruct st; reflexivity.
  - cbn [for_each]. destruct (name m) as [n|]; [|congruence].
    destruct (IH (mkState (build st) (output st ++ [Print ("  - " ++ n)]) (stdin st)))
      as [o Ho].
    rewrite (bind_done _ _ st
               (mkState (build st) (output st ++ [Print ("  - " ++ n)]) (stdin st)) tt)
      by reflexivity.
    rewrite Ho. cbn. exists (Print ("  - " ++ n) :: o).
    rewrite <- app_assoc. reflexivity.
Qed.

Lemma dset_keyed (k : string) (m : Module) (d : dict Module) :
  name m = Some k ->
  Forall (fun kv => name (snd kv) = Some (fst kv)) d ->
  Forall (fun kv => name (snd kv) = Some (fst kv)) (dset k m d).
Proof.
  intros Hm Hd. induction Hd as [|[k' v'] d Hv Hd IH]; cbn.
  - constructor; [exact Hm | constructor].
  - destruct (k' =? k); constructor; auto.
Qed.

Lemma provided_modules_keyed env u uc items :
  forall acc d,
    provided_modules env u uc items acc = Ok d ->
    Forall (fun kv => name (snd kv) = Some (fst kv)) acc ->
    Forall (fun kv => name (snd kv) = Some (fst kv)) d.
Proof.
  induction items as [|[k v] items IH]; intros acc d H Hacc; cbn in H.
  - injection H as <-. exact Hacc.
  - destruct (_construct_provided_module env k v u uc) as [m|e] eqn:Hm; [|discriminate].
    apply (IH _ _ H). apply dset_keyed; [|exact Hacc].
    apply (_construct_provided_module_name _ _ _ _ _ _ Hm).
Qed.

(** Every module of [get_provides] is stored under its name. *)
Lemma get_provides_keyed env cfg provides :
  get_provides env cfg = Ok provides ->
  Forall (fun kv => name (snd kv) = Some (fst kv)) provides.
Proof.
  unfold get_provides. destruct (cfg_provides cfg) as [p|]; [|discriminate].
  intros H. apply provided_modules_keyed in H; [exact H | constructor].
Qed.

(** The loop that lists the modules found prints one line for each key. *)
Lemma list_provided_modules provides :
  Forall (fun kv => name (snd kv) = Some (fst kv)) provides ->
  forall st,
    for_each (fun m => match name m with
                       | Some n => print ("  - " ++ n)
                       | None => raise (KeyError "name")
                       end) (dvalues provides) st
    = Done tt (mkState (build st)
                       (output st ++ map (fun kv => Print ("  - " ++ fst kv)) provides)
                       (stdin st)).
Proof.
  induction 1 as [|[k m] l Hm _ IH]; intros st.
  - cbn. rewrite app_nil_r. destruct st; reflexivity.
  - cbn [dvalues map for_each snd fst] in *. rewrite Hm.
    rewrite (bind_done _ _ st
               (mkState (build st) (output st ++ [Print ("  - " ++ k)]) (stdin st)) tt)
      by reflexivity.
    unfold dvalues in IH. rewrite IH. cbn [build output stdin].
    rewrite <- app_assoc. reflexivity.
Qed.

(** C7, as the code has it: when the user declines the confirmation of a
    bulk add, the add returns 0 as a successful add does.  What it has
    written is the line that counts the modules found, one line for each of
    them and the question, in that order, and no diagnostic; the build list
    is as it was, and the answer is the one line that was read. *)
Theorem declined_confirmation_returns :
  forall env fuel self u added_by checksum st fetched provides answer rest,
    is_remote_url env u = true ->
    fetch_config env u checksum st = Done fetched st ->
    get_provides env (CFBSJson_init env (fst fetched) (Some u) (Some (snd fetched)))
    = Ok provides ->
    provides <> [] ->
    stdin st = answer :: rest ->
    Py.mem (Py.lower answer) ["y"; "yes"] = false ->
    add_command env fuel self [u] added_by checksum false st
    = Done 0
        (mkState (build st)
                 (output st
                  ++ Print ("Found " ++ Py.str_of_nat (List.length provides)
                            ++ " modules in '" ++ u ++ "':")
                     :: map (fun kv => Print ("  - " ++ fst kv)) provides
                  ++ [Prompt ("Do you want to add all "
                              ++ Py.str_of_nat (List.length provides)
                              ++ " of them? [y/N] ")])
                 rest).
Proof.
  intros env fuel self u added_by checksum st fetched provides answer rest
         Hurl Hfetch Hprov Hne Hin Hno.
  unfold add_command, add_command_with. rewrite Hurl.
  unfold _add_using_url.
  rewrite (bind_done _ _ _ _ _ Hfetch). cbn zeta.
  rewrite Hprov. unfold lift at 1. unfold bind at 1. unfold ret at 1.
  cbn [List.length Nat.eqb].
  pose proof (get_provides_keyed _ _ _ Hprov) as Hkeyed.
  assert (Hlen : List.length (dvalues provides) = List.length provides)
    by (unfold dvalues; apply length_map).
  rewrite Hlen.
  set (found := "Found " ++ Py.str_of_nat (List.length provides)
                ++ " modules in '" ++ u ++ "':").
  set (st1 := mkState (build st) (output st ++ [Print found]) (stdin st)).
  rewrite (bind_done _ _ st st1 tt) by reflexivity.
  rewrite (bind_done _ _ _ _ _ (list_provided_modules provides Hkeyed st1)).
  destruct (dvalues provides) as [|m ms] eqn:Hvals.
  - destruct provides; [congruence | discriminate].
  - cbn [negb]. unfold bind, input. cbn [stdin build output st1]. rewrite Hin.
    rewrite Hno. cbn [negb]. unfold ret.
    rewrite <- !app_assoc. reflexivity.
Qed.

(** The theorem of C7 at work: the user answers [no]. *)
Lemma declined_confirmation_returns_witness :
  add_command Fixtures.empty_world 0 (Fixtures.manifest []) [Fixtures.REPO]
              (ByStr "cfbs add") None false (Fixtures.fresh ["no"])
  = Done 0
      (mkState []
               [Print "Found 3 modules in 'https://example.com/repo':";
                Print "  - m1"; Print "  - m2"; Print "  - m3";
                Prompt "Do you want to add all 3 of them? [y/N] "]
               []).
Proof.
  apply (declined_confirmation_returns Fixtures.empty_world 0 (Fixtures.manifest [])
           Fixtures.REPO (ByStr "cfbs add") None (Fixtures.fresh ["no"])
           ("/tmp/clone/cfbs.json", "c0ffee")
           [("m1", mkModule (Some "m1") (Some "An example module")
                            (Some Fixtures.REPO) (Some "c0ffee") None None
                            (Some ["m2"]) (Some ["copy ./policy.cf services/"])
                            (Some "cfbs add") None);
            ("m2", mkModule (Some "m2") (Some "An example module")
                            (Some Fixtures.REPO) (Some "c0ffee") None None
                            None (Some ["copy ./policy.cf services/"])
                            (Some "cfbs add") None);
            ("m3", mkModule (Some "m3") (Some "An example module")
                            (Some Fixtures.REPO) (Some "c0ffee") None None
                            (Some ["c"]) (Some ["copy ./policy.cf services/"])
                            (Some "cfbs add") None)]
           "no" []).
  - reflexivity.
  - reflexivity.
  - reflexivity.
  - discriminate.
  - reflexivity.
  - reflexivity.
Defined.

(** ** Build lists that continue one another *)

Lemma continues_refl b : continues b b.
Proof. induction b; constructor; assumption. Qed.

Lemma continues_app b extra : continues b (b ++ extra).
Proof. induction b; cbn; constructor; assumption. Qed.

Lemma set_added_by_twice v m : set_added_by v (set_added_by v m) = set_added_by v m.
Proof. reflexivity. Qed.

Lemma continues_trans b1 b2 b3 :
  continues b1 b2 -> continues b2 b3 -> continues b1 b3.
Proof.
  intros H12. revert b3. induction H12 as [extra|m b b' _ IH|m b b' _ IH]; intros b3 H23.
  - constructor.
  - inversion H23; subst; constructor; auto.
  - inversion H23; subst.
    + constructor; auto.
    + rewrite set_added_by_twice. constructor; auto.
Qed.

(** An entry keeps its place; it is as it was or promoted. *)
Lemma continues_nth b b' :
  continues b b' ->
  forall i m,
    nth_error b i = Some m ->
    exists m',
      nth_error b' i = Some m' /\ (m' = m \/ m' = set_added_by "cfbs add" m).
Proof.
  induction 1 as [extra|m0 b b' _ IH|m0 b b' _ IH]; intros i m Hi.
  - destruct i; discriminate.
  - destruct i as [|i]; cbn in *.
    + injection Hi as <-. eauto.
    + auto.
  - destruct i as [|i]; cbn in *.
    + injection Hi as <-. eauto.
    + auto.
Qed.

Lemma extends_ret {A} (a : A) : extends_build (ret a).
Proof. intros st st' H. injection H as <-. apply continues_refl. Qed.

Lemma extends_raise {A} (e : error) : extends_build (@raise A e).
Proof. intros st st' H. injection H as <-. apply continues_refl. Qed.

Lemma extends_user_error {A} (msg : string) : extends_build (@user_error A msg).
Proof. apply extends_raise. Qed.

Lemma extends_out_of_fuel {A} : extends_build (@out_of_fuel A).
Proof. intros st st' H. discriminate. Qed.

Lemma extends_lift {A} (r : res A) : extends_build (lift r).
Proof. destruct r; [apply extends_ret | apply extends_raise]. Qed.

Lemma extends_assert (b : bool) : extends_build (assert b).
Proof. destruct b; [apply extends_ret | apply extends_raise]. Qed.

Lemma extends_emit (e : event) : extends_build (emit e).
Proof. intros st st' H. injection H as <-. apply continues_refl. Qed.

Lemma extends_print (line : string) : extends_build (print line).
Proof. apply extends_emit. Qed.

Lemma extends_log_warning (line : string) : extends_build (log_warning line).
Proof. apply extends_emit. Qed.

Lemma extends_input (prompt : string) : extends_build (input prompt).
Proof.
  intros st st' H. unfold input in H.
  destruct (stdin st); injection H as <-; apply continues_refl.
Qed.

Lemma extends_get_build : extends_build get_build.
Proof. intros st st' H. injection H as <-. apply continues_refl. Qed.

Lemma extends_build_append (m : Module) : extends_build (build_append m).
Proof. intros st st' H. injection H as <-. apply continues_app. Qed.

Lemma extends_bind {A B} (m : M A) (k : A -> M B) :
  extends_build m -> (forall a, extends_build (k a)) -> extends_build (bind m k).
Proof.
  intros Hm Hk st st' H. unfold bind in H.
  specialize (Hm st).
  destruct (m st) as [a st1|e st1|]; cbn in *.
  - apply continues_trans with (build st1); [apply Hm; reflexivity|].
    apply (Hk a st1). exact H.
  - apply Hm. exact H.
  - discriminate.
Qed.

Lemma extends_for_each {A} (f : A -> M unit) (l : list A) :
  (forall x, In x l -> extends_build (f x)) -> extends_build (for_each f l).
Proof.
  induction l as [|x l IH]; intros Hf; cbn.
  - apply extends_ret.
  - apply extends_bind; [apply Hf; left; reflexivity|].
    intros _. apply IH. intros y Hy. apply Hf. right. exact Hy.
Qed.

Create HintDb extends.

#[local] Hint Resolve extends_ret extends_raise extends_user_error extends_out_of_fuel
  extends_lift extends_assert extends_emit extends_print extends_log_warning
  extends_input extends_get_build extends_build_append : extends.

(** Splits a computation along its binds and case distinctions, and closes
    what the hints of [extends] close. *)
Ltac extends_steps :=
  repeat first
    [ solve [auto with extends]
    | progress cbv zeta
    | apply extends_bind; [|intros]
    | match goal with
      | |- extends_build (match ?x with _ => _ end) => destruct x
      end ].

Lemma extends_validate_added_module env m : extends_build (validate_added_module env m).
Proof. unfold validate_added_module. extends_steps. Qed.

Lemma extends__module_is_in_build m : extends_build (_module_is_in_build m).
Proof. unfold _module_is_in_build. extends_steps. Qed.

#[local] Hint Resolve extends_validate_added_module extends__module_is_in_build : extends.

Lemma extends_add_with_dependencies env fuel :
  forall self module remote_config dependent,
    extends_build (add_with_dependencies env fuel self module remote_config dependent).
Proof.
  induction fuel as [|f IH]; intros self module remote_config dependent.
  - cbn. extends_steps; apply extends_for_each; intros; auto with extends.
  - cbn. extends_steps; apply extends_for_each; intros; apply IH.
Qed.

#[local] Hint Resolve extends_add_with_dependencies : extends.

Lemma extends_fetch_config env u checksum : extends_build (fetch_config env u checksum).
Proof. unfold fetch_config. extends_steps. Qed.

#[local] Hint Resolve extends_fetch_config : extends.

Lemma extends__add_using_url env fuel self u to_add added_by checksum non_interactive :
  extends_build (_add_using_url env fuel self u to_add added_by checksum non_interactive).
Proof.
  unfold _add_using_url.
  extends_steps; try (apply extends_for_each; intros; extends_steps).
Qed.

#[local] Hint Resolve extends__add_using_url : extends.

Lemma extends_translate_module env index r : extends_build (translate_module env index r).
Proof. unfold translate_module. extends_steps. Qed.

#[local] Hint Resolve extends_translate_module : extends.

Lemma extends_translate env index to_add : extends_build (translate env index to_add).
Proof. induction to_add; cbn; extends_steps. Qed.

(** The promotion loop only promotes, also when it stops on an error. *)
Lemma promote_continues to_add added_by b :
  continues b (fst (promote to_add added_by b)).
Proof.
  induction b as [|m b IH]; cbn.
  - constructor.
  - destruct (name m) as [n|]; [|apply continues_refl].
    destruct (Py.mem n to_add).
    + destruct (dget n added_by) as [v|]; [|apply continues_refl].
      destruct (promote to_add added_by b) as [r' e]. cbn in *.
      destruct (v =? "cfbs add"); constructor; exact IH.
    + destruct (promote to_add added_by b) as [r' e]. cbn in *.
      constructor; exact IH.
Qed.

Lemma extends_promote_build to_add added_by : extends_build (promote_build to_add added_by).
Proof.
  intros st st' H. unfold promote_build in H.
  pose proof (promote_continues to_add added_by (build st)) as Hc.
  destruct (promote to_add added_by (build st)) as [b e]. cbn in Hc.
  destruct e; injection H as <-; exact Hc.
Qed.

Lemma extends_filter_added added_by added to_add :
  forall filtered user_requested,
    extends_build (filter_added added_by added to_add filtered user_requested).
Proof. induction to_add; intros; cbn; extends_steps. Qed.

Lemma extends_append_module env index added_by user_requested module :
  extends_build (append_module env index added_by user_requested module).
Proof. unfold append_module. extends_steps. Qed.

#[local] Hint Resolve extends_translate extends_promote_build extends_filter_added
  extends_append_module : extends.

Lemma extends_add_command_with env add_modules fuel self to_add added_by checksum
      non_interactive :
  (forall l a, extends_build (add_modules l a)) ->
  extends_build (add_command_with env add_modules fuel self to_add added_by checksum
                                  non_interactive).
Proof. intros H. unfold add_command_with. extends_steps. Qed.

Lemma extends__add_modules env fuel :
  forall self to_add added_by, extends_build (_add_modules env fuel self to_add added_by).
Proof.
  induction fuel as [|f IH]; intros self to_add added_by;
    rewrite _add_modules_unfold; extends_steps;
    try (apply extends_for_each; intros; auto with extends).
  apply extends_add_command_with. intros. apply IH.
Qed.

#[local] Hint Resolve extends__add_modules : extends.

(** Every add continues the build list. *)
Lemma extends_add_command env fuel self to_add added_by checksum non_interactive :
  extends_build (add_command env fuel self to_add added_by checksum non_interactive).
Proof.
  unfold add_command. apply extends_add_command_with. intros. apply extends__add_modules.
Qed.

(** ** Promotion of the attribution *)

Lemma bind_done_inv {A B} (m : M A) (k : A -> M B) (st st2 : State) (b : B) :
  bind m k st = Done b st2 ->
  exists a st1, m st = Done a st1 /\ k a st1 = Done b st2.
Proof.
  unfold bind. destruct (m st) as [a st1|e st1|]; intros H; [eauto | discriminate..].
Qed.

Lemma mem_In (x : string) (l : list string) : Py.mem x l = true <-> In x l.
Proof.
  unfold Py.mem. rewrite existsb_exists. split.
  - intros [y [Hy Heq]]. apply String.eqb_eq in Heq. subst. exact Hy.
  - intros H. exists x. split; [exact H | apply String.eqb_refl].
Qed.

(** When the promotion loop ends without error, every entry whose name is in
    the request with the marker of a user request carries the marker. *)
Lemma promote_ok to_add added_by b b' :
  promote to_add added_by b = (b', None) ->
  forall i m n,
    nth_error b i = Some m ->
    name m = Some n ->
    Py.mem n to_add = true ->
    dget n added_by = Some "cfbs add" ->
    nth_error b' i = Some (set_added_by "cfbs add" m).
Proof.
  revert b'. induction b as [|m0 b IH]; intros b' H i m n Hi Hn Hmem Hby.
  - destruct i; discriminate.
  - cbn in H. destruct (name m0) as [n0|] eqn:Hn0; [|discriminate].
    destruct (Py.mem n0 to_add) eqn:Hmem0.
    + destruct (dget n0 added_by) as [v|] eqn:Hv; [|discriminate].
      destruct (promote to_add added_by b) as [r' e] eqn:Hr.
      injection H as <- ->.
      destruct i as [|i]; cbn in *.
      * injection Hi as <-. rewrite Hn in Hn0. injection Hn0 as <-.
        rewrite Hby in Hv. injection Hv as <-. reflexivity.
      * eapply IH; eauto.
    + destruct (promote to_add added_by b) as [r' e] eqn:Hr.
      injection H as <- ->.
      destruct i as [|i]; cbn in *.
      * injection Hi as <-. congruence.
      * eapply IH; eauto.
Qed.

(** A key of the catalog that is no alias is translated to itself. *)
Lemma translate_keeps env index n e to_add :
  dget n index = Some e ->
  e_alias e = None ->
  forall st ts st1,
    translate env index to_add st = Done ts st1 ->
    In n to_add -> In n ts.
Proof.
  intros He Ha. induction to_add as [|r l IH]; intros st ts st1 H Hin; [contradiction|].
  cbn in H. apply bind_done_inv in H as [t [st2 [Ht H]]].
  apply bind_done_inv in H as [ts' [st3 [Hts H]]].
  injection H as <- <-.
  destruct Hin as [->|Hin].
  - left. unfold translate_module, Index_exists, Index_contains, dmem, Index_getitem in Ht.
    rewrite He in Ht. rewrite orb_true_r in Ht. cbn in Ht. rewrite Ha in Ht.
    injection Ht as <- _. reflexivity.
  - right. eapply IH; eauto.
Qed.

Lemma dset_values {V} (P : V -> Prop) (k : string) (v : V) (d : dict V) :
  P v ->
  Forall (fun kv => P (snd kv)) d ->
  Forall (fun kv => P (snd kv)) (dset k v d).
Proof.
  intros Hv Hd. induction Hd as [|[k' v'] d Hv' Hd IH]; cbn.
  - constructor; [exact Hv | constructor].
  - destruct (k' =? k); constructor; auto.
Qed.

Lemma dget_values {V} (P : V -> Prop) (k : string) (v : V) (d : dict V) :
  Forall (fun kv => P (snd kv)) d -> dget k d = Some v -> P v.
Proof.
  induction 1 as [|[k' v'] d Hv' _ IH]; cbn; [discriminate|].
  destruct (k' =? k); [intros H; injection H as <-; exact Hv' | exact IH].
Qed.

Lemma dict_of_pairs_values {V} (P : V -> Prop) (pairs : list (string * V)) :
  Forall (fun kv => P (snd kv)) pairs ->
  Forall (fun kv => P (snd kv)) (dict_of_pairs pairs).
Proof.
  unfold dict_of_pairs. generalize (@nil (string * V)) (Forall_nil (fun kv : string * V => P (snd kv))).
  induction pairs as [|[k v] pairs IH]; intros acc Hacc Hp; cbn; [exact Hacc|].
  inversion Hp; subst. apply IH; [|assumption]. apply dset_values; assumption.
Qed.

Lemma combine_repeat_values (l : list string) (s : string) (n : nat) :
  Forall (fun kv => snd kv = s) (combine l (repeat s n)).
Proof.
  revert n. induction l as [|x l IH]; intros n; [constructor|].
  destruct n; cbn; constructor; auto.
Qed.

(** A string as [added_by] attributes every reference to that string. *)
Lemma added_by_dict_of_string (to_add : list string) (s : string) (d : dict string) :
  added_by_dict to_add (ByStr s) = Ok d ->
  forall n, In n to_add -> dget n d = Some s.
Proof.
  unfold added_by_dict. rewrite repeat_length, Nat.eqb_refl.
  destruct (existsb _ to_add) eqn:Hex; [discriminate|].
  intros H n Hn. injection H as <-.
  pose proof (proj2 (not_true_iff_false _) Hex) as Hno.
  destruct (dget n (dict_of_pairs (combine to_add (repeat s (List.length to_add)))))
    as [v|] eqn:Hv.
  - f_equal.
    apply (dget_values (fun v => v = s) n v _
             (dict_of_pairs_values _ _ (combine_repeat_values to_add s _)) Hv).
  - exfalso. apply Hno. apply existsb_exists. exists n. split; [exact Hn|].
    unfold dmem. rewrite Hv. reflexivity.
Qed.

(** What the direct add does for the attribution, and what every add keeps.
    When the user asks again, by name, for a module that is a key of the
    catalog, and the add returns, every entry of that name that was in the
    build list carries the marker.  And whatever is added, by whatever path
    and however the run ends, an entry that carries the marker keeps its
    place, its name and the marker. *)
Lemma direct_add_promotes_and_marker_stays :
  forall env fuel self to_add attribution checksum non_interactive st st',
    final_state (add_command env fuel self to_add attribution checksum non_interactive st)
    = Some st' ->
    (forall r n e,
        add_command env fuel self to_add attribution checksum non_interactive st
        = Done r st' ->
        attribution = ByStr "cfbs add" ->
        is_remote_url env (hd EmptyString to_add) = false ->
        In n to_add ->
        dget n (cfg_index self) = Some e ->
        e_alias e = None ->
        forall i m,
          nth_error (build st) i = Some m ->
          name m = Some n ->
          exists m',
            nth_error (build st') i = Some m'
            /\ name m' = Some n /\ added_by m' = Some "cfbs add")
    /\ (forall i m,
          nth_error (build st) i = Some m ->
          user_requested_entry m = true ->
          exists m',
            nth_error (build st') i = Some m'
            /\ name m' = name m /\ added_by m' = Some "cfbs add").
Proof.
  intros env fuel self to_add added_by0 checksum non_interactive st st' Hfinal.
  split.
  - intros r n e Hrun -> Hurl Hin He Ha i m Hi Hn.
    unfold add_command, add_command_with in Hrun.
    destruct to_add as [|first rest]; [contradiction|].
    cbn [hd] in Hurl. rewrite Hurl in Hrun.
    rewrite _add_modules_unfold in Hrun. cbv zeta in Hrun.
    apply bind_done_inv in Hrun as [ts [st1 [Ht Hrun]]].
    apply bind_done_inv in Hrun as [d [st1' [Hd Hrun]]].
    destruct (added_by_dict ts (ByStr "cfbs add")) as [d'|err] eqn:Hdict;
      [|discriminate].
    injection Hd as <- <-.
    destruct (missing_modules (cfg_index self) ts); [|discriminate].
    apply bind_done_inv in Hrun as [[] [st2 [Hp Hrun]]].
    pose proof (translate_build env (cfg_index self) (first :: rest) st) as Hb1.
    rewrite Ht in Hb1.
    assert (Hin' : In n ts) by (eapply translate_keeps; eauto).
    unfold promote_build in Hp.
    destruct (promote ts d' (build st1)) as [b' perr] eqn:Hpr.
    destruct perr; [discriminate|]. injection Hp as <-.
    assert (Hnth : nth_error b' i = Some (set_added_by "cfbs add" m)).
    { eapply promote_ok; eauto.
      - rewrite Hb1. exact Hi.
      - apply mem_In. exact Hin'.
      - eapply added_by_dict_of_string; eauto. }
    assert (Hext : continues b' (build st')).
    { match type of Hrun with
      | ?t ?s = _ =>
          assert (Ht' : extends_build t)
            by (extends_steps; try (apply extends_for_each; intros; auto with extends);
                apply extends_add_command_with; intros; apply extends__add_modules);
          apply (Ht' s st')
      end.
      rewrite Hrun. reflexivity. }
    destruct (continues_nth _ _ Hext i _ Hnth) as [m' [Hm' [-> | ->]]];
      exists (set_added_by "cfbs add" m); repeat split; assumption.
  - intros i m Hi Hreq.
    pose proof (extends_add_command env fuel self to_add added_by0 checksum
                                    non_interactive st st' Hfinal) as Hc.
    destruct (continues_nth _ _ Hc i m Hi) as [m' [Hm' Hor]].
    exists m'. split; [exact Hm'|].
    unfold user_requested_entry in Hreq.
    destruct (added_by m) as [v|] eqn:Hv; [|discriminate].
    apply String.eqb_eq in Hreq. subst v.
    destruct Hor as [-> | ->]; split; auto.
Qed.

Example built_pair_is_built :
  add_command Fixtures.empty_world 1 (Fixtures.manifest Fixtures.pair_index)
              ["a"] (ByStr "cfbs add") None false (Fixtures.fresh [])
  = Done 0 (mkState Fixtures.built_pair
                    [Print "Added module: b (Dependency of a)"; Print "Added module: a"]
                    []).
Proof. reflexivity. Qed.

(** [b] was added as a dependency of [a] and is asked for again by name; it
    is promoted, and [a] keeps the marker. *)
Example promotion_of_a_dependency :
  (exists m',
      nth_error Fixtures.built_pair_promoted 0 = Some m'
      /\ name m' = Some "b" /\ added_by m' = Some "cfbs add")
  /\ (exists m',
         nth_error Fixtures.built_pair_promoted 1 = Some m'
         /\ name m' = Some "a" /\ added_by m' = Some "cfbs add").
Proof.
  pose proof (direct_add_promotes_and_marker_stays
                Fixtures.empty_world 1 (Fixtures.manifest Fixtures.pair_index)
                ["b"] (ByStr "cfbs add") None false
                (mkState Fixtures.built_pair [] [])
                (mkState Fixtures.built_pair_promoted
                         [Print "Skipping already added module: b"] [])
                eq_refl) as [Hpromote Hkeep].
  split.
  - apply (Hpromote 0 "b" (Fixtures.entry None None) eq_refl eq_refl eq_refl
                    (or_introl eq_refl) eq_refl eq_refl
                    0 (set_added_by "a" (module_of_entry "b" (Fixtures.entry None None)))
                    eq_refl eq_refl).
  - apply (Hkeep 1 (set_added_by "cfbs add"
                      (module_of_entry "a" (Fixtures.entry None (Some ["b"]))))
                 eq_refl eq_refl).
Qed.


(** ** Termination *)

Lemma terminates_bind {A B} (m : M A) (k : A -> M B) (st : State) :
  terminates (m st) ->
  (forall a st1, m st = Done a st1 -> terminates (k a st1)) ->
  terminates (bind m k st).
Proof.
  intros Hm Hk. unfold bind.
  destruct (m st) as [a st1|e st1|]; [apply Hk; reflexivity | exact I | exact Hm].
Qed.

Lemma total_ret {A} (a : A) : total (ret a).
Proof. intros st. exact I. Qed.

Lemma total_raise {A} (e : error) : total (@raise A e).
Proof. intros st. exact I. Qed.

Lemma total_user_error {A} (msg : string) : total (@user_error A msg).
Proof. intros st. exact I. Qed.

Lemma total_lift {A} (r : res A) : total (lift r).
Proof. destruct r; intros st; exact I. Qed.

Lemma total_assert (b : bool) : total (assert b).
Proof. destruct b; intros st; exact I. Qed.

Lemma total_emit (e : event) : total (emit e).
Proof. intros st. exact I. Qed.

Lemma total_print (line : string) : total (print line).
Proof. apply total_emit. Qed.

Lemma total_log_warning (line : string) : total (log_warning line).
Proof. apply total_emit. Qed.

Lemma total_input (prompt : string) : total (input prompt).
Proof. intros st. unfold input. destruct (stdin st); exact I. Qed.

Lemma total_get_build : total get_build.
Proof. intros st. exact I. Qed.

Lemma total_build_append (m : Module) : total (build_append m).
Proof. intros st. exact I. Qed.

Lemma total_bind {A B} (m : M A) (k : A -> M B) :
  total m -> (forall a, total (k a)) -> total (bind m k).
Proof. intros Hm Hk st. apply terminates_bind; [apply Hm | intros; apply Hk]. Qed.

Lemma total_for_each {A} (f : A -> M unit) (l : list A) :
  (forall x, In x l -> total (f x)) -> total (for_each f l).
Proof.
  induction l as [|x l IH]; intros Hf; cbn.
  - apply total_ret.
  - apply total_bind; [apply Hf; left; reflexivity|].
    intros _. apply IH. intros y Hy. apply Hf. right. exact Hy.
Qed.

Create HintDb total.

#[local] Hint Resolve total_ret total_raise total_user_error total_lift total_assert
  total_emit total_print total_log_warning total_input total_get_build
  total_build_append : total.

(** The same splitting as [extends_steps], for [total]. *)
Ltac total_steps :=
  repeat first
    [ solve [auto with total]
    | progress cbv zeta
    | apply total_bind; [|intros]
    | match goal with
      | |- total (match ?x with _ => _ end) => destruct x
      end ].

Lemma total_validate_added_module env m : total (validate_added_module env m).
Proof. unfold validate_added_module. total_steps. Qed.

Lemma total__module_is_in_build m : total (_module_is_in_build m).
Proof. unfold _module_is_in_build. total_steps. Qed.

#[local] Hint Resolve total_validate_added_module total__module_is_in_build : total.

(** What is left of the recursive add once the module is resolved. *)
Lemma resolved_add_terminates env fuel self remote_config dependent (rank : string -> nat)
      (m : Module) (module : string + Module) :
  (forall n dep st,
      rank n < fuel ->
      terminates
        (match fuel with
         | O => out_of_fuel
         | S f => add_with_dependencies env f self (inl n) remote_config dep
         end st)) ->
  (forall d, In d (deps_of m) -> rank d < fuel) ->
  total
    (match name m with
     | None => raise AssertionError
     | Some n =>
         assert (match steps m with Some _ => true | None => false end) ;;;
         present <- _module_is_in_build m ;;
         if present then print ("Skipping already added module '" ++ n ++ "'")
         else
           match dependencies m with
           | Some deps =>
               for_each
                 (fun dep =>
                    match fuel with
                    | O => out_of_fuel
                    | S f =>
                        add_with_dependencies env f self (inl dep) remote_config (Some n)
                    end)
                 deps
           | None => ret tt
           end ;;;
           build_append m ;;;
           (if truthy dependent
            then print ("Added module: " ++ n ++ " (Dependency of "
                        ++ match dependent with Some d => d | None => EmptyString end
                        ++ ")")
            else print ("Added module: " ++ n)) ;;;
           validate_added_module env m
     end).
Proof.
  intros Hrec Hdeps.
  destruct (name m) as [n|]; [|auto with total].
  apply total_bind; [auto with total | intros _].
  apply total_bind; [auto with total | intros present].
  destruct present; [auto with total|].
  apply total_bind.
  - unfold deps_of in Hdeps. destruct (dependencies m) as [deps|]; [|auto with total].
    apply total_for_each. intros d Hd st. apply Hrec. apply Hdeps. exact Hd.
  - intros _. total_steps.
Qed.

Lemma add_with_dependencies_unfold env fuel self module remote_config dependent :
  add_with_dependencies env fuel self module remote_config dependent
  = (resolved <-
       match module with
       | inl module_str =>
           lift (get_module_for_build env
                   (match remote_config with Some r => r | None => self end)
                   module_str dependent)
       | inr m => ret (Some m)
       end ;;
     match truthy_module resolved with
     | None =>
         match module with
         | inl module_str => user_error ("Module '" ++ module_str ++ "' not found")
         | inr _ => raise (NameError "module_str")
         end
     | Some m =>
         match name m with
         | None => raise AssertionError
         | Some n =>
             assert (match steps m with Some _ => true | None => false end) ;;;
             present <- _module_is_in_build m ;;
             if present then print ("Skipping already added module '" ++ n ++ "'")
             else
               match dependencies m with
               | Some deps =>
                   for_each
                     (fun dep =>
                        match fuel with
                        | O => out_of_fuel
                        | S f =>
                            add_with_dependencies env f self (inl dep) remote_config
                                                  (Some n)
                        end)
                     deps
               | None => ret tt
               end ;;;
               build_append m ;;;
               (if truthy dependent
                then print ("Added module: " ++ n ++ " (Dependency of "
                            ++ match dependent with Some d => d | None => EmptyString end
                            ++ ")")
                else print ("Added module: " ++ n)) ;;;
               validate_added_module env m
         end
     end).
Proof. destruct fuel; reflexivity. Qed.

(** A module object that has a name is truthy. *)
Lemma truthy_module_named (m : Module) (n : string) :
  name m = Some n -> truthy_module (Some m) = Some m.
Proof.
  intros Hn. unfold truthy_module, module_is_empty. rewrite Hn. reflexivity.
Qed.

(** With a rank, fuel above the rank of the reference is enough for the
    recursive add. *)
Lemma ranked_recursive_add_terminates env self remote_config (rank : string -> nat) :
  ranked_for_recursive_add env (match remote_config with Some r => r | None => self end)
                           rank ->
  forall fuel module dependent st,
    match module with
    | inl n => rank n <= fuel
    | inr m => forall d, In d (deps_of m) -> rank d < fuel
    end ->
    terminates (add_with_dependencies env fuel self module remote_config dependent st).
Proof.
  intros Hrank. induction fuel as [|f IH]; intros module dependent st Hfuel;
    rewrite add_with_dependencies_unfold.
  - apply terminates_bind.
    + destruct module; [apply total_lift | exact I].
    + intros [m|] st1 Hres; cbn [truthy_module]; [|destruct module; exact I].
      destruct (module_is_empty m); [destruct module; exact I|].
      apply (resolved_add_terminates env 0 self remote_config dependent rank m module).
      * intros n dep st2 Hn. inversion Hn.
      * destruct module as [n|m0].
        -- intros d Hd. exfalso.
           destruct (get_module_for_build env _ n dependent) as [r|e] eqn:Hg;
             [|discriminate].
           injection Hres as -> _.
           pose proof (Hrank n dependent m d Hg Hd). lia.
        -- injection Hres as -> _. exact Hfuel.
  - apply terminates_bind.
    + destruct module; [apply total_lift | exact I].
    + intros [m|] st1 Hres; cbn [truthy_module]; [|destruct module; exact I].
      destruct (module_is_empty m); [destruct module; exact I|].
      apply (resolved_add_terminates env (S f) self remote_config dependent rank m module).
      * intros n dep st2 Hn. apply IH. cbn. lia.
      * destruct module as [n|m0].
        -- intros d Hd.
           destruct (get_module_for_build env _ n dependent) as [r|e] eqn:Hg;
             [|discriminate].
           injection Hres as -> _.
           pose proof (Hrank n dependent m d Hg Hd). lia.
        -- injection Hres as -> _. exact Hfuel.
Qed.

Lemma total_translate_module env index r : total (translate_module env index r).
Proof. unfold translate_module. total_steps. Qed.

#[local] Hint Resolve total_translate_module : total.

Lemma total_translate env index to_add : total (translate env index to_add).
Proof. induction to_add; cbn; total_steps. Qed.

Lemma total_promote_build to_add added_by : total (promote_build to_add added_by).
Proof.
  intros st. unfold promote_build.
  destruct (promote to_add added_by (build st)) as [b e]. destruct e; exact I.
Qed.

Lemma total_filter_added added_by added to_add :
  forall filtered user_requested,
    total (filter_added added_by added to_add filtered user_requested).
Proof. induction to_add; intros; cbn; total_steps. Qed.

Lemma total_append_module env index added_by user_requested module :
  total (append_module env index added_by user_requested module).
Proof. unfold append_module. total_steps. Qed.

#[local] Hint Resolve total_translate total_promote_build total_filter_added
  total_append_module : total.

(** Every translated name is the translation of a reference of the request. *)
Lemma translate_sources env index to_add :
  forall st ts st1,
    translate env index to_add st = Done ts st1 ->
    forall t, In t ts ->
      exists r st0 st2, In r to_add /\ translate_module env index r st0 = Done t st2.
Proof.
  induction to_add as [|r l IH]; intros st ts st1 H t Ht; cbn in H.
  - injection H as <- _. contradiction.
  - apply bind_done_inv in H as [t0 [st2 [H0 H]]].
    apply bind_done_inv in H as [ts' [st3 [Hts H]]].
    injection H as <- _.
    destruct Ht as [<-|Ht].
    + exists r, st, st2. split; [left; reflexivity | exact H0].
    + destruct (IH _ _ _ Hts t Ht) as [r' [sa [sb [Hin Hr']]]].
      exists r', sa, sb. split; [right; exact Hin | exact Hr'].
Qed.

(** The filter keeps references of the request only. *)
Lemma filter_added_subset added_by added to_add :
  forall filtered user_requested st kept st1,
    filter_added added_by added to_add filtered user_requested st = Done kept st1 ->
    forall x, In x (fst kept) -> In x filtered \/ In x to_add.
Proof.
  induction to_add as [|r l IH]; intros filtered ur st kept st1 H x Hx; cbn in H.
  - injection H as <- _. left. exact Hx.
  - destruct (dget r added_by) as [by_whom|]; [|discriminate].
    destruct (Py.mem r (added ++ filtered)).
    + apply bind_done_inv in H as [u [st2 [_ H]]].
      destruct (IH _ _ _ _ _ H x Hx) as [Hf|Hl]; [left; exact Hf | right; right; exact Hl].
    + destruct (IH _ _ _ _ _ H x Hx) as [Hf|Hl]; [|right; right; exact Hl].
      apply in_app_or in Hf. destruct Hf as [Hf|[<-|[]]];
        [left; exact Hf | right; left; reflexivity].
Qed.

Lemma collect_deps_sources seen module deps :
  forall found found_by d,
    In d (fst (collect_deps seen module deps found found_by)) ->
    In d found \/ In d deps.
Proof.
  induction deps as [|dep l IH]; intros found found_by d Hd; cbn in Hd.
  - left. exact Hd.
  - destruct (Py.mem dep (seen ++ found)).
    + destruct (IH _ _ _ Hd) as [H|H]; [left; exact H | right; right; exact H].
    + destruct (IH _ _ _ Hd) as [H|H]; [|right; right; exact H].
      apply in_app_or in H. destruct H as [H|[<-|[]]];
        [left; exact H | right; left; reflexivity].
Qed.

(** Every unmet dependency is a dependency of a module of the batch. *)
Lemma unmet_dependencies_sources env index added filtered modules :
  forall found found_by result,
    unmet_dependencies env index added filtered modules found found_by = Ok result ->
    forall d, In d (fst result) ->
      In d found
      \/ exists module m,
          In module modules
          /\ Index_get_module_object env index module = Ok (Some m)
          /\ In d (deps_of m).
Proof.
  induction modules as [|module l IH]; intros found found_by result H d Hd; cbn in H.
  - injection H as <-. left. exact Hd.
  - destruct (negb (Index_exists env index module)); [discriminate|].
    destruct (Index_get_module_object env index module) as [[data|]|e] eqn:Hobj;
      [|discriminate..].
    destruct (alias data); [discriminate|].
    destruct (IH _ _ _ H d Hd) as [Hf|[module' [m [Hin [Hm Hdm]]]]].
    + destruct (dependencies data) as [deps|] eqn:Hdeps; cbn in Hf.
      * apply collect_deps_sources in Hf. destruct Hf as [Hf|Hf]; [left; exact Hf|].
        right. exists module, data. split; [left; reflexivity|]. split; [exact Hobj|].
        unfold deps_of. rewrite Hdeps. exact Hf.
      * left. exact Hf.
    + right. exists module', m. split; [right; exact Hin|]. split; assumption.
Qed.

Lemma lift_done_inv {A} (r : res A) (st st1 : State) (a : A) :
  lift r st = Done a st1 -> r = Ok a.
Proof. destruct r; cbn; intros H; [injection H as -> _; reflexivity | discriminate]. Qed.

Lemma dget_in_values {V} (k : string) (v : V) (d : dict V) :
  dget k d = Some v -> In v (dvalues d).
Proof.
  unfold dvalues. induction d as [|[k' v'] d IH]; cbn; [discriminate|].
  destruct (k' =? k).
  - intros H. injection H as ->. left. reflexivity.
  - intros H. right. apply IH. exact H.
Qed.

Lemma select_provided_values provides to_add :
  forall modules,
    select_provided provides to_add = Ok modules ->
    forall m, In m modules -> In m (dvalues provides).
Proof.
  induction to_add as [|k l IH]; intros modules H m Hm; cbn in H.
  - injection H as <-. destruct Hm.
  - destruct (dget k provides) as [m0|] eqn:Hm0; [|discriminate].
    destruct (select_provided provides l) as [ms|] eqn:Hms; [|discriminate].
    injection H as <-. destruct Hm as [<-|Hm].
    + apply (dget_in_values _ _ _ Hm0).
    + apply (IH ms eq_refl m Hm).
Qed.

(** With a rank for the remote sources, fuel of the rank of the URL is
    enough for the bulk add. *)
Lemma ranked_bulk_add_terminates env self (rank : string -> nat) :
  ranked_for_remote_sources env rank ->
  forall fuel u to_add by_whom checksum non_interactive st,
    rank u <= fuel ->
    terminates (_add_using_url env fuel self u to_add by_whom checksum non_interactive st).
Proof.
  intros Hremote fuel u to_add by_whom checksum non_interactive st Hfuel.
  unfold _add_using_url.
  assert (Hfetched : total (fetch_config env u checksum))
    by (unfold fetch_config; total_steps).
  apply terminates_bind; [apply Hfetched | intros fetched st1 Hfetch].
  destruct (Hremote u checksum st fetched st1 Hfetch) as [Hrec Hprov].
  cbv zeta in Hrec, Hprov.
  apply terminates_bind; [apply total_lift | intros provides st2 Hp].
  apply lift_done_inv in Hp. cbv zeta.
  assert (Hadd : forall modules,
             (forall m, In m modules -> In m (dvalues provides)) ->
             total (for_each
                      (fun module =>
                         add_with_dependencies env fuel self (inr module)
                           (Some (CFBSJson_init env (fst fetched) (Some u)
                                                (Some (snd fetched)))) None)
                      modules ;;; ret 0)).
  { intros modules Hin. apply total_bind; [|intros; apply total_ret].
    apply total_for_each. intros m Hm st'.
    apply (ranked_recursive_add_terminates
             env self (Some (CFBSJson_init env (fst fetched) (Some u) (Some (snd fetched))))
             rank Hrec fuel (inr m) None st').
    intros d Hd. specialize (Hprov provides m d Hp (Hin m Hm) Hd). lia. }
  destruct (Nat.eqb (List.length to_add) 0).
  - apply total_bind; [apply total_print | intros _].
    apply total_bind.
    + apply total_for_each. intros m _. destruct (name m); [apply total_print | apply total_raise].
    + intros _. destruct (dvalues provides) as [|m ms] eqn:Hvals; [apply total_user_error|].
      destruct (negb non_interactive).
      * apply total_bind; [apply total_input | intros answer].
        destruct (negb (Py.mem (Py.lower answer) ["y"; "yes"])); [apply total_ret|].
        apply Hadd. intros x Hx. exact Hx.
      * apply Hadd. intros x Hx. exact Hx.
  - destruct (filter _ to_add); [|apply total_user_error].
    apply terminates_bind; [apply total_lift | intros modules st3 Hsel].
    apply lift_done_inv in Hsel.
    apply Hadd. apply (select_provided_values _ _ _ Hsel).
Qed.

(** With a rank, fuel above the rank of every reference is enough for the
    direct add, also when a dependency is the URL of a remote source. *)
Lemma ranked_direct_add_terminates env self (rank : string -> nat) :
  ranked_for_direct_add env (cfg_index self) rank ->
  ranked_for_remote_sources env rank ->
  forall fuel to_add by_whom st,
    (forall r, In r to_add -> rank r <= fuel) ->
    terminates (_add_modules env fuel self to_add by_whom st).
Proof.
  intros Hrank Hremote. induction fuel as [|f IH]; intros to_add by_whom st Hfuel;
    rewrite _add_modules_unfold; cbv zeta.
  all: apply terminates_bind; [apply total_translate | intros ts st1 Hts].
  all: apply terminates_bind; [apply total_lift | intros d st2 _].
  all: destruct (missing_modules (cfg_index self) ts); [|exact I].
  all: apply terminates_bind; [apply total_promote_build | intros _ st3 _].
  all: apply terminates_bind; [apply total_get_build | intros b st4 _].
  all: apply terminates_bind; [apply total_lift | intros added st5 _].
  all: apply terminates_bind; [apply total_filter_added | intros kept st6 Hkept].
  all: apply terminates_bind; [apply total_lift | intros found st7 Hfound].
  all: apply lift_done_inv in Hfound.
  all: assert (Hdeps : forall dep, In dep (fst found) ->
                         exists r, In r to_add /\ rank dep < rank r).
  1, 3: intros dep Hdep;
    destruct (unmet_dependencies_sources _ _ _ _ _ _ _ _ Hfound dep Hdep)
      as [[]|[module [m [Hin [Hm Hdm]]]]];
    destruct (filter_added_subset _ _ _ _ _ _ _ _ Hkept module Hin) as [[]|Hts'];
    destruct (translate_sources _ _ _ _ _ _ Hts module Hts') as [r [sa [sb [Hr Htr]]]];
    pose proof (Hrank r module sa sb m dep Htr Hm Hdm) as Hlt;
    exists r; split; assumption.
  all: apply terminates_bind;
    [| intros _ st8 _; apply total_bind;
       [apply total_for_each; intros; apply total_append_module
       | intros; apply total_ret]].
  - destruct (fst found) as [|d0 ds]; [exact I|].
    destruct (Hdeps d0 (or_introl eq_refl)) as [r [Hr Hlt]].
    specialize (Hfuel r Hr). lia.
  - destruct (fst found) as [|d0 ds] eqn:Hfst; [exact I|].
    apply terminates_bind; [|intros; exact I].
    assert (Hbelow : forall dep, In dep (d0 :: ds) -> rank dep <= f).
    { intros dep Hdep. destruct (Hdeps dep Hdep) as [r [Hr Hlt]].
      specialize (Hfuel r Hr). lia. }
    unfold add_command_with.
    destruct (is_remote_url env d0).
    + apply (ranked_bulk_add_terminates env self rank Hremote).
      apply Hbelow. left. reflexivity.
    + apply IH. exact Hbelow.
Qed.

(** C6, as the code has it: when a rank decreases along the dependencies,
    so that there is no cycle, both add procedures end, with fuel, and so
    with a depth of recursion, of the largest rank among the references;
    the recursive add of a module object needs fuel above the ranks of its
    dependencies.  The rank covers the dependencies in the manifest that
    resolves the names, those of the references of a direct add, and those
    of the remote sources that a dependency may name. *)
Theorem acyclic_dependencies_terminate :
  forall env self remote_config rank fuel,
    ranked_for_recursive_add
      env (match remote_config with Some r => r | None => self end) rank ->
    ranked_for_direct_add env (cfg_index self) rank ->
    ranked_for_remote_sources env rank ->
    (forall module dependent st,
        match module with
        | inl n => rank n <= fuel
        | inr m => forall d, In d (deps_of m) -> rank d < fuel
        end ->
        terminates
          (add_with_dependencies env fuel self module remote_config dependent st))
    /\ (forall to_add by_whom st,
          (forall r, In r to_add -> rank r <= fuel) ->
          terminates (_add_modules env fuel self to_add by_whom st)).
Proof.
  intros env self remote_config rank fuel Hrec Hdir Hremote. split.
  - intros module dependent st Hfuel.
    apply (ranked_recursive_add_terminates env self remote_config rank Hrec); exact Hfuel.
  - intros to_add by_whom st Hfuel.
    apply (ranked_direct_add_terminates env self rank Hdir Hremote); exact Hfuel.
Qed.

(** Case distinction on a name that [H] compares with constants. *)
Ltac split_name n H :=
  repeat (cbn -[String.eqb] in H;
          match type of H with
          | context [String.eqb ?k n] => destruct (String.eqb_spec k n); [subst n|]
          end);
  cbn in H.

Lemma rank_of_remote :
  ranked_for_recursive_add Fixtures.empty_world Fixtures.remote Fixtures.rank.
Proof.
  intros n dependent m d H Hd.
  unfold get_module_for_build, Index_contains, dmem in H.
  split_name n H; try discriminate;
    injection H as <-; cbn in Hd;
    repeat (destruct Hd as [<-|Hd]; [vm_compute; lia|]); contradiction.
Qed.

Lemma rank_of_chain_index :
  ranked_for_direct_add Fixtures.empty_world Fixtures.chain_index Fixtures.rank.
Proof.
  intros r t st st1 m d Ht Hm Hd.
  unfold translate_module, Index_exists, Index_contains, Index_getitem, dmem in Ht.
  split_name r Ht; try discriminate;
    injection Ht as <- _; cbn in Hm; injection Hm as <-; cbn in Hd;
    repeat (destruct Hd as [<-|Hd]; [vm_compute; lia|]);
    contradiction.
Qed.

(** A source that [fetch_config] accepts is the URL of a remote source. *)
Lemma fetched_is_remote_url env u checksum st fetched st1 :
  fetch_config env u checksum st = Done fetched st1 -> is_remote_url env u = true.
Proof.
  unfold fetch_config, is_remote_url.
  destruct (Py.endswith_any u (SUPPORTED_ARCHIVES env)); [reflexivity|].
  destruct (Py.startswith_any u URL_SCHEMES); [reflexivity | discriminate].
Qed.

Lemma rank_of_remote_sources :
  ranked_for_remote_sources Fixtures.empty_world Fixtures.rank.
Proof.
  intros u checksum st fetched st1 Hfetch remote.
  pose proof (fetched_is_remote_url _ _ _ _ _ _ Hfetch) as Hurl.
  split.
  - intros n dependent m d H Hd.
    unfold remote, get_module_for_build, Index_contains, dmem in H.
    split_name n H; try discriminate;
      injection H as <-; cbn in Hd;
      repeat (destruct Hd as [<-|Hd]; [vm_compute; lia|]); contradiction.
  - intros provides m d Hp Hm Hd.
    assert (Hrank : Fixtures.rank u = 3) by (unfold Fixtures.rank; rewrite Hurl; reflexivity).
    rewrite Hrank. unfold remote in Hp. cbn in Hp. injection Hp as <-.
    cbn in Hm.
    repeat (destruct Hm as [<-|Hm];
            [cbn in Hd; repeat (destruct Hd as [<-|Hd]; [vm_compute; lia|]); contradiction|]).
    contradiction.
Qed.

(** The theorem of C6 at work, on [chain_index] and [remote]. *)
Lemma acyclic_dependencies_terminate_witness :
  terminates
    (add_with_dependencies Fixtures.empty_world 2 (Fixtures.manifest Fixtures.chain_index)
                           (inl "m1") (Some Fixtures.remote) None (Fixtures.fresh []))
  /\ terminates
       (_add_modules Fixtures.empty_world 2 (Fixtures.manifest Fixtures.chain_index)
                     ["a"; "c"] (ByStr "cfbs add") (Fixtures.fresh [])).
Proof.
  destruct (acyclic_dependencies_terminate
              Fixtures.empty_world (Fixtures.manifest Fixtures.chain_index)
              (Some Fixtures.remote) Fixtures.rank 2
              rank_of_remote rank_of_chain_index rank_of_remote_sources) as [Hrec Hdir].
  split.
  - apply (Hrec (inl "m1")). vm_compute. lia.
  - apply Hdir. intros r [<-|[<-|[]]]; vm_compute; lia.
Defined.

(** * Further properties of the add engine *)

(** ** Entries that are already in the build list *)

(** X1: no add removes, moves or rewrites an entry of the build list: after
    any run of [add_command], returned or failed, every entry is at its
    place, as it was or with only its attribution set to the marker of a
    user request, and the list is no shorter. *)
Theorem add_keeps_existing_entries :
  forall env fuel self to_add attribution checksum non_interactive st st',
    final_state (add_command env fuel self to_add attribution checksum non_interactive st)
    = Some st' ->
    List.length (build st) <= List.length (build st')
    /\ forall i m,
        nth_error (build st) i = Some m ->
        exists m',
          nth_error (build st') i = Some m'
          /\ (m' = m \/ m' = set_added_by "cfbs add" m).
Proof.
  intros env fuel self to_add attribution checksum non_interactive st st' H.
  pose proof (extends_add_command env fuel self to_add attribution checksum
                                  non_interactive st st' H) as Hc.
  split; [|apply continues_nth; exact Hc].
  clear H. induction Hc; cbn; lia.
Qed.

(** X1 at work: the build of [a] and [b], and a request that fails. *)
Lemma add_keeps_existing_entries_witness :
  List.length Fixtures.built_pair <= List.length Fixtures.built_pair
  /\ forall i m,
      nth_error Fixtures.built_pair i = Some m ->
      exists m',
        nth_error Fixtures.built_pair i = Some m'
        /\ (m' = m \/ m' = set_added_by "cfbs add" m).
Proof.
  apply (add_keeps_existing_entries
           Fixtures.empty_world 1 (Fixtures.manifest Fixtures.pair_index)
           ["nowhere"] (ByStr "cfbs add") None false
           (mkState Fixtures.built_pair [] [])
           (mkState Fixtures.built_pair [] [])).
  reflexivity.
Defined.

(** ** The recursive add: skipping and failing *)

(** X2: the recursive add of a module whose name is in the build list only
    prints the notice that it is skipped: nothing is appended and its
    dependencies are not visited, so that no fuel is needed. *)
Theorem recursive_add_skips_present :
  forall env fuel self module remote_config dependent st m n,
    match module with
    | inl s =>
        get_module_for_build env (match remote_config with Some r => r | None => self end)
                             s dependent
    | inr m0 => Ok (Some m0)
    end = Ok (Some m) ->
    name m = Some n ->
    steps m <> None ->
    name_in_build n (build st) = Ok true ->
    add_with_dependencies env fuel self module remote_config dependent st
    = Done tt (mkState (build st)
                       (output st ++ [Print ("Skipping already added module '" ++ n ++ "'")])
                       (stdin st)).
Proof.
  intros env fuel self module remote_config dependent st m n Hres Hn Hsteps Hin.
  rewrite add_with_dependencies_unfold.
  assert (Hfirst :
            match module with
            | inl module_str =>
                lift (get_module_for_build env
                        (match remote_config with Some r => r | None => self end)
                        module_str dependent)
            | inr m0 => ret (Some m0)
            end st = Done (Some m) st).
  { destruct module as [s|m0]; [rewrite Hres; reflexivity|].
    injection Hres as ->. reflexivity. }
  rewrite (bind_done _ _ _ _ _ Hfirst). rewrite (truthy_module_named m n Hn), Hn.
  destruct (steps m); [|congruence]. cbn [assert].
  unfold bind at 1. unfold ret at 1.
  unfold _module_is_in_build. rewrite Hn.
  unfold bind, get_build. rewrite Hin. reflexivity.
Qed.

Lemma recursive_add_skips_present_witness :
  add_with_dependencies Fixtures.empty_world 0 (Fixtures.manifest Fixtures.pair_index)
                        (inl "a") None None (mkState Fixtures.built_pair [] [])
  = Done tt (mkState (build (mkState Fixtures.built_pair [] []))
                     (output (mkState Fixtures.built_pair [] [])
                      ++ [Print ("Skipping already added module '" ++ "a" ++ "'")])
                     (stdin (mkState Fixtures.built_pair [] []))).
Proof.
  apply (recursive_add_skips_present
           Fixtures.empty_world 0 (Fixtures.manifest Fixtures.pair_index)
           (inl "a") None None (mkState Fixtures.built_pair [] [])
           (module_of_entry "a" (Fixtures.entry None (Some ["b"]))) "a").
  - reflexivity.
  - reflexivity.
  - discriminate.
  - reflexivity.
Defined.

(** X3: a reference that is neither provided by the manifest that resolves
    it nor a key of its index ends the recursive add with the diagnostic
    that names it; the state is the one of the call. *)
Theorem recursive_add_unresolved_fails :
  forall env fuel self s remote_config dependent st,
    let cfg := match remote_config with Some r => r | None => self end in
    match cfg_provides cfg with Some p => dget s p | None => None end = None ->
    Index_contains (cfg_index cfg) s = false ->
    add_with_dependencies env fuel self (inl s) remote_config dependent st
    = Fail (UserError ("Module '" ++ s ++ "' not found")) st.
Proof.
  intros env fuel self s remote_config dependent st cfg Hp Hi.
  rewrite add_with_dependencies_unfold.
  unfold get_module_for_build. fold cfg. rewrite Hp, Hi. reflexivity.
Qed.

Lemma recursive_add_unresolved_fails_witness :
  add_with_dependencies Fixtures.empty_world 3 (Fixtures.manifest Fixtures.pair_index)
                        (inl "zz") (Some Fixtures.remote) None (Fixtures.fresh [])
  = Fail (UserError ("Module '" ++ "zz" ++ "' not found")) (Fixtures.fresh []).
Proof.
  apply (recursive_add_unresolved_fails
           Fixtures.empty_world 3 (Fixtures.manifest Fixtures.pair_index) "zz"
           (Some Fixtures.remote) None (Fixtures.fresh [])); reflexivity.
Defined.

(** ** The bulk add: what it refuses *)

(** X4: when modules are named after the URL and some of them are not
    provided by the remote manifest, the bulk add fails once, with a message
    that lists all the names that are missing, in the order of the request;
    nothing is printed, read or appended. *)
Theorem bulk_add_missing_names_fail_together :
  forall env fuel self u to_add attribution checksum non_interactive st fetched provides,
    fetch_config env u checksum st = Done fetched st ->
    get_provides env (CFBSJson_init env (fst fetched) (Some u) (Some (snd fetched)))
    = Ok provides ->
    filter (fun k => negb (dmem k provides)) to_add <> [] ->
    _add_using_url env fuel self u to_add attribution checksum non_interactive st
    = Fail (UserError ("Missing modules: "
                       ++ Py.join ", " (filter (fun k => negb (dmem k provides)) to_add)))
           st.
Proof.
  intros env fuel self u to_add attribution checksum non_interactive st fetched provides
         Hfetch Hprov Hmiss.
  unfold _add_using_url.
  rewrite (bind_done _ _ _ _ _ Hfetch). cbv zeta. rewrite Hprov.
  unfold lift at 1. unfold bind at 1. unfold ret at 1.
  destruct to_add as [|k ks]; [cbn in Hmiss; congruence|].
  cbn [List.length Nat.eqb].
  destruct (filter (fun k0 => negb (dmem k0 provides)) (k :: ks)); [congruence|].
  reflexivity.
Qed.

Lemma bulk_add_missing_names_fail_together_witness :
  _add_using_url Fixtures.barren_world 1 (Fixtures.manifest []) Fixtures.REPO
                 ["m1"; "m2"] (ByStr "cfbs add") None false (Fixtures.fresh [])
  = Fail (UserError ("Missing modules: "
                     ++ Py.join ", " (filter (fun k => negb (dmem k (@nil (string * Module))))
                                             ["m1"; "m2"])))
         (Fixtures.fresh []).
Proof.
  apply (bulk_add_missing_names_fail_together
           Fixtures.barren_world 1 (Fixtures.manifest []) Fixtures.REPO ["m1"; "m2"]
           (ByStr "cfbs add") None false (Fixtures.fresh [])
           ("/tmp/clone/cfbs.json", "c0ffee") []).
  - reflexivity.
  - reflexivity.
  - discriminate.
Defined.

(** X5: when no module is named and the remote manifest provides none, the
    bulk add prints that it found 0 modules and fails with the diagnostic
    that there is nothing to do; no question is asked, whether the run is
    interactive or not. *)
Theorem bulk_add_of_nothing_fails :
  forall env fuel self u attribution checksum non_interactive st fetched,
    fetch_config env u checksum st = Done fetched st ->
    get_provides env (CFBSJson_init env (fst fetched) (Some u) (Some (snd fetched)))
    = Ok [] ->
    _add_using_url env fuel self u [] attribution checksum non_interactive st
    = Fail (UserError "no modules available, nothing to do")
           (mkState (build st)
                    (output st ++ [Print ("Found 0 modules in '" ++ u ++ "':")])
                    (stdin st)).
Proof.
  intros env fuel self u attribution checksum non_interactive st fetched Hfetch Hprov.
  unfold _add_using_url.
  rewrite (bind_done _ _ _ _ _ Hfetch). cbv zeta. rewrite Hprov.
  reflexivity.
Qed.

Lemma bulk_add_of_nothing_fails_witness :
  _add_using_url Fixtures.barren_world 1 (Fixtures.manifest []) Fixtures.REPO
                 [] (ByStr "cfbs add") None false (Fixtures.fresh ["y"])
  = Fail (UserError "no modules available, nothing to do")
         (mkState (build (Fixtures.fresh ["y"]))
                  (output (Fixtures.fresh ["y"])
                   ++ [Print ("Found 0 modules in '" ++ Fixtures.REPO ++ "':")])
                  (stdin (Fixtures.fresh ["y"]))).
Proof.
  apply (bulk_add_of_nothing_fails
           Fixtures.barren_world 1 (Fixtures.manifest []) Fixtures.REPO
           (ByStr "cfbs add") None false (Fixtures.fresh ["y"])
           ("/tmp/clone/cfbs.json", "c0ffee")); reflexivity.
Defined.

(** ** Provided modules *)

Lemma dget_dset_same {V} (k : string) (v : V) (d : dict V) :
  dget k (dset k v d) = Some v.
Proof.
  induction d as [|[k' v'] d IH]; cbn.
  - rewrite String.eqb_refl. reflexivity.
  - destruct (k' =? k) eqn:E; cbn.
    + rewrite String.eqb_refl. reflexivity.
    + rewrite E. exact IH.
Qed.

Lemma dget_dset_other {V} (k k' : string) (v : V) (d : dict V) :
  k <> k' -> dget k' (dset k v d) = dget k' d.
Proof.
  intros Hne. induction d as [|[k0 v0] d IH]; cbn.
  - destruct (String.eqb_spec k k'); [contradiction | reflexivity].
  - destruct (String.eqb_spec k0 k) as [->|Hk0]; cbn.
    + destruct (String.eqb_spec k k'); [contradiction | reflexivity].
    + destruct (k0 =? k'); [reflexivity | exact IH].
Qed.

(** What [provided_modules] holds under a key: the module constructed from
    the last entry of that key, or what the accumulator held. *)
Lemma provided_modules_lookup env u uc items :
  forall acc d k m,
    provided_modules env u uc items acc = Ok d ->
    dget k d = Some m ->
    (exists data, In (k, data) items /\ _construct_provided_module env k data u uc = Ok m)
    \/ dget k acc = Some m.
Proof.
  induction items as [|[k0 v0] items IH]; intros acc d k m H Hk; cbn in H.
  - injection H as <-. right. exact Hk.
  - destruct (_construct_provided_module env k0 v0 u uc) as [m0|e] eqn:Hm0; [|discriminate].
    destruct (IH _ _ _ _ H Hk) as [[data [Hin Hc]]|Hacc].
    + left. exists data. split; [right; exact Hin | exact Hc].
    + destruct (String.eqb_spec k0 k) as [->|Hne].
      * rewrite dget_dset_same in Hacc. injection Hacc as <-.
        left. exists v0. split; [left; reflexivity | exact Hm0].
      * rewrite (dget_dset_other _ _ _ _ Hne) in Hacc. right. exact Hacc.
Qed.

(** X6: every module of [get_provides] is named after its key, stamped with
    the URL and the commit of the manifest, attributed to the user, and it
    has its description and its steps; a list of dependencies is there only
    when it is not empty. *)
Theorem get_provides_stamps_modules :
  forall env self provides k m,
    get_provides env self = Ok provides ->
    dget k provides = Some m ->
    name m = Some k
    /\ url m = cfg_url self
    /\ commit m = cfg_url_commit self
    /\ added_by m = Some "cfbs add"
    /\ description m <> None
    /\ steps m <> None
    /\ dependencies m <> Some [].
Proof.
  intros env self provides k m H Hk. unfold get_provides in H.
  destruct (cfg_provides self) as [p|]; [|discriminate].
  destruct (provided_modules_lookup _ _ _ _ _ _ _ _ H Hk) as [[data [_ Hc]]|Hacc];
    [|discriminate].
  unfold _construct_provided_module in Hc.
  destruct (e_description data); [|discriminate].
  destruct (e_steps data); [|discriminate].
  injection Hc as <-. cbn.
  repeat split; try discriminate.
  destruct (e_dependencies data) as [[|d ds]|]; discriminate.
Qed.

Lemma get_provides_stamps_modules_witness :
  let m := mkModule (Some "m2") (Some "An example module")
                    (Some "https://example.com/repo") (Some "c0ffee") None None
                    None (Some ["copy ./policy.cf services/"]) (Some "cfbs add") None in
  name m = Some "m2"
  /\ url m = cfg_url Fixtures.remote
  /\ commit m = cfg_url_commit Fixtures.remote
  /\ added_by m = Some "cfbs add"
  /\ description m <> None
  /\ steps m <> None
  /\ dependencies m <> Some [].
Proof.
  intros m.
  apply (get_provides_stamps_modules
           Fixtures.empty_world Fixtures.remote
           [("m1", mkModule (Some "m1") (Some "An example module")
                            (Some Fixtures.REPO) (Some "c0ffee") None None
                            (Some ["m2"]) (Some ["copy ./policy.cf services/"])
                            (Some "cfbs add") None);
            ("m2", m);
            ("m3", mkModule (Some "m3") (Some "An example module")
                            (Some Fixtures.REPO) (Some "c0ffee") None None
                            (Some ["c"]) (Some ["copy ./policy.cf services/"])
                            (Some "cfbs add") None)]
           "m2" m); reflexivity.
Defined.

Lemma provided_modules_all_or_nothing env u uc items :
  forall acc,
    (exists d, provided_modules env u uc items acc = Ok d)
    <-> Forall (fun kv => e_description (snd kv) <> None /\ e_steps (snd kv) <> None) items.
Proof.
  induction items as [|[k v] items IH]; intros acc; cbn.
  - split; [constructor | eauto].
  - unfold _construct_provided_module at 1.
    destruct (e_description v) as [descr|] eqn:Hd.
    + destruct (e_steps v) as [st|] eqn:Hs.
      * rewrite IH. split.
        -- intros H. constructor; [cbn; rewrite Hd, Hs; split; discriminate | exact H].
        -- intros H. inversion H; assumption.
      * split; [intros [d H]; discriminate|].
        intros H. inversion H as [|? ? [_ Hx] _]; subst. cbn in Hx. congruence.
    + split; [intros [d H]; discriminate|].
      intros H. inversion H as [|? ? [Hx _] _]; subst. cbn in Hx. congruence.
Qed.

(** X7: [get_provides] returns exactly when the manifest has a [provides]
    section of which every entry has a description and steps; one entry
    without either fails the whole call. *)
Theorem get_provides_all_or_nothing :
  forall env self,
    (exists provides, get_provides env self = Ok provides)
    <-> exists p,
        cfg_provides self = Some p
        /\ Forall (fun kv => e_description (snd kv) <> None /\ e_steps (snd kv) <> None) p.
Proof.
  intros env self. unfold get_provides.
  destruct (cfg_provides self) as [p|].
  - rewrite provided_modules_all_or_nothing. split.
    + intros H. exists p. split; [reflexivity | exact H].
    + intros [p' [Hp H]]. injection Hp as <-. exact H.
  - split; [intros [d H]; discriminate | intros [p [H _]]; discriminate].
Qed.

(** ** Add-time validation *)


(** X9: validation is silent for every name that is not a local path: a
    module of the catalog or of a remote manifest is never warned about. *)
Theorem validation_is_silent_for_catalog_names :
  forall env m n st,
    name m = Some n ->
    Py.startswith n "./" = false ->
    validate_added_module env m st = Done tt st.
Proof.
  intros env m n st Hn Hs. unfold validate_added_module. rewrite Hn, Hs. reflexivity.
Qed.

Lemma validation_is_silent_for_catalog_names_witness :
  validate_added_module Fixtures.empty_world
                        (module_of_entry "a" (Fixtures.entry None None))
                        (Fixtures.fresh [])
  = Done tt (Fixtures.fresh []).
Proof.
  apply (validation_is_silent_for_catalog_names
           Fixtures.empty_world (module_of_entry "a" (Fixtures.entry None None)) "a");
    reflexivity.
Defined.

(** X10: for a local policy file that exists, validation returns, and it
    writes its three warnings exactly when the text of the file lacks one of
    the words [meta:], [tags], [slist] and [autorun]. *)
Theorem validation_of_policy_file :
  forall env m n st,
    name m = Some n ->
    Py.startswith n "./" = true ->
    Py.endswith n ".cf" = true ->
    os_path_isfile env n = true ->
    validate_added_module env m st
    = Done tt
        (mkState (build st)
                 (output st
                  ++ if Py.contains "meta:" (read_file env n)
                        && Py.contains "tags" (read_file env n)
                        && Py.contains "slist" (read_file env n)
                        && Py.contains "autorun" (read_file env n)
                     then []
                     else [Warning ("No autorun tag found in policy file: '" ++ n ++ "'");
                           Warning "Tag the bundle(s) you want evaluated:";
                           Warning AUTORUN_HINT])
                 (stdin st)).
Proof.
  intros env m n st Hn Hs He Hf.
  unfold validate_added_module. rewrite Hn, Hs, He. cbn [andb].
  rewrite Hf. cbn [assert]. unfold bind at 1. unfold ret at 1.
  unfold _has_autorun_tag. rewrite Hf. cbn [negb lift].
  unfold bind at 1. unfold ret at 1.
  destruct (Py.contains "meta:" (read_file env n)
            && Py.contains "tags" (read_file env n)
            && Py.contains "slist" (read_file env n)
            && Py.contains "autorun" (read_file env n)); cbn [negb].
  - unfold ret. rewrite app_nil_r. destruct st; reflexivity.
  - unfold bind, log_warning, emit. cbn [build output stdin].
    rewrite <- !app_assoc. reflexivity.
Qed.

Lemma validation_of_policy_file_witness :
  let env := Fixtures.world ["./policy.cf"] in
  let m := with_default_name "./policy.cf" (_local_module_data_cf_file "./policy.cf") in
  validate_added_module env m (Fixtures.fresh [])
  = Done tt
      (mkState (build (Fixtures.fresh []))
               (output (Fixtures.fresh [])
                ++ if Py.contains "meta:" (read_file env "./policy.cf")
                      && Py.contains "tags" (read_file env "./policy.cf")
                      && Py.contains "slist" (read_file env "./policy.cf")
                      && Py.contains "autorun" (read_file env "./policy.cf")
                   then []
                   else [Warning ("No autorun tag found in policy file: '"
                                  ++ "./policy.cf" ++ "'");
                         Warning "Tag the bundle(s) you want evaluated:";
                         Warning AUTORUN_HINT])
               (stdin (Fixtures.fresh []))).
Proof.
  intros env m.
  apply (validation_of_policy_file env m "./policy.cf" (Fixtures.fresh []));
    reflexivity.
Defined.

(** The lazy [any] over the files with the tag, when every file is there. *)
Lemma any_with_autorun_of_files env files :
  Forall (fun x => os_path_isfile env x = true) files ->
  any_with_autorun env files
  = Ok (existsb (fun x => Py.contains "meta:" (read_file env x)
                          && Py.contains "tags" (read_file env x)
                          && Py.contains "slist" (read_file env x)
                          && Py.contains "autorun" (read_file env x)
                          && negb (x =? EmptyString)) files).
Proof.
  induction 1 as [|x files Hx _ IH]; [reflexivity|].
  cbn. unfold _has_autorun_tag. rewrite Hx. cbn [negb].
  destruct (Py.contains "meta:" (read_file env x)
            && Py.contains "tags" (read_file env x)
            && Py.contains "slist" (read_file env x)
            && Py.contains "autorun" (read_file env x)); cbn [andb].
  - destruct (x =? EmptyString); cbn; [exact IH | reflexivity].
  - exact IH.
Qed.

(** X11: for a local directory that exists and whose policy files are all
    there, validation returns, and it writes its three warnings exactly when
    the directory holds some policy file and none of them has the four words
    of the autorun tag; a directory without policy files is not warned
    about. *)
Theorem validation_of_directory :
  forall env m n st,
    name m = Some n ->
    Py.startswith n "./" = true ->
    Py.endswith n ".cf" = false ->
    Py.endswith n "/" = true ->
    os_path_isdir env n = true ->
    Forall (fun x => os_path_isfile env x = true) (find env n) ->
    validate_added_module env m st
    = Done tt
        (mkState (build st)
                 (output st
                  ++ if any_str (find env n)
                        && negb (existsb
                                   (fun x => Py.contains "meta:" (read_file env x)
                                             && Py.contains "tags" (read_file env x)
                                             && Py.contains "slist" (read_file env x)
                                             && Py.contains "autorun" (read_file env x)
                                             && negb (x =? EmptyString))
                                   (find env n))
                     then [Warning ("No bundles tagged with autorun found in: '"
                                    ++ n ++ "'");
                           Warning "Tag the bundle(s) you want evaluated in .cf policy files:";
                           Warning AUTORUN_HINT]
                     else [])
                 (stdin st)).
Proof.
  intros env m n st Hn Hs Hcf Hslash Hd Hfiles.
  unfold validate_added_module. rewrite Hn, Hs, Hcf, Hslash. cbn [andb].
  rewrite Hd. cbn [assert]. unfold bind at 1. unfold ret at 1.
  destruct (any_str (find env n)); cbn [andb].
  - rewrite (any_with_autorun_of_files env _ Hfiles). cbn [lift].
    unfold bind at 1. unfold ret at 1.
    destruct (existsb _ (find env n)); cbn [negb].
    + unfold ret. rewrite app_nil_r. destruct st; reflexivity.
    + unfold bind, log_warning, emit. cbn [build output stdin].
      rewrite <- !app_assoc. reflexivity.
  - unfold ret. rewrite app_nil_r. destruct st; reflexivity.
Qed.

Lemma validation_of_directory_witness :
  let env := Fixtures.tree_world in
  let n := "./policies/" in
  let m := mkModule (Some n) None None None None (Some ["local"]) None
                    (Some ["directory ./policies/ services/cfbs/policies/"])
                    (Some "cfbs add") None in
  validate_added_module env m (Fixtures.fresh [])
  = Done tt
      (mkState (build (Fixtures.fresh []))
               (output (Fixtures.fresh [])
                ++ if any_str (find env n)
                      && negb (existsb
                                 (fun x => Py.contains "meta:" (read_file env x)
                                           && Py.contains "tags" (read_file env x)
                                           && Py.contains "slist" (read_file env x)
                                           && Py.contains "autorun" (read_file env x)
                                           && negb (x =? EmptyString))
                                 (find env n))
                   then [Warning ("No bundles tagged with autorun found in: '"
                                  ++ n ++ "'");
                         Warning "Tag the bundle(s) you want evaluated in .cf policy files:";
                         Warning AUTORUN_HINT]
                   else [])
               (stdin (Fixtures.fresh []))).
Proof.
  intros env n m.
  apply (validation_of_directory env m n (Fixtures.fresh [])); try reflexivity.
  repeat constructor.
Defined.

Example directory_without_tag_is_warned_about :
  output
    (match validate_added_module
             Fixtures.tree_world
             (mkModule (Some "./policies/") None None None None None None None None None)
             (Fixtures.fresh [])
     with
     | Done _ st => st
     | Fail _ st => st
     | OutOfFuel => Fixtures.fresh []
     end)
  = [Warning "No bundles tagged with autorun found in: './policies/'";
     Warning "Tag the bundle(s) you want evaluated in .cf policy files:";
     Warning AUTORUN_HINT].
Proof. reflexivity. Qed.

(** ** Local module objects *)

(** X12: what [_generate_local_module_object] gives.  It fails only on its
    assertions: the name does not start with [./], has none of the three
    endings, or is neither a file nor a directory.  Its module object has no
    name yet, is tagged [local] and attributed to the user, and depends on
    [autorun] exactly when it is a policy file; a directory goes before the
    endings.  It falls off its end, with no object, only for a file whose
    name ends with a slash. *)
Theorem local_module_object_cases :
  forall env n,
    match _generate_local_module_object env n with
    | Err e =>
        e = AssertionError
        /\ (Py.startswith n "./" = false
            \/ Py.endswith_any n [".cf"; ".json"; "/"] = false
            \/ (os_path_isfile env n = false /\ os_path_isdir env n = false))
    | Ok None =>
        os_path_isfile env n = true /\ os_path_isdir env n = false
        /\ Py.endswith n "/" = true
    | Ok (Some m) =>
        name m = None
        /\ added_by m = Some "cfbs add"
        /\ tags m = Some ["local"]
        /\ alias m = None
        /\ dependencies m
           = (if negb (os_path_isdir env n) && Py.endswith n ".cf"
              then Some ["autorun"] else None)
    end.
Proof.
  intros env n. unfold _generate_local_module_object, _local_module_data_subdir.
  destruct (Py.startswith n "./") eqn:Hs; cbn [negb]; [|split; auto].
  destruct (Py.endswith_any n [".cf"; ".json"; "/"]) eqn:He; cbn [negb]; [|split; auto].
  destruct (os_path_isfile env n) eqn:Hf, (os_path_isdir env n) eqn:Hd; cbn;
    try (repeat split; auto; fail).
  cbn in He.
  destruct (Py.endswith n ".cf") eqn:Hcf; [repeat split; reflexivity|].
  destruct (Py.endswith n ".json") eqn:Hjson; [repeat split; reflexivity|].
  cbn in He. rewrite orb_false_r in He. repeat split; assumption.
Qed.

(** ** The direct add, step by step *)

Lemma mem_false_iff (x : string) (l : list string) : Py.mem x l = false <-> ~ In x l.
Proof.
  rewrite <- mem_In. destruct (Py.mem x l); split.
  - discriminate.
  - intros H. exfalso. apply H. reflexivity.
  - intros _ H. discriminate.
  - reflexivity.
Qed.

Lemma dmem_dset {V} (k k' : string) (v : V) (d : dict V) :
  dmem k' (dset k v d) = (k =? k') || dmem k' d.
Proof.
  unfold dmem. destruct (String.eqb_spec k k') as [->|Hne].
  - rewrite dget_dset_same. reflexivity.
  - rewrite (dget_dset_other _ _ _ _ Hne). reflexivity.
Qed.

Lemma dict_of_pairs_keys {V} (pairs : list (string * V)) (k : string) :
  dmem k (dict_of_pairs pairs) = existsb (fun kv => fst kv =? k) pairs.
Proof.
  unfold dict_of_pairs.
  assert (H : forall acc,
             dmem k (fold_left (fun d kv => dset (fst kv) (snd kv) d) pairs acc)
             = dmem k acc || existsb (fun kv => fst kv =? k) pairs).
  { induction pairs as [|[k0 v0] pairs IH]; intros acc; cbn.
    - rewrite orb_false_r. reflexivity.
    - rewrite IH, dmem_dset. destruct (k0 =? k), (dmem k acc); reflexivity. }
  rewrite H. reflexivity.
Qed.

Lemma combine_repeat_keys (l : list string) (s k : string) :
  existsb (fun kv : string * string => fst kv =? k) (combine l (repeat s (List.length l)))
  = Py.mem k l.
Proof.
  induction l as [|x l IH]; [reflexivity|].
  cbn. rewrite IH. rewrite (String.eqb_sym x k). reflexivity.
Qed.

(** A string as [added_by] always gives a dictionary. *)
Lemma added_by_dict_of_string_ok (to_add : list string) (s : string) :
  added_by_dict to_add (ByStr s)
  = Ok (dict_of_pairs (combine to_add (repeat s (List.length to_add)))).
Proof.
  unfold added_by_dict. rewrite repeat_length, Nat.eqb_refl.
  destruct (existsb _ to_add) eqn:Hex; [|reflexivity].
  apply existsb_exists in Hex. destruct Hex as [k [Hk Hno]].
  rewrite dict_of_pairs_keys, combine_repeat_keys in Hno.
  apply mem_In in Hk. rewrite Hk in Hno. discriminate.
Qed.

Lemma build_names_entry_names b added :
  build_names b = Ok added -> entry_names b = added.
Proof.
  revert added. induction b as [|m b IH]; intros added H; cbn in *.
  - injection H as <-. reflexivity.
  - destruct (name m); [|discriminate].
    destruct (build_names b); [|discriminate].
    injection H as <-. f_equal. apply IH. reflexivity.
Qed.

(** The promotion loop changes nothing when no name of the request is in
    the build list. *)
Lemma promote_nothing to_add d b added :
  build_names b = Ok added ->
  (forall n, In n to_add -> ~ In n added) ->
  promote to_add d b = (b, None).
Proof.
  revert added. induction b as [|m b IH]; intros added Hb Hnew; cbn in *; [reflexivity|].
  destruct (name m) as [n|]; [|discriminate].
  destruct (build_names b) as [ns|] eqn:Hns; [|discriminate].
  injection Hb as <-.
  destruct (Py.mem n to_add) eqn:Hmem.
  - exfalso. apply mem_In in Hmem. apply (Hnew n Hmem). left. reflexivity.
  - rewrite (IH ns eq_refl); [reflexivity|].
    intros x Hx Hin. apply (Hnew x Hx). right. exact Hin.
Qed.

(** With an attribution for every name of the request, the promotion loop
    ends without error on a build list whose entries all have names, and
    leaves the names as they are. *)
Lemma promote_named to_add d b added :
  build_names b = Ok added ->
  (forall n, In n to_add -> dget n d <> None) ->
  exists b', promote to_add d b = (b', None) /\ build_names b' = Ok added.
Proof.
  revert added. induction b as [|m b IH]; intros added Hb Hd; cbn in *.
  - exists []. split; [reflexivity | exact Hb].
  - destruct (name m) as [n|] eqn:Hn; [|discriminate].
    destruct (build_names b) as [ns|] eqn:Hns; [|discriminate].
    injection Hb as <-.
    destruct (IH ns eq_refl Hd) as [b' [Hp Hb']].
    destruct (Py.mem n to_add) eqn:Hmem.
    + destruct (dget n d) as [v|] eqn:Hv;
        [|exfalso; apply (Hd n); [apply mem_In; exact Hmem | exact Hv]].
      rewrite Hp. eexists. split; [reflexivity|].
      cbn. destruct (v =? "cfbs add"); cbn; rewrite Hn, Hb'; reflexivity.
    + rewrite Hp. eexists. split; [reflexivity|]. cbn. rewrite Hn, Hb'. reflexivity.
Qed.

(** The filter keeps a request of new, distinct names as it is. *)
Lemma filter_added_keeps_new d added l :
  forall filtered user_requested st,
    NoDup (filtered ++ l)%list ->
    (forall n, In n l -> ~ In n added) ->
    (forall n, In n l -> dget n d = Some "cfbs add") ->
    filter_added d added l filtered user_requested st
    = Done ((filtered ++ l)%list, match l with [] => user_requested | _ => Some true end) st.
Proof.
  induction l as [|n l IH]; intros filtered ur st Hnd Hnew Hd; cbn.
  - rewrite app_nil_r. reflexivity.
  - rewrite (Hd n (or_introl eq_refl)).
    assert (Hmem : Py.mem n (added ++ filtered)%list = false).
    { apply mem_false_iff. intros Hin. apply in_app_or in Hin. destruct Hin as [Hin|Hin].
      - apply (Hnew n (or_introl eq_refl) Hin).
      - apply NoDup_remove_2 in Hnd. apply Hnd. apply in_or_app. left. exact Hin. }
    rewrite Hmem.
    rewrite IH.
    + rewrite <- app_assoc. cbn. destruct l; reflexivity.
    + rewrite <- app_assoc. exact Hnd.
    + intros x Hx. apply Hnew. right. exact Hx.
    + intros x Hx. apply Hd. right. exact Hx.
Qed.

(** The filter drops a request whose names are all in the build list, with
    a notice for each. *)
Lemma filter_added_drops_present d added l :
  forall filtered user_requested st,
    (forall n, In n l -> In n added) ->
    (forall n, In n l -> dget n d = Some "cfbs add") ->
    filter_added d added l filtered user_requested st
    = Done (filtered, match l with [] => user_requested | _ => Some true end)
           (mkState (build st)
                    (output st
                     ++ map (fun n => Print ("Skipping already added module: " ++ n)) l)%list
                    (stdin st)).
Proof.
  induction l as [|n l IH]; intros filtered ur st Hin Hd; cbn.
  - rewrite app_nil_r. destruct st; reflexivity.
  - rewrite (Hd n (or_introl eq_refl)).
    assert (Hmem : Py.mem n (added ++ filtered)%list = true).
    { apply mem_In. apply in_or_app. left. apply Hin. left. reflexivity. }
    rewrite Hmem, String.eqb_refl.
    rewrite (bind_done _ _ st
               (mkState (build st)
                        (output st ++ [Print ("Skipping already added module: " ++ n)])
                        (stdin st)) tt) by reflexivity.
    rewrite IH.
    + cbn [build output stdin]. rewrite <- app_assoc. cbn. destruct l; reflexivity.
    + intros x Hx. apply Hin. right. exact Hx.
    + intros x Hx. apply Hd. right. exact Hx.
Qed.

Lemma collect_deps_all_met seen module deps found found_by :
  (forall dep, In dep deps -> In dep seen) ->
  collect_deps seen module deps found found_by = (found, found_by).
Proof.
  induction deps as [|dep deps IH]; intros Hmet; cbn; [reflexivity|].
  assert (Hmem : Py.mem dep (seen ++ found)%list = true).
  { apply mem_In. apply in_or_app. left. apply Hmet. left. reflexivity. }
  rewrite Hmem. apply IH. intros x Hx. apply Hmet. right. exact Hx.
Qed.

(** No dependency is unmet when every module of the batch resolves to an
    object without alias whose dependencies are in the build list or in the
    batch. *)
Lemma unmet_dependencies_none env index added filtered modules :
  (forall n, In n modules ->
     Index_exists env index n = true
     /\ exists data,
         Index_get_module_object env index n = Ok (Some data)
         /\ alias data = None
         /\ forall dep, In dep (deps_of data) -> In dep (added ++ filtered)%list) ->
  unmet_dependencies env index added filtered modules [] [] = Ok ([], []).
Proof.
  induction modules as [|n modules IH]; intros H; cbn; [reflexivity|].
  destruct (H n (or_introl eq_refl)) as [Hex [data [Hobj [Hal Hdeps]]]].
  rewrite Hex, Hobj, Hal. cbn [negb].
  unfold deps_of in Hdeps.
  destruct (dependencies data) as [deps|].
  - rewrite (collect_deps_all_met _ _ _ _ _ Hdeps). cbn [fst snd].
    apply IH. intros x Hx. apply H. right. exact Hx.
  - cbn [fst snd]. apply IH. intros x Hx. apply H. right. exact Hx.
Qed.

Lemma missing_modules_none index l :
  (forall n, In n l -> Py.startswith n "./" = true \/ Index_contains index n = true) ->
  missing_modules index l = [].
Proof.
  unfold missing_modules. induction l as [|n l IH]; intros H; cbn; [reflexivity|].
  destruct (H n (or_introl eq_refl)) as [Hs|Hi].
  - rewrite Hs. cbn. apply IH. intros x Hx. apply H. right. exact Hx.
  - rewrite Hi, andb_false_r. apply IH. intros x Hx. apply H. right. exact Hx.
Qed.

(** Keys of the catalog that are no aliases are translated to themselves,
    and nothing is printed. *)
Lemma translate_catalog_keys env index l st :
  Forall (fun n => exists e, dget n index = Some e /\ e_alias e = None) l ->
  translate env index l st = Done l st.
Proof.
  induction 1 as [|n l [e [He Ha]] _ IH]; [reflexivity|].
  assert (Hone : translate_module env index n st = Done n st).
  { unfold translate_module, Index_exists, Index_contains, dmem, Index_getitem.
    rewrite He, orb_true_r. cbn. rewrite Ha. reflexivity. }
  cbn [translate]. rewrite (bind_done _ _ _ _ _ Hone), (bind_done _ _ _ _ _ IH).
  reflexivity.
Qed.

(** The attribution that a request made by the user gives to its names. *)
Lemma user_attribution ts n :
  In n ts ->
  dget n (dict_of_pairs (combine ts (repeat "cfbs add" (List.length ts)))) = Some "cfbs add".
Proof.
  intros Hn.
  apply (added_by_dict_of_string ts "cfbs add" _ (added_by_dict_of_string_ok ts "cfbs add")).
  exact Hn.
Qed.

(** The direct add of translated names that are distinct, known and not in
    the build list, up to the search for unmet dependencies. *)
Lemma direct_add_of_new_names env fuel self to_add st ts st1 added :
  translate env (cfg_index self) to_add st = Done ts st1 ->
  NoDup ts ->
  missing_modules (cfg_index self) ts = [] ->
  build_names (build st) = Ok added ->
  (forall n, In n ts -> ~ In n added) ->
  _add_modules env fuel self to_add (ByStr "cfbs add") st
  = (found <- lift (unmet_dependencies env (cfg_index self) added ts ts [] []) ;;
     match fst found with
     | [] => ret tt
     | _ :: _ =>
         match fuel with
         | O => out_of_fuel
         | S f =>
             add_command_with env (_add_modules env f self) f self
                              (fst found) (ByList (snd found)) None false ;;;
             ret tt
         end
     end ;;;
     for_each (append_module env (cfg_index self)
                 (dict_of_pairs (combine ts (repeat "cfbs add" (List.length ts))))
                 (match ts with [] => None | _ => Some true end)) ts ;;;
     ret 0) st1.
Proof.
  intros Ht Hnd Hmiss Hb Hnew.
  pose proof (translate_build env (cfg_index self) to_add st) as Hb1. rewrite Ht in Hb1.
  rewrite _add_modules_unfold. cbv zeta.
  rewrite (bind_done _ _ _ _ _ Ht).
  rewrite added_by_dict_of_string_ok.
  erewrite bind_done; [|reflexivity].
  rewrite Hmiss.
  assert (Hp : promote_build ts (dict_of_pairs (combine ts (repeat "cfbs add" (List.length ts))))
                             st1 = Done tt st1).
  { unfold promote_build. rewrite Hb1.
    rewrite (promote_nothing ts _ (build st) added Hb Hnew).
    rewrite <- Hb1. destruct st1; reflexivity. }
  rewrite (bind_done _ _ _ _ _ Hp).
  erewrite bind_done; [|reflexivity].
  rewrite Hb1, Hb.
  erewrite bind_done; [|reflexivity].
  rewrite (bind_done _ _ _ _ _
             (filter_added_keeps_new _ added ts [] None st1 Hnd Hnew (user_attribution ts))).
  reflexivity.
Qed.

(** The loop that appends, for names of the catalog that are not local
    paths. *)
Lemma append_catalog_modules env index d l :
  forall st,
    (forall n, In n l ->
       Py.startswith n "./" = false
       /\ Index_contains index n = true
       /\ dget n d = Some "cfbs add"
       /\ forall e, dget n index = Some e -> Py.startswith (entry_name n e) "./" = false) ->
    for_each (append_module env index d (Some true)) l st
    = Done tt
        (mkState (build st
                  ++ flat_map (fun n => match dget n index with
                                        | Some e => [set_added_by "cfbs add" (module_of_entry n e)]
                                        | None => []
                                        end) l)
                 (output st ++ map (fun n => Print ("Added module: " ++ n)) l)
                 (stdin st)).
Proof.
  induction l as [|n l IH]; intros st H; cbn [for_each flat_map map].
  - rewrite !app_nil_r. destruct st; reflexivity.
  - destruct (H n (or_introl eq_refl)) as [Hs [Hi [Hd Hown]]].
    assert (Hone :
              append_module env index d (Some true) n st
              = Done tt
                  (mkState (build st
                            ++ match dget n index with
                               | Some e => [set_added_by "cfbs add" (module_of_entry n e)]
                               | None => []
                               end)
                           (output st ++ [Print ("Added module: " ++ n)])
                           (stdin st))).
    { unfold append_module, Index_exists. rewrite Hi, orb_true_r. cbn [assert].
      unfold bind at 1. unfold ret at 1.
      unfold Index_get_module_object. rewrite Hs.
      unfold Index_contains in Hi. apply dmem_true_iff in Hi. destruct Hi as [e He].
      unfold Index_getitem. rewrite He. cbn [lift].
      unfold bind at 1. unfold ret at 1. rewrite Hd.
      unfold bind at 1. unfold build_append at 1.
      unfold bind at 1. unfold print at 1, emit at 1. cbn [build output stdin].
      unfold validate_added_module. cbn [name set_added_by with_default_name module_of_entry].
      rewrite (Hown e He). reflexivity. }
    rewrite (bind_done _ _ _ _ _ Hone).
    rewrite IH by (intros x Hx; apply H; right; exact Hx).
    cbn [build output stdin]. rewrite <- !app_assoc. reflexivity.
Qed.

(** ** The direct add: what it appends *)

(** X13: the direct add of names of the catalog that are distinct, not
    local, no aliases and not in the build list, whose module objects are
    not named like a local path (an entry is named after its key unless it
    has a [name] key of its own), and whose dependencies are all in the
    build list or in the request itself, returns 0, needs no fuel, and
    appends the module object of each name, in the order of the request,
    attributed to the user; it prints one plain message for each. *)
Theorem direct_add_appends_in_request_order :
  forall env fuel self to_add st added,
    NoDup to_add ->
    build_names (build st) = Ok added ->
    (forall n, In n to_add ->
       ~ In n added
       /\ Py.startswith n "./" = false
       /\ exists e,
           dget n (cfg_index self) = Some e
           /\ e_alias e = None
           /\ Py.startswith (entry_name n e) "./" = false
           /\ forall d,
               In d (match e_dependencies e with Some ds => ds | None => [] end) ->
               In d (added ++ to_add)%list) ->
    _add_modules env fuel self to_add (ByStr "cfbs add") st
    = Done 0
        (mkState (build st
                  ++ flat_map (fun n => match dget n (cfg_index self) with
                                        | Some e => [set_added_by "cfbs add" (module_of_entry n e)]
                                        | None => []
                                        end) to_add)
                 (output st ++ map (fun n => Print ("Added module: " ++ n)) to_add)
                 (stdin st)).
Proof.
  intros env fuel self to_add st added Hnd Hb H.
  assert (Ht : translate env (cfg_index self) to_add st = Done to_add st).
  { apply translate_catalog_keys. apply Forall_forall. intros n Hn.
    destruct (H n Hn) as [_ [_ [e [He [Ha _]]]]]. eauto. }
  assert (Hin : forall n, In n to_add -> Index_contains (cfg_index self) n = true).
  { intros n Hn. destruct (H n Hn) as [_ [_ [e [He _]]]].
    unfold Index_contains. apply dmem_true_iff. eauto. }
  rewrite (direct_add_of_new_names env fuel self to_add st to_add st added Ht Hnd).
  - rewrite (unmet_dependencies_none env (cfg_index self) added to_add to_add).
    + erewrite bind_done; [|reflexivity]. cbn [fst].
      erewrite bind_done; [|reflexivity].
      destruct to_add as [|n0 l0] eqn:Hl.
      * cbn. rewrite !app_nil_r. destruct st; reflexivity.
      * rewrite <- Hl in *.
        erewrite bind_done;
          [|apply append_catalog_modules; intros n Hn;
            destruct (H n Hn) as [_ [Hs [e [He [_ [Hown _]]]]]];
            repeat split;
            [exact Hs | apply Hin; exact Hn | apply user_attribution; exact Hn
            | intros e' He'; rewrite He in He'; injection He' as <-; exact Hown]].
        reflexivity.
    + intros n Hn. destruct (H n Hn) as [_ [Hs [e [He [Ha [_ Hd]]]]]].
      split; [unfold Index_exists; rewrite (Hin n Hn); apply orb_true_r|].
      exists (module_of_entry n e).
      unfold Index_get_module_object, Index_getitem. rewrite Hs, He.
      repeat split; assumption.
  - apply missing_modules_none. intros n Hn. right. apply Hin. exact Hn.
  - exact Hb.
  - intros n Hn. destruct (H n Hn) as [Hnew _]. exact Hnew.
Qed.

Lemma direct_add_appends_in_request_order_witness :
  _add_modules Fixtures.empty_world 0 (Fixtures.manifest Fixtures.chain_index)
               ["c"; "b"] (ByStr "cfbs add") (Fixtures.fresh [])
  = Done 0
      (mkState (build (Fixtures.fresh [])
                ++ flat_map (fun n => match dget n (cfg_index (Fixtures.manifest
                                                                  Fixtures.chain_index)) with
                                      | Some e => [set_added_by "cfbs add" (module_of_entry n e)]
                                      | None => []
                                      end) ["c"; "b"])
               (output (Fixtures.fresh [])
                ++ map (fun n => Print ("Added module: " ++ n)) ["c"; "b"])
               (stdin (Fixtures.fresh []))).
Proof.
  apply (direct_add_appends_in_request_order
           Fixtures.empty_world 0 (Fixtures.manifest Fixtures.chain_index)
           ["c"; "b"] (Fixtures.fresh []) []).
  - repeat constructor; cbn; intuition discriminate.
  - reflexivity.
  - intros n [<-|[<-|[]]].
    + split; [intros []|]. split; [reflexivity|].
      exists (Fixtures.entry None None). repeat split. intros d [].
    + split; [intros []|]. split; [reflexivity|].
      exists (Fixtures.entry None (Some ["c"])). repeat split.
      intros d [<-|[]]. left. reflexivity.
Defined.









(** The promotion loop of a request of the user marks every entry that the
    request names. *)
Lemma promote_marks to_add d b added :
  build_names b = Ok added ->
  (forall n, In n to_add -> dget n d = Some "cfbs add") ->
  promote to_add d b = (marked_as_requested to_add b, None).
Proof.
  unfold marked_as_requested.
  revert added. induction b as [|m b IH]; intros added Hb Hd; cbn in *; [reflexivity|].
  destruct (name m) as [n|] eqn:Hn; [|discriminate].
  destruct (build_names b) as [ns|] eqn:Hns; [|discriminate].
  rewrite (IH ns eq_refl Hd).
  destruct (Py.mem n to_add) eqn:Hmem; [|reflexivity].
  rewrite (Hd n (proj1 (mem_In _ _) Hmem)). reflexivity.
Qed.

Lemma build_names_marked to_add b added :
  build_names b = Ok added -> build_names (marked_as_requested to_add b) = Ok added.
Proof.
  unfold marked_as_requested.
  revert added. induction b as [|m b IH]; intros added Hb; cbn in *; [exact Hb|].
  destruct (name m) as [n|] eqn:Hn; [|discriminate].
  destruct (build_names b) as [ns|] eqn:Hns; [|discriminate].
  destruct (Py.mem n to_add); cbn; rewrite Hn, (IH ns eq_refl); exact Hb.
Qed.

(** X17: adding again what is in the build list appends nothing.  When every
    name of the request is a key of the catalog, no alias, and the name of an
    entry of the build list, the direct add returns 0 and needs no fuel; the
    entries keep their places, those that the request names are marked as
    requested by the user, and one notice is printed for each name of the
    request. *)
Theorem direct_add_of_present_names_only_marks :
  forall env fuel self to_add st added,
    Forall (fun n => exists e, dget n (cfg_index self) = Some e /\ e_alias e = None) to_add ->
    build_names (build st) = Ok added ->
    (forall n, In n to_add -> In n added) ->
    _add_modules env fuel self to_add (ByStr "cfbs add") st
    = Done 0
        (mkState (marked_as_requested to_add (build st))
                 (output st
                  ++ map (fun n => Print ("Skipping already added module: " ++ n)) to_add)
                 (stdin st)).
Proof.
  intros env fuel self to_add st added Hkeys Hb Hin.
  rewrite _add_modules_unfold. cbv zeta.
  rewrite (bind_done _ _ _ _ _ (translate_catalog_keys env _ to_add st Hkeys)).
  rewrite added_by_dict_of_string_ok.
  erewrite bind_done; [|reflexivity].
  rewrite missing_modules_none.
  2:{ intros n Hn. right. rewrite Forall_forall in Hkeys.
      destruct (Hkeys n Hn) as [e [He _]].
      unfold Index_contains. apply dmem_true_iff. eauto. }
  erewrite bind_done.
  2:{ unfold promote_build.
      rewrite (promote_marks to_add _ (build st) added Hb (user_attribution to_add)).
      reflexivity. }
  erewrite bind_done; [|reflexivity].
  cbn [build]. rewrite (build_names_marked to_add _ added Hb).
  erewrite bind_done; [|reflexivity].
  rewrite (bind_done _ _ _ _ _
             (filter_added_drops_present _ added to_add [] None _ Hin
                (user_attribution to_add))).
  reflexivity.
Qed.

Lemma direct_add_of_present_names_only_marks_witness :
  _add_modules Fixtures.empty_world 0 (Fixtures.manifest Fixtures.chain_index)
               ["b"] (ByStr "cfbs add") (mkState Fixtures.built_pair [] [])
  = Done 0
      (mkState (marked_as_requested ["b"] (build (mkState Fixtures.built_pair [] [])))
               (output (mkState Fixtures.built_pair [] [])
                ++ map (fun n => Print ("Skipping already added module: " ++ n)) ["b"])
               (stdin (mkState Fixtures.built_pair [] []))).
Proof.
  apply (direct_add_of_present_names_only_marks
           Fixtures.empty_world 0 (Fixtures.manifest Fixtures.chain_index)
           ["b"] (mkState Fixtures.built_pair [] []) ["b"; "a"]).
  - repeat constructor. exists (Fixtures.entry None (Some ["c"])). split; reflexivity.
  - reflexivity.
  - intros n [<-|[]]. left. reflexivity.
Defined.

(** ** The order of what the recursive add appends *)

Lemma entry_names_app b c : entry_names (b ++ c) = (entry_names b ++ entry_names c)%list.
Proof.
  induction b as [|m b IH]; cbn; [reflexivity|].
  destruct (name m); cbn; rewrite IH; reflexivity.
Qed.

Lemma dependencies_ordered_from_app b :
  forall before c,
    dependencies_ordered_from before (b ++ c)
    = dependencies_ordered_from before b
      && dependencies_ordered_from (before ++ entry_names b) c.
Proof.
  induction b as [|m b IH]; intros before c; cbn.
  - rewrite app_nil_r. reflexivity.
  - rewrite IH, andb_assoc. destruct (name m) as [n|]; cbn.
    + rewrite <- app_assoc. reflexivity.
    + reflexivity.
Qed.

Lemma appended_in_order_refl b : appended_in_order b b.
Proof. exists []. split; [rewrite app_nil_r; reflexivity | reflexivity]. Qed.

Lemma appended_in_order_trans b1 b2 b3 :
  appended_in_order b1 b2 -> appended_in_order b2 b3 -> appended_in_order b1 b3.
Proof.
  intros [x1 [-> H1]] [x2 [-> H2]]. exists (x1 ++ x2)%list. split.
  - rewrite app_assoc. reflexivity.
  - rewrite dependencies_ordered_from_app, H1. rewrite entry_names_app in H2. exact H2.
Qed.

Lemma appended_in_order_names b b' n :
  appended_in_order b b' -> In n (entry_names b) -> In n (entry_names b').
Proof.
  intros [x [-> _]] H. rewrite entry_names_app. apply in_or_app. left. exact H.
Qed.

(** An ordered list stays ordered when entries are appended in order. *)
Lemma appended_in_order_ordered b b' :
  appended_in_order b b' -> dependencies_ordered b = true -> dependencies_ordered b' = true.
Proof.
  intros [x [-> H]] Hb. unfold dependencies_ordered in *.
  rewrite dependencies_ordered_from_app, Hb. exact H.
Qed.

Lemma final_state_bind {A B} (m : M A) (k : A -> M B) (st st' : State) :
  final_state (bind m k st) = Some st' ->
  (exists a st1, m st = Done a st1 /\ final_state (k a st1) = Some st')
  \/ (exists e, m st = Fail e st').
Proof.
  unfold bind. destruct (m st) as [a st1|e st1|]; cbn; intros H.
  - left. eauto.
  - right. injection H as <-. eauto.
  - discriminate.
Qed.

Lemma appends_same_build {A} (m : M A) :
  (forall st st', final_state (m st) = Some st' -> build st' = build st) ->
  appends_in_order m.
Proof. intros H st st' Hf. rewrite (H st st' Hf). apply appended_in_order_refl. Qed.

Lemma appends_bind {A B} (m : M A) (k : A -> M B) :
  appends_in_order m -> (forall a, appends_in_order (k a)) -> appends_in_order (bind m k).
Proof.
  intros Hm Hk st st' H.
  destruct (final_state_bind m k st st' H) as [[a [st1 [H1 H2]]]|[e H1]].
  - apply appended_in_order_trans with (build st1).
    + apply Hm. rewrite H1. reflexivity.
    + apply (Hk a). exact H2.
  - apply Hm. rewrite H1. reflexivity.
Qed.

Lemma appends_for_each {A} (f : A -> M unit) (l : list A) :
  (forall x, In x l -> appends_in_order (f x)) -> appends_in_order (for_each f l).
Proof.
  induction l as [|x l IH]; intros Hf; cbn.
  - apply appends_same_build. intros st st' H. injection H as <-. reflexivity.
  - apply appends_bind; [apply Hf; left; reflexivity|].
    intros _. apply IH. intros y Hy. apply Hf. right. exact Hy.
Qed.

Lemma validate_added_module_build env m st st' :
  final_state (validate_added_module env m st) = Some st' -> build st' = build st.
Proof.
  unfold validate_added_module, bind, assert, lift, log_warning, emit, raise, ret.
  repeat (cbn;
          match goal with
          | |- context [match ?x with _ => _ end] =>
              lazymatch type of x with
              | Outcome _ => fail
              | _ => destruct x
              end
          end);
    cbn; intros H; injection H as <-; reflexivity.
Qed.

Lemma name_in_build_true n b : name_in_build n b = Ok true -> In n (entry_names b).
Proof.
  induction b as [|m b IH]; cbn; [discriminate|].
  destruct (name m) as [n'|]; [|discriminate].
  destruct (n' =? n) eqn:Heq.
  - intros _. apply String.eqb_eq in Heq. left. exact Heq.
  - intros H. right. apply IH. exact H.
Qed.

Lemma dget_In {V} (k : string) (v : V) (d : dict V) : dget k d = Some v -> In (k, v) d.
Proof.
  induction d as [|[k' v'] d IH]; cbn; [discriminate|].
  destruct (String.eqb_spec k' k) as [->|Hne].
  - intros H. injection H as ->. left. reflexivity.
  - intros H. right. apply IH. exact H.
Qed.

Lemma named_after_keys_lookup index n e :
  named_after_keys index = true -> dget n index = Some e -> entry_name n e = n.
Proof.
  intros Hk He. unfold named_after_keys in Hk. rewrite forallb_forall in Hk.
  specialize (Hk (n, e) (dget_In _ _ _ He)). cbn in Hk.
  unfold entry_name. destruct (e_name e) as [own|]; [|reflexivity].
  apply String.eqb_eq. exact Hk.
Qed.

(** In a manifest whose index entries are named after their keys, the module
    that a name resolves to carries that name, when it has one. *)
Lemma get_module_for_build_name env cfg n dependent m n' :
  named_after_keys (cfg_index cfg) = true ->
  get_module_for_build env cfg n dependent = Ok (Some m) -> name m = Some n' -> n' = n.
Proof.
  intros Hkeys. unfold get_module_for_build.
  destruct (match cfg_provides cfg with Some p => dget n p | None => None end) as [e|].
  - destruct (_construct_provided_module env n e _ _) as [m0|] eqn:Hc; [|discriminate].
    intros H Hn. injection H as <-.
    rewrite (_construct_provided_module_name _ _ _ _ _ _ Hc) in Hn. congruence.
  - destruct (Index_contains (cfg_index cfg) n); [|discriminate].
    unfold Index_get_module_object.
    destruct (Py.startswith n "./").
    + unfold _generate_local_module_object, _local_module_data_subdir.
      repeat match goal with
             | |- context [if ?c then _ else _] => destruct c
             end;
        cbn; intros H Hn; try discriminate; injection H as <-; cbn in Hn; discriminate.
    + unfold Index_getitem. destruct (dget n (cfg_index cfg)) as [e|] eqn:He; [|discriminate].
      intros H Hn. injection H as <-. cbn in Hn. injection Hn as <-.
      apply (named_after_keys_lookup _ _ _ Hkeys He).
Qed.

(** What is left of the recursive add once the module is resolved, over the
    function [rec] that adds a dependency. *)
Lemma resolved_add_in_order env (rec : string -> string -> M unit) dependent m :
  (forall d n, appends_in_order (rec d n)) ->
  (forall d n st st', rec d n st = Done tt st' -> In d (entry_names (build st'))) ->
  appends_in_order
    (match name m with
     | None => raise AssertionError
     | Some n =>
         assert (match steps m with Some _ => true | None => false end) ;;;
         present <- _module_is_in_build m ;;
         if present then print ("Skipping already added module '" ++ n ++ "'")
         else
           match dependencies m with
           | Some deps => for_each (fun dep => rec dep n) deps
           | None => ret tt
           end ;;;
           build_append m ;;;
           (if truthy dependent
            then print ("Added module: " ++ n ++ " (Dependency of "
                        ++ match dependent with Some d => d | None => EmptyString end
                        ++ ")")
            else print ("Added module: " ++ n)) ;;;
           validate_added_module env m
     end).
Proof.
  intros Hrec Hin st st' H.
  destruct (name m) as [n|] eqn:Hn;
    [|injection H as <-; apply appended_in_order_refl].
  destruct (final_state_bind _ _ _ _ H) as [[[] [st0 [H0 H1]]]|[e H0]]; clear H.
  2:{ destruct (steps m); [discriminate|]. injection H0 as _ <-.
      apply appended_in_order_refl. }
  assert (st0 = st) by (destruct (steps m); [injection H0 as <-; reflexivity | discriminate]).
  subst st0. clear H0.
  unfold _module_is_in_build in H1. rewrite Hn in H1.
  unfold bind at 1 2 in H1. unfold get_build, lift in H1.
  destruct (name_in_build n (build st)) as [[|]|e] eqn:Hp; cbn in H1.
  - injection H1 as <-. apply appended_in_order_refl.
  - destruct (final_state_bind _ _ _ _ H1) as [[[] [st1 [Hd H2]]]|[e Hd]]; clear H1.
    + assert (Hgrow : appended_in_order (build st) (build st1)).
      { destruct (dependencies m) as [deps|].
        - apply (appends_for_each (fun dep => rec dep n) deps (fun x _ => Hrec x n) st st1).
          rewrite Hd. reflexivity.
        - injection Hd as <-. apply appended_in_order_refl. }
      assert (Hdeps : forall d, In d (deps_of m) -> In d (entry_names (build st1))).
      { unfold deps_of. destruct (dependencies m) as [deps|]; [|intros d []].
        clear Hgrow Hp. revert st Hd. clear - Hrec Hin.
        induction deps as [|d0 deps IH]; intros st Hd d Hdin; [destruct Hdin|].
        cbn [for_each] in Hd.
        destruct (bind_done_inv _ _ _ _ _ Hd) as [[] [st2 [Hf Hr]]].
        destruct Hdin as [<-|Hdin].
        - apply (appended_in_order_names (build st2)).
          + apply (appends_for_each (fun dep => rec dep n) deps (fun x _ => Hrec x n) st2 st1).
            rewrite Hr. reflexivity.
          + apply (Hin _ _ _ _ Hf).
        - apply (IH st2 Hr d Hdin). }
      apply appended_in_order_trans with (build st1); [exact Hgrow|].
      assert (Hb : build st' = (build st1 ++ [m])%list).
      { unfold bind at 1 in H2. unfold build_append in H2.
        destruct (final_state_bind _ _ _ _ H2) as [[[] [st3 [Hpr H3]]]|[e Hpr]].
        - rewrite (validate_added_module_build _ _ _ _ H3).
          destruct (truthy dependent); injection Hpr as <-; reflexivity.
        - destruct (truthy dependent); discriminate. }
      exists [m]. split; [exact Hb|].
      cbn. rewrite andb_true_r. apply forallb_forall. intros d Hd'.
      apply mem_In. apply Hdeps. exact Hd'.
    + destruct (dependencies m) as [deps|]; [|discriminate].
      apply (appends_for_each (fun dep => rec dep n) deps (fun x _ => Hrec x n) st st').
      rewrite Hd. reflexivity.
  - injection H1 as <-. apply appended_in_order_refl.
Qed.

Lemma appends_ret {A} (a : A) : appends_in_order (ret a).
Proof. apply appends_same_build. intros st st' H. injection H as <-. reflexivity. Qed.

Lemma appends_raise {A} (e : error) : appends_in_order (@raise A e).
Proof. apply appends_same_build. intros st st' H. injection H as <-. reflexivity. Qed.

Lemma appends_lift {A} (r : res A) : appends_in_order (lift r).
Proof. destruct r; [apply appends_ret | apply appends_raise]. Qed.

Lemma appends_out_of_fuel {A} : appends_in_order (@out_of_fuel A).
Proof. intros st st' H. discriminate. Qed.

(** Once the module is resolved and has a name, a recursive add that returns
    leaves an entry of that name in the build list. *)
Lemma resolved_add_names_present env (deps_part : M unit) (notice : M unit) m n st st' :
  name m = Some n ->
  (forall s s', notice s = Done tt s' -> build s' = build s) ->
  (assert (match steps m with Some _ => true | None => false end) ;;;
   present <- _module_is_in_build m ;;
   if present then print ("Skipping already added module '" ++ n ++ "'")
   else deps_part ;;; build_append m ;;; notice ;;; validate_added_module env m) st
  = Done tt st' ->
  In n (entry_names (build st')).
Proof.
  intros Hn Hnotice H.
  destruct (bind_done_inv _ _ _ _ _ H) as [[] [st0 [H0 H1]]]; clear H.
  assert (st0 = st) by (destruct (steps m); [injection H0 as <-; reflexivity | discriminate]).
  subst st0. clear H0.
  destruct (bind_done_inv _ _ _ _ _ H1) as [present [st1 [Hp H2]]]; clear H1.
  unfold _module_is_in_build in Hp. rewrite Hn in Hp.
  unfold bind, get_build, lift in Hp.
  destruct (name_in_build n (build st)) as [p|e] eqn:Hnb; [|discriminate].
  injection Hp as -> <-.
  destruct present.
  - injection H2 as <-. cbn [build]. apply name_in_build_true. exact Hnb.
  - destruct (bind_done_inv _ _ _ _ _ H2) as [[] [st2 [_ H3]]]; clear H2.
    destruct (bind_done_inv _ _ _ _ _ H3) as [[] [st3 [Ha H4]]]; clear H3.
    destruct (bind_done_inv _ _ _ _ _ H4) as [[] [st4 [Hpr H5]]]; clear H4.
    rewrite (validate_added_module_build env m st4 st') by (rewrite H5; reflexivity).
    rewrite (Hnotice _ _ Hpr). injection Ha as <-. cbn [build].
    rewrite entry_names_app. apply in_or_app. right. cbn. rewrite Hn. left. reflexivity.
Qed.

Lemma notice_build (b : bool) (l1 l2 : string) s s' :
  (if b then print l1 else print l2) s = Done tt s' -> build s' = build s.
Proof. destruct b; intros H; injection H as <-; reflexivity. Qed.

Lemma recursive_add_of_name_present env fuel self n remote_config dependent st st' :
  named_after_keys (cfg_index (match remote_config with Some r => r | None => self end))
  = true ->
  add_with_dependencies env fuel self (inl n) remote_config dependent st = Done tt st' ->
  In n (entry_names (build st')).
Proof.
  rewrite add_with_dependencies_unfold. intros Hkeys H.
  destruct (bind_done_inv _ _ _ _ _ H) as [resolved [st0 [Hr Hbody]]]; clear H.
  destruct (get_module_for_build env _ n dependent) as [r|e] eqn:Hg; [|discriminate].
  injection Hr as <- <-.
  destruct r as [m|]; cbn [truthy_module] in Hbody; [|discriminate].
  destruct (module_is_empty m); [discriminate|].
  destruct (name m) as [n'|] eqn:Hn; [|discriminate].
  rewrite <- (get_module_for_build_name _ _ _ _ _ _ Hkeys Hg Hn).
  apply (resolved_add_names_present env _ _ m n' st st' Hn (notice_build _ _ _) Hbody).
Qed.

Lemma appends_add_with_dependencies env fuel :
  forall self module remote_config dependent,
    named_after_keys (cfg_index (match remote_config with Some r => r | None => self end))
    = true ->
    appends_in_order (add_with_dependencies env fuel self module remote_config dependent).
Proof.
  induction fuel as [|f IH]; intros self module remote_config dependent Hkeys;
    rewrite add_with_dependencies_unfold.
  - apply appends_bind; [destruct module; [apply appends_lift | apply appends_ret]|].
    intros resolved.
    destruct (truthy_module resolved) as [m|]; [|destruct module; apply appends_raise].
    apply (resolved_add_in_order env (fun _ _ => out_of_fuel)).
    + intros d n. apply appends_out_of_fuel.
    + intros d n st st' H. discriminate.
  - apply appends_bind; [destruct module; [apply appends_lift | apply appends_ret]|].
    intros resolved.
    destruct (truthy_module resolved) as [m|]; [|destruct module; apply appends_raise].
    apply (resolved_add_in_order env
             (fun dep n => add_with_dependencies env f self (inl dep) remote_config (Some n))).
    + intros d n. apply IH. exact Hkeys.
    + intros d n st st'. apply recursive_add_of_name_present. exact Hkeys.
Qed.

(** X18: the recursive add only appends, and in the order of the
    dependencies, when the index entries of the manifest that resolves the
    names are named after their keys.  Whether it returns or fails, the
    build list is the one it started from followed by new entries, and every
    dependency of a new entry is the name of an entry before it; a build
    list that was ordered by dependencies is still ordered. *)
Theorem recursive_add_appends_in_dependency_order :
  forall env fuel self module remote_config dependent st st',
    named_after_keys (cfg_index (match remote_config with Some r => r | None => self end))
    = true ->
    final_state (add_with_dependencies env fuel self module remote_config dependent st)
    = Some st' ->
    (exists extra,
        build st' = (build st ++ extra)%list
        /\ dependencies_ordered_from (entry_names (build st)) extra = true)
    /\ (dependencies_ordered (build st) = true -> dependencies_ordered (build st') = true).
Proof.
  intros env fuel self module remote_config dependent st st' Hkeys H.
  pose proof (appends_add_with_dependencies env fuel self module remote_config dependent
                                            Hkeys st st' H) as Ha.
  split; [exact Ha | apply appended_in_order_ordered; exact Ha].
Qed.

Lemma recursive_add_appends_in_dependency_order_witness :
  let b := [module_of_entry "c" (Fixtures.entry None None);
            module_of_entry "b" (Fixtures.entry None (Some ["c"]));
            module_of_entry "a" (Fixtures.entry None (Some ["b"]))] in
  (exists extra,
      b = (build (Fixtures.fresh []) ++ extra)%list
      /\ dependencies_ordered_from (entry_names (build (Fixtures.fresh []))) extra = true)
  /\ (dependencies_ordered (build (Fixtures.fresh [])) = true ->
      dependencies_ordered b = true).
Proof.
  apply (recursive_add_appends_in_dependency_order
           Fixtures.empty_world 2 (Fixtures.manifest Fixtures.chain_index)
           (inl "a") None None (Fixtures.fresh [])
           (mkState [module_of_entry "c" (Fixtures.entry None None);
                     module_of_entry "b" (Fixtures.entry None (Some ["c"]));
                     module_of_entry "a" (Fixtures.entry None (Some ["b"]))]
                    [Print "Added module: c (Dependency of b)";
                     Print "Added module: b (Dependency of a)";
                     Print "Added module: a"] [])).
  - reflexivity.
  - reflexivity.
Defined.

(** X19: a recursive add that returns leaves the module in the build list:
    the name was resolved to a module object, or the object was given, the
    object has a name, and an entry of the build list carries that name. *)
Theorem recursive_add_puts_module_in_build :
  forall env fuel self module remote_config dependent st st',
    add_with_dependencies env fuel self module remote_config dependent st = Done tt st' ->
    exists m n,
      match module with
      | inl s =>
          get_module_for_build env (match remote_config with Some r => r | None => self end)
                               s dependent
          = Ok (Some m)
      | inr m0 => m = m0
      end
      /\ name m = Some n
      /\ In n (entry_names (build st')).
Proof.
  intros env fuel self module remote_config dependent st st' H.
  rewrite add_with_dependencies_unfold in H.
  destruct (bind_done_inv _ _ _ _ _ H) as [resolved [st0 [Hr Hbody]]]; clear H.
  destruct module as [s|m0].
  - destruct (get_module_for_build env _ s dependent) as [r|e] eqn:Hg; [|discriminate].
    injection Hr as <- <-.
    destruct r as [m|]; cbn [truthy_module] in Hbody; [|discriminate].
    destruct (module_is_empty m); [discriminate|].
    destruct (name m) as [n'|] eqn:Hn; [|discriminate].
    exists m, n'. split; [reflexivity|]. split; [exact Hn|].
    apply (resolved_add_names_present env _ _ m n' st st' Hn (notice_build _ _ _) Hbody).
  - injection Hr as <- <-. cbn [truthy_module] in Hbody.
    destruct (module_is_empty m0); [discriminate|].
    destruct (name m0) as [n'|] eqn:Hn; [|discriminate].
    exists m0, n'. split; [reflexivity|]. split; [exact Hn|].
    apply (resolved_add_names_present env _ _ m0 n' st st' Hn (notice_build _ _ _) Hbody).
Qed.

Lemma recursive_add_puts_module_in_build_witness :
  exists m n,
    get_module_for_build Fixtures.empty_world (Fixtures.manifest Fixtures.chain_index)
                         "a" None
    = Ok (Some m)
    /\ name m = Some n
    /\ In n (entry_names
               [module_of_entry "c" (Fixtures.entry None None);
                module_of_entry "b" (Fixtures.entry None (Some ["c"]));
                module_of_entry "a" (Fixtures.entry None (Some ["b"]))]).
Proof.
  apply (recursive_add_puts_module_in_build
           Fixtures.empty_world 2 (Fixtures.manifest Fixtures.chain_index)
           (inl "a") None None (Fixtures.fresh [])
           (mkState [module_of_entry "c" (Fixtures.entry None None);
                     module_of_entry "b" (Fixtures.entry None (Some ["c"]));
                     module_of_entry "a" (Fixtures.entry None (Some ["b"]))]
                    [Print "Added module: c (Dependency of b)";
                     Print "Added module: b (Dependency of a)";
                     Print "Added module: a"] [])).
  reflexivity.
Defined.

(** ** The bulk add *)

Lemma appends_assert (b : bool) : appends_in_order (assert b).
Proof. destruct b; [apply appends_ret | apply appends_raise]. Qed.

Lemma appends_user_error {A} (msg : string) : appends_in_order (@user_error A msg).
Proof. apply appends_raise. Qed.

Lemma appends_emit (e : event) : appends_in_order (emit e).
Proof. apply appends_same_build. intros st st' H. injection H as <-. reflexivity. Qed.

Lemma appends_print (line : string) : appends_in_order (print line).
Proof. apply appends_emit. Qed.

Lemma appends_input (prompt : string) : appends_in_order (input prompt).
Proof.
  apply appends_same_build. intros st st' H. unfold input in H.
  destruct (stdin st); injection H as <-; reflexivity.
Qed.

Create HintDb appends.

#[local] Hint Resolve appends_ret appends_raise appends_lift appends_out_of_fuel
  appends_assert appends_user_error appends_emit appends_print appends_input : appends.

(** Splits a computation along its binds and case distinctions, and closes
    what the hints of [appends] close. *)
Ltac appends_steps :=
  repeat first
    [ solve [auto with appends]
    | progress cbv zeta
    | apply appends_bind; [|intros]
    | apply appends_for_each; intros
    | match goal with
      | |- appends_in_order (match ?x with _ => _ end) => destruct x
      end ].

Lemma appends__add_using_url env fuel self u to_add attribution checksum non_interactive :
  (forall path u' uc, named_after_keys (cfg_index (CFBSJson_init env path u' uc)) = true) ->
  appends_in_order
    (_add_using_url env fuel self u to_add attribution checksum non_interactive).
Proof.
  intros Hkeys. unfold _add_using_url, fetch_config.
  appends_steps; apply appends_add_with_dependencies; apply Hkeys.
Qed.

(** X20: the bulk add from a remote source only appends, and in the order of
    the dependencies, when the index entries of the remote manifests are
    named after their keys.  Whether it returns, is declined or fails half
    way, the build list is the one it started from followed by new entries,
    every dependency of a new entry is the name of an entry before it, and a
    build list that was ordered by dependencies is still ordered. *)
Theorem bulk_add_appends_in_dependency_order :
  forall env fuel self u to_add attribution checksum non_interactive st st',
    (forall path u' uc, named_after_keys (cfg_index (CFBSJson_init env path u' uc)) = true) ->
    final_state
      (_add_using_url env fuel self u to_add attribution checksum non_interactive st)
    = Some st' ->
    (exists extra,
        build st' = (build st ++ extra)%list
        /\ dependencies_ordered_from (entry_names (build st)) extra = true)
    /\ (dependencies_ordered (build st) = true -> dependencies_ordered (build st') = true).
Proof.
  intros env fuel self u to_add attribution checksum non_interactive st st' Hkeys H.
  pose proof (appends__add_using_url env fuel self u to_add attribution checksum
                                     non_interactive Hkeys st st' H) as Ha.
  split; [exact Ha | apply appended_in_order_ordered; exact Ha].
Qed.

(** The modules of [get_provides] are named after their keys. *)
Lemma get_provides_names env cfg provides k m :
  get_provides env cfg = Ok provides -> dget k provides = Some m -> name m = Some k.
Proof.
  unfold get_provides. destruct (cfg_provides cfg) as [p|]; [|discriminate].
  intros H Hk.
  destruct (provided_modules_lookup _ _ _ _ _ _ _ _ H Hk) as [[data [_ Hc]]|Hacc];
    [|discriminate].
  apply (_construct_provided_module_name _ _ _ _ _ _ Hc).
Qed.

Lemma select_provided_lookup provides to_add :
  forall modules,
    select_provided provides to_add = Ok modules ->
    forall k, In k to_add -> exists m, In m modules /\ dget k provides = Some m.
Proof.
  induction to_add as [|k0 l IH]; intros modules H k Hk; [destruct Hk|].
  cbn in H.
  destruct (dget k0 provides) as [m0|] eqn:Hm0; [|discriminate].
  destruct (select_provided provides l) as [ms|] eqn:Hms; [|discriminate].
  injection H as <-.
  destruct Hk as [<-|Hk].
  - exists m0. split; [left; reflexivity | exact Hm0].
  - destruct (IH ms eq_refl k Hk) as [m [Hin Hd]].
    exists m. split; [right; exact Hin | exact Hd].
Qed.

Lemma recursive_add_of_module_present env fuel self m n remote_config dependent st st' :
  name m = Some n ->
  add_with_dependencies env fuel self (inr m) remote_config dependent st = Done tt st' ->
  In n (entry_names (build st')).
Proof.
  rewrite add_with_dependencies_unfold. intros Hn H.
  destruct (bind_done_inv _ _ _ _ _ H) as [resolved [st0 [Hr Hbody]]]; clear H.
  injection Hr as <- <-. rewrite (truthy_module_named m n Hn), Hn in Hbody.
  apply (resolved_add_names_present env _ _ m n st st' Hn (notice_build _ _ _) Hbody).
Qed.

(** The names of a build list are names of every build list that continues
    it. *)
Lemma continues_names b b' n :
  continues b b' -> In n (entry_names b) -> In n (entry_names b').
Proof.
  induction 1 as [extra|m b b' _ IH|m b b' _ IH]; cbn; [intros []| |].
  - destruct (name m); [|exact IH]. intros [->|H]; [left; reflexivity | right; auto].
  - destruct (name m); [|exact IH]. intros [->|H]; [left; reflexivity | right; auto].
Qed.

(** After a loop of adds that returns, what each turn put in the build list
    is still there. *)
Lemma for_each_names_present {A} (f : A -> M unit) (named : A -> string -> Prop) l :
  (forall x, extends_build (f x)) ->
  (forall x n st st', f x st = Done tt st' -> named x n -> In n (entry_names (build st'))) ->
  forall st st',
    for_each f l st = Done tt st' ->
    forall x n, In x l -> named x n -> In n (entry_names (build st')).
Proof.
  intros Hf Hn. induction l as [|x0 l IH]; intros st st' H x n Hx Hnamed; [destruct Hx|].
  cbn [for_each] in H.
  destruct (bind_done_inv _ _ _ _ _ H) as [[] [st1 [H1 H2]]].
  destruct Hx as [<-|Hx].
  - apply (continues_names (build st1)).
    + apply (extends_for_each f l (fun y _ => Hf y) st1 st'). rewrite H2. reflexivity.
    + apply (Hn _ _ _ _ H1 Hnamed).
  - apply (IH st1 st' H2 x n Hx Hnamed).
Qed.

(** X21: a bulk add of named modules that returns has every one of them in
    the build list: it returns 0 and each name of the request is the name of
    an entry. *)
Theorem bulk_add_puts_named_modules_in_build :
  forall env fuel self u to_add attribution checksum non_interactive st r st',
    to_add <> [] ->
    _add_using_url env fuel self u to_add attribution checksum non_interactive st
    = Done r st' ->
    r = 0 /\ forall k, In k to_add -> In k (entry_names (build st')).
Proof.
  intros env fuel self u to_add attribution checksum non_interactive st r st' Hne H.
  unfold _add_using_url in H.
  destruct (bind_done_inv _ _ _ _ _ H) as [fetched [st1 [_ H1]]]; clear H.
  destruct (bind_done_inv _ _ _ _ _ H1) as [provides [st2 [Hp H2]]]; clear H1.
  cbv zeta in H2.
  destruct to_add as [|k0 l]; [congruence|].
  cbn [List.length Nat.eqb] in H2.
  destruct (get_provides env _) as [p|e] eqn:Hg; [|discriminate].
  injection Hp as <- <-.
  destruct (filter _ (k0 :: l)); [|discriminate].
  destruct (bind_done_inv _ _ _ _ _ H2) as [modules [st3 [Hs H3]]]; clear H2.
  destruct (select_provided p (k0 :: l)) as [ms|e] eqn:Hsel; [|discriminate].
  injection Hs as <- <-.
  destruct (bind_done_inv _ _ _ _ _ H3) as [[] [st4 [H4 H5]]]; clear H3.
  injection H5 as <- ->.
  split; [reflexivity|].
  intros k Hk.
  destruct (select_provided_lookup p (k0 :: l) ms Hsel k Hk) as [m [Hin Hd]].
  apply (for_each_names_present
           (fun module => add_with_dependencies env fuel self (inr module) _ None)
           (fun m n => name m = Some n) ms
           (fun x => extends_add_with_dependencies env fuel self (inr x) _ None)
           (fun x n s s' Hx Hn => recursive_add_of_module_present env fuel self x n _ None
                                    s s' Hn Hx)
           st1 st' H4 m k Hin).
  apply (get_provides_names env _ p k m Hg Hd).
Qed.

Lemma bulk_add_appends_in_dependency_order_witness :
  exists st',
    final_state
      (_add_using_url Fixtures.empty_world 1 (Fixtures.manifest []) Fixtures.REPO
                      ["m1"; "m3"] (ByStr "cfbs add") None false (Fixtures.fresh []))
    = Some st'
    /\ (exists extra,
           build st' = (build (Fixtures.fresh []) ++ extra)%list
           /\ dependencies_ordered_from (entry_names (build (Fixtures.fresh []))) extra
              = true)
    /\ (dependencies_ordered (build (Fixtures.fresh [])) = true ->
        dependencies_ordered (build st') = true).
Proof.
  eexists. split; [reflexivity|].
  apply (bulk_add_appends_in_dependency_order
           Fixtures.empty_world 1 (Fixtures.manifest []) Fixtures.REPO
           ["m1"; "m3"] (ByStr "cfbs add") None false (Fixtures.fresh [])).
  - intros path u' uc. reflexivity.
  - reflexivity.
Defined.

Lemma bulk_add_puts_named_modules_in_build_witness :
  exists st',
    _add_using_url Fixtures.empty_world 1 (Fixtures.manifest []) Fixtures.REPO
                   ["m1"; "m3"] (ByStr "cfbs add") None false (Fixtures.fresh [])
    = Done 0 st'
    /\ 0 = 0
    /\ forall k, In k ["m1"; "m3"] -> In k (entry_names (build st')).
Proof.
  eexists. split; [vm_compute; reflexivity|].
  apply (bulk_add_puts_named_modules_in_build
           Fixtures.empty_world 1 (Fixtures.manifest []) Fixtures.REPO
           ["m1"; "m3"] (ByStr "cfbs add") None false (Fixtures.fresh [])).
  - discriminate.
  - vm_compute. reflexivity.
Defined.

(** ** Reading the answer of the user *)

Lemma reads_nothing_ret {A} (a : A) : reads_nothing (ret a).
Proof. intros st st' H. injection H as <-. reflexivity. Qed.

Lemma reads_nothing_raise {A} (e : error) : reads_nothing (@raise A e).
Proof. intros st st' H. injection H as <-. reflexivity. Qed.

Lemma reads_nothing_user_error {A} (msg : string) : reads_nothing (@user_error A msg).
Proof. apply reads_nothing_raise. Qed.

Lemma reads_nothing_out_of_fuel {A} : reads_nothing (@out_of_fuel A).
Proof. intros st st' H. discriminate. Qed.

Lemma reads_nothing_lift {A} (r : res A) : reads_nothing (lift r).
Proof. destruct r; [apply reads_nothing_ret | apply reads_nothing_raise]. Qed.

Lemma reads_nothing_assert (b : bool) : reads_nothing (assert b).
Proof. destruct b; [apply reads_nothing_ret | apply reads_nothing_raise]. Qed.

Lemma reads_nothing_emit (e : event) : reads_nothing (emit e).
Proof. intros st st' H. injection H as <-. reflexivity. Qed.

Lemma reads_nothing_print (line : string) : reads_nothing (print line).
Proof. apply reads_nothing_emit. Qed.

Lemma reads_nothing_log_warning (line : string) : reads_nothing (log_warning line).
Proof. apply reads_nothing_emit. Qed.

Lemma reads_nothing_get_build : reads_nothing get_build.
Proof. intros st st' H. injection H as <-. reflexivity. Qed.

Lemma reads_nothing_build_append (m : Module) : reads_nothing (build_append m).
Proof. intros st st' H. injection H as <-. reflexivity. Qed.

Lemma reads_nothing_bind {A B} (m : M A) (k : A -> M B) :
  reads_nothing m -> (forall a, reads_nothing (k a)) -> reads_nothing (bind m k).
Proof.
  intros Hm Hk st st' H.
  destruct (final_state_bind m k st st' H) as [[a [st1 [H1 H2]]]|[e H1]].
  - rewrite (Hk a st1 st' H2). apply Hm. rewrite H1. reflexivity.
  - apply Hm. rewrite H1. reflexivity.
Qed.

Lemma reads_nothing_for_each {A} (f : A -> M unit) (l : list A) :
  (forall x, In x l -> reads_nothing (f x)) -> reads_nothing (for_each f l).
Proof.
  induction l as [|x l IH]; intros Hf; cbn.
  - apply reads_nothing_ret.
  - apply reads_nothing_bind; [apply Hf; left; reflexivity|].
    intros _. apply IH. intros y Hy. apply Hf. right. exact Hy.
Qed.

Create HintDb reads.

#[local] Hint Resolve reads_nothing_ret reads_nothing_raise reads_nothing_user_error
  reads_nothing_out_of_fuel reads_nothing_lift reads_nothing_assert reads_nothing_emit
  reads_nothing_print reads_nothing_log_warning reads_nothing_get_build
  reads_nothing_build_append : reads.

(** Splits a computation along its binds and case distinctions, and closes
    what the hints of [reads] close. *)
Ltac reads_steps :=
  repeat first
    [ solve [auto with reads]
    | progress cbv zeta
    | apply reads_nothing_bind; [|intros]
    | apply reads_nothing_for_each; intros
    | match goal with
      | |- reads_nothing (match ?x with _ => _ end) => destruct x
      | |- reads_nothing (if ?x then _ else _) => destruct x
      end ].

Lemma reads_nothing_validate_added_module env m : reads_nothing (validate_added_module env m).
Proof. unfold validate_added_module. reads_steps. Qed.

Lemma reads_nothing__module_is_in_build m : reads_nothing (_module_is_in_build m).
Proof. unfold _module_is_in_build. reads_steps. Qed.

#[local] Hint Resolve reads_nothing_validate_added_module
  reads_nothing__module_is_in_build : reads.

Lemma reads_nothing_add_with_dependencies env fuel :
  forall self module remote_config dependent,
    reads_nothing (add_with_dependencies env fuel self module remote_config dependent).
Proof.
  induction fuel as [|f IH]; intros self module remote_config dependent.
  - cbn. reads_steps.
  - cbn. reads_steps.
Qed.

#[local] Hint Resolve reads_nothing_add_with_dependencies : reads.

(** X22: only the confirmation of a bulk add of everything reads the input.
    When modules are named after the URL, or when the add is not
    interactive, the bulk add and the recursive adds it makes read nothing:
    whether it returns or fails, the lines waiting on the input are as they
    were. *)
Theorem input_is_read_only_to_confirm :
  forall env fuel self u to_add attribution checksum non_interactive st st',
    to_add <> [] \/ non_interactive = true ->
    final_state
      (_add_using_url env fuel self u to_add attribution checksum non_interactive st)
    = Some st' ->
    stdin st' = stdin st.
Proof.
  intros env fuel self u to_add attribution checksum non_interactive st st' Hcase.
  revert st st'.
  change (reads_nothing
            (_add_using_url env fuel self u to_add attribution checksum non_interactive)).
  unfold _add_using_url, fetch_config.
  destruct Hcase as [Hne | ->].
  - destruct to_add as [|k l]; [congruence|]. cbn [List.length Nat.eqb]. reads_steps.
  - cbn [negb]. reads_steps.
Qed.

Lemma input_is_read_only_to_confirm_witness :
  exists st',
    final_state
      (_add_using_url Fixtures.empty_world 1 (Fixtures.manifest []) Fixtures.REPO
                      [] (ByStr "cfbs add") None true (Fixtures.fresh ["n"]))
    = Some st'
    /\ stdin st' = stdin (Fixtures.fresh ["n"]).
Proof.
  eexists. split; [vm_compute; reflexivity|].
  apply (input_is_read_only_to_confirm
           Fixtures.empty_world 1 (Fixtures.manifest []) Fixtures.REPO
           [] (ByStr "cfbs add") None true (Fixtures.fresh ["n"])).
  - right. reflexivity.
  - vm_compute. reflexivity.
Defined.

(** ** A dependency that is not met *)






(** ** Local policy files *)



(** ** The attribution of a request *)

Lemma translate_length env index to_add :
  forall st ts st1,
    translate env index to_add st = Done ts st1 -> List.length ts = List.length to_add.
Proof.
  induction to_add as [|r l IH]; intros st ts st1 H; cbn in H.
  - injection H as <- _. reflexivity.
  - destruct (bind_done_inv _ _ _ _ _ H) as [t [st2 [_ H2]]].
    destruct (bind_done_inv _ _ _ _ _ H2) as [ts' [st3 [Hl H3]]].
    injection H3 as <- _. cbn. f_equal. apply (IH _ _ _ Hl).
Qed.

(** X25: the attribution has to cover the request.  When [added_by] is a
    list that is not as long as the request, or a dictionary without a key
    for one of the translated names, the direct add fails its assertion
    right after the translation: the alias notices are printed, and the
    build list is as it was. *)
Theorem attribution_must_cover_request :
  forall env fuel self to_add attribution st ts st1,
    translate env (cfg_index self) to_add st = Done ts st1 ->
    match attribution with
    | ByStr _ => False
    | ByList l => List.length l <> List.length to_add
    | ByDict d => exists k, In k ts /\ dget k d = None
    end ->
    _add_modules env fuel self to_add attribution st = Fail AssertionError st1
    /\ build st1 = build st.
Proof.
  intros env fuel self to_add attribution st ts st1 Ht Hbad.
  split.
  - rewrite _add_modules_unfold. cbv zeta.
    rewrite (bind_done _ _ _ _ _ Ht).
    assert (Hd : added_by_dict ts attribution = Err AssertionError).
    { unfold added_by_dict. destruct attribution as [s|l|d]; [destruct Hbad| |].
      - rewrite (translate_length _ _ _ _ _ _ Ht).
        apply Nat.eqb_neq in Hbad. rewrite Hbad. reflexivity.
      - destruct Hbad as [k [Hk Hnone]].
        assert (Hex : existsb (fun k => negb (dmem k d)) ts = true).
        { apply existsb_exists. exists k. split; [exact Hk|].
          unfold dmem. rewrite Hnone. reflexivity. }
        rewrite Hex. reflexivity. }
    rewrite Hd. reflexivity.
  - pose proof (translate_build env (cfg_index self) to_add st) as H.
    rewrite Ht in H. exact H.
Qed.

Lemma attribution_must_cover_request_witness :
  _add_modules Fixtures.empty_world 1 (Fixtures.manifest Fixtures.renamed_index)
               ["old"; "autorun"] (ByList ["a"]) (Fixtures.fresh [])
  = Fail AssertionError (mkState [] [Print "old is an alias for a"] [])
  /\ build (mkState [] [Print "old is an alias for a"] []) = build (Fixtures.fresh []).
Proof.
  apply (attribution_must_cover_request
           Fixtures.empty_world 1 (Fixtures.manifest Fixtures.renamed_index)
           ["old"; "autorun"] (ByList ["a"]) (Fixtures.fresh [])
           ["a"; "autorun"] (mkState [] [Print "old is an alias for a"] [])).
  - reflexivity.
  - cbn. discriminate.
Defined.
